(** * Wine prefix management (lutris/util/wine/prefix.py)

    A shallow embedding of [WinePrefixManager] and of the parts of the
    Python runtime it drives: the file system seen through [os] and
    [os.path], the registry hives, the logger.

    Conventions of the model.
    - A file system is a finite map from path strings to nodes.  Paths are
      compared as strings, so they are meant to be in canonical form (no
      doubled or trailing slash, no dot components).  The root directory is
      the key "/"; the key of the empty string stands for the working
      directory of relative names.
    - [lstat]-like queries ([islink], [lexists]) look at the node itself;
      [stat]-like queries ([isdir], [isfile], [exists], [open]) follow a
      chain of symbolic links at the last component, at most [MAXSYMLINKS]
      of them.  Symbolic links in the middle of a path are not traversed:
      what is proved of the file system after a whole desktop-folder
      operation is stated where no such link is on the way
      ([native_profile], [laid_out]).
    - A string is a sequence of characters with code points below 256;
      a path holds no NUL character.  A file holds a string: the text
      that was written to it.  Reading it in text mode gives that text
      with its line ends translated, as Python does.
    - There are no permissions and no quotas: an operation fails only for
      the structural reasons POSIX gives ([ENOENT], [EEXIST], [ENOTDIR],
      ...).  So a file that could be opened for writing is written: a
      write that fails after the file was created or emptied is not part
      of the model, and no statement below takes a regular file for the
      sign of a write that went through.
    - A Python function that touches the world is a state transformer that
      returns either a value or the exception it raised, together with the
      world it left behind (nothing is rolled back when an exception
      propagates).  The world carries a trace of what was done: every
      successful file-system mutation, every registry access and every
      call of the logger. *)

From Stdlib Require Import ZArith Ascii.
From stdpp Require Import gmap strings list fin_maps pretty.

Open Scope Z_scope.

(** ** Python strings *)

Module Py.

(** [s[n:]] and [s[:n]] for a natural index. *)
Fixpoint drop (n : nat) (s : string) : string :=
  match n, s with
  | O, _ => s
  | S n', String _ s' => drop n' s'
  | S _, EmptyString => EmptyString
  end.

Fixpoint take (n : nat) (s : string) : string :=
  match n, s with
  | O, _ => EmptyString
  | S n', String a s' => String a (take n' s')
  | S _, EmptyString => EmptyString
  end.

Definition len (s : string) : Z := Z.of_nat (String.length s).

(** A slice index as Python clamps it: negative ones count from the end. *)
Definition clamp (s : string) (i : Z) : nat :=
  Z.to_nat (Z.min (len s) (if i <? 0 then Z.max 0 (len s + i) else i)).

(** [s[i:]] *)
Definition slice_from (s : string) (i : Z) : string := drop (clamp s i) s.

(** [s[:i]] *)
Definition slice_to (s : string) (i : Z) : string := take (clamp s i) s.

(** [strip_prefix p s] is the rest of [s] after its prefix [p]. *)
Fixpoint strip_prefix (p s : string) : option string :=
  match p with
  | EmptyString => Some s
  | String a p' =>
      match s with
      | EmptyString => None
      | String b s' => if decide (a = b) then strip_prefix p' s' else None
      end
  end.

(** [s.startswith(p)] *)
Definition startswith (s p : string) : bool :=
  match strip_prefix p s with Some _ => true | None => false end.

(** [s.endswith(x)] *)
Fixpoint endswith (s x : string) : bool :=
  if decide (s = x) then true
  else match s with
       | EmptyString => false
       | String _ s' => endswith s' x
       end.

(** [s.find(c)] and [s.rfind(c)] for a one-character [c]: an index,
    or [-1]. *)
Fixpoint find (c : ascii) (s : string) : Z :=
  match s with
  | EmptyString => -1
  | String a s' =>
      if decide (a = c) then 0
      else let r := find c s' in if r <? 0 then -1 else r + 1
  end.

Fixpoint rfind (c : ascii) (s : string) : Z :=
  match s with
  | EmptyString => -1
  | String a s' =>
      let r := rfind c s' in
      if 0 <=? r then r + 1 else if decide (a = c) then 0 else -1
  end.

(** [s.rstrip(c)] for a one-character [c]. *)
Fixpoint rstrip (c : ascii) (s : string) : string :=
  match s with
  | EmptyString => EmptyString
  | String a s' =>
      match rstrip c s' with
      | EmptyString => if decide (a = c) then EmptyString else String a EmptyString
      | r => String a r
      end
  end.

(** [s == c * len(s)] *)
Fixpoint all_chars (c : ascii) (s : string) : bool :=
  match s with
  | EmptyString => true
  | String a s' => bool_decide (a = c) && all_chars c s'
  end.

(** The truth value of a string: empty is false. *)
Definition truthy (s : string) : bool := negb (bool_decide (s = EmptyString)).

(** [a or b] on strings. *)
Definition or_else (a b : string) : string := if truthy a then a else b.

(** [str(z)] for an integer. *)
Definition str (z : Z) : string := pretty z.

(** White space as [int()] strips it, among the characters below 256:
    the six that C takes for white space, and the two others ([NEL] and the
    no-break space) that [int()] turns into a space before it parses.  The
    separators 28 to 31 are white space for [str.strip] but not for
    [int()]. *)
Definition is_space (a : ascii) : bool :=
  match a with
  | "009" | "010" | "011" | "012" | "013" | " " | "133" | "160" => true
  | _ => false
  end%char.

Fixpoint lstrip_ws (s : string) : string :=
  match s with
  | String a s' => if is_space a then lstrip_ws s' else s
  | EmptyString => EmptyString
  end.

Fixpoint rstrip_ws (s : string) : string :=
  match s with
  | EmptyString => EmptyString
  | String a s' =>
      match rstrip_ws s' with
      | EmptyString => if is_space a then EmptyString else String a EmptyString
      | r => String a r
      end
  end.

(** Decimal digits with single underscores between them. *)
Fixpoint digits_go (acc : Z) (after_underscore : bool) (s : string) : option Z :=
  match s with
  | EmptyString => if after_underscore then None else Some acc
  | String a s' =>
      match Ascii.is_nat a with
      | Some d => digits_go (10 * acc + Z.of_nat d) false s'
      | None =>
          if bool_decide (a = "_"%char) && negb after_underscore
          then digits_go acc true s'
          else None
      end
  end.

Definition digits (s : string) : option Z :=
  match s with
  | String a s' =>
      match Ascii.is_nat a with
      | Some d => digits_go (Z.of_nat d) false s'
      | None => None
      end
  | EmptyString => None
  end.

(** [int(s)] in base ten; [None] is [ValueError].  Below 256 the decimal
    digits are the ten of ASCII. *)
Definition int (s : string) : option Z :=
  match rstrip_ws (lstrip_ws s) with
  | String "+" r => digits r
  | String "-" r => Z.opp <$> digits r
  | t => digits t
  end.

(** What reading in text mode makes of the line ends: a carriage return,
    with the line feed that follows it if there is one, becomes a line
    feed. *)
Fixpoint universal_newlines (s : string) : string :=
  match s with
  | EmptyString => EmptyString
  | String a s' =>
      if decide (a = "013"%char) then
        String "010"%char
          (universal_newlines
             match s' with
             | String b s'' => if decide (b = "010"%char) then s'' else s'
             | EmptyString => s'
             end)
      else String a (universal_newlines s')
  end.

(** [s.lower()] on the ASCII letters.  Other characters are kept: none of
    them becomes part of an ASCII suffix that was not there. *)
Definition lower_char (a : ascii) : ascii :=
  let n := Ascii.nat_of_ascii a in
  if (65 <=? n)%nat && (n <=? 90)%nat then Ascii.ascii_of_nat (n + 32) else a.

Fixpoint lower (s : string) : string :=
  match s with
  | EmptyString => EmptyString
  | String a s' => String (lower_char a) (lower s')
  end.

End Py.

(** ** [os.path]: the pure part *)

Module posixpath.

(** [os.path.join(a, b)] *)
Definition join (a b : string) : string :=
  if Py.startswith b "/" then b
  else if negb (Py.truthy a) || Py.endswith a "/" then a +:+ b
  else a +:+ "/" +:+ b.

(** [os.path.split(p)] *)
Definition split (p : string) : string * string :=
  let i := Py.rfind "/" p + 1 in
  let head := Py.slice_to p i in
  let tail := Py.slice_from p i in
  let head := if Py.truthy head && negb (Py.all_chars "/" head)
              then Py.rstrip "/" head else head in
  (head, tail).

Definition dirname (p : string) : string := (split p).1.

End posixpath.


(** ** The world: file system, registry hives, trace *)

(** A node of the file system.  A directory does not list its entries:
    they are the keys that extend its own. *)
Inductive node :=
  | File (data : string)
  | Link (target : string)
  | Dir.

(** A value of a registry entry as Python sees it. *)
Inductive pyval :=
  | VStr (s : string)
  | VInt (z : Z).

Inductive errno :=
  | ENOENT | EEXIST | ENOTDIR | EISDIR | ENOTEMPTY | EINVAL | ELOOP.

(** The exceptions this code meets.  Every [OSError] subclass
    ([FileExistsError], [NotADirectoryError], ...) is an [OSError] with
    its error number. *)
Inductive exn :=
  | OSError (e : errno)
  | ValueError (msg : string)
  | AttributeError (msg : string)
  | IndexError (msg : string).

Inductive loglevel := WARNING | ERROR | EXCEPTION.

Inductive event :=
  | Unlinked (p : string)
  | RemovedDir (p : string)
  | Renamed (src dst : string)
  | MadeDir (p : string)
  | Symlinked (target p : string)
  | Wrote (p data : string)
  | HiveRead (file : string)
  | HiveSaved (file : string)
  | Logged (level : loglevel) (msg : string).

#[global] Instance node_eq_dec : EqDecision node.
Proof. solve_decision. Defined.
#[global] Instance pyval_eq_dec : EqDecision pyval.
Proof. solve_decision. Defined.
#[global] Instance errno_eq_dec : EqDecision errno.
Proof. solve_decision. Defined.
#[global] Instance exn_eq_dec : EqDecision exn.
Proof. solve_decision. Defined.
#[global] Instance loglevel_eq_dec : EqDecision loglevel.
Proof. solve_decision. Defined.
#[global] Instance event_eq_dec : EqDecision event.
Proof. solve_decision. Defined.

Abbreviation filesystem := (gmap string node).
Abbreviation hive := (gmap (string * string) pyval).
Abbreviation registry := (gmap string hive).

(** [trace] has the newest event first. *)
Record world := World {
  fs : filesystem;
  hives : registry;
  trace : list event
}.

#[global] Instance world_eq_dec : EqDecision world.
Proof. solve_decision. Defined.

Definition with_fs (m : filesystem) (w : world) : world :=
  World m (hives w) (trace w).
Definition with_hives (r : registry) (w : world) : world :=
  World (fs w) r (trace w).
Definition emit (e : event) (w : world) : world :=
  World (fs w) (hives w) (e :: trace w).

(** ** Python functions as state transformers with exceptions *)

Inductive outcome (A : Type) :=
  | Ok (a : A)
  | Raise (e : exn).
Arguments Ok {A} a.
Arguments Raise {A} e.

#[global] Instance outcome_eq_dec {A} `{EqDecision A} : EqDecision (outcome A).
Proof. solve_decision. Defined.

Definition M (A : Type) : Type := world -> outcome A * world.

Definition ret {A} (a : A) : M A := fun w => (Ok a, w).

Definition bind {A B} (m : M A) (k : A -> M B) : M B :=
  fun w =>
    match m w with
    | (Ok a, w') => k a w'
    | (Raise e, w') => (Raise e, w')
    end.

Definition raise {A} (e : exn) : M A := fun w => (Raise e, w).

(** [try: m  except <those of catches> as e: handler e] *)
Definition try_except {A} (m : M A) (catches : exn -> bool) (handler : exn -> M A) : M A :=
  fun w =>
    match m w with
    | (Raise e, w') => if catches e then handler e w' else (Raise e, w')
    | r => r
    end.

(** A read of the file system that cannot fail. *)
Definition probe {A} (f : filesystem -> A) : M A := fun w => (Ok (f (fs w)), w).

Definition tell (e : event) : M unit := fun w => (Ok tt, emit e w).

Notation "x <- m ;; k" := (bind m (fun x => k))
  (at level 100, m at next level, k at level 200, right associativity).
Notation "m ;;; k" := (bind m (fun _ => k))
  (at level 100, k at level 200, right associativity).

(** [for x in l: body x] *)
Fixpoint for_each {A} (l : list A) (body : A -> M unit) : M unit :=
  match l with
  | [] => ret tt
  | x :: l' => body x ;;; for_each l' body
  end.

Definition is_OSError (e : exn) : bool :=
  match e with OSError _ => true | _ => false end.
Definition is_FileExistsError (e : exn) : bool :=
  match e with OSError EEXIST => true | _ => false end.
Definition is_Exception (e : exn) : bool := true.

(** ** [logger] *)

Module logger.
Definition warning (msg : string) : M unit := tell (Logged WARNING msg).
Definition error (msg : string) : M unit := tell (Logged ERROR msg).
Definition exception (msg : string) : M unit := tell (Logged EXCEPTION msg).
End logger.

(** ** [os] and [os.path]: the file system *)

Module os.

Definition MAXSYMLINKS : nat := 40.

(** The key a path leads to once the symbolic links at its last
    component are followed; [None] when the chain is too long. *)
Fixpoint resolve_go (fuel : nat) (m : filesystem) (p : string) : option string :=
  match m !! p with
  | Some (Link t) =>
      match fuel with
      | O => None
      | S n => resolve_go n m (posixpath.join (posixpath.dirname p) t)
      end
  | _ => Some p
  end.

Definition resolve (m : filesystem) (p : string) : option string :=
  resolve_go MAXSYMLINKS m p.

Definition stat (m : filesystem) (p : string) : option node :=
  match resolve m p with
  | Some q => m !! q
  | None => None
  end.

(** [os.path.islink], [os.path.lexists], [os.path.isdir],
    [os.path.isfile], [os.path.exists] *)
Definition islink (p : string) (m : filesystem) : bool :=
  match m !! p with Some (Link _) => true | _ => false end.

Definition lexists (p : string) (m : filesystem) : bool :=
  match m !! p with Some _ => true | None => false end.

Definition isdir (p : string) (m : filesystem) : bool :=
  match stat m p with Some Dir => true | _ => false end.

Definition isfile (p : string) (m : filesystem) : bool :=
  match stat m p with Some (File _) => true | _ => false end.

Definition exists_ (p : string) (m : filesystem) : bool :=
  match stat m p with Some _ => true | None => false end.

(** The keys strictly inside directory [d] start with [child_prefix d]. *)
Definition child_prefix (d : string) : string :=
  if decide (d = "/") then "/" else d +:+ "/".

Definition inside (d k : string) : bool :=
  match Py.strip_prefix (child_prefix d) k with
  | Some (String _ _) => true
  | _ => false
  end.

Definition has_entries (d : string) (m : filesystem) : bool :=
  negb (bool_decide (map_Forall (fun k _ => inside d k = false) m)).

(** What the containing directory of [p] has to say about creating [p]. *)
Definition parent_check (p : string) (m : filesystem) : option errno :=
  match m !! posixpath.dirname p with
  | Some Dir => None
  | Some _ => Some ENOTDIR
  | None => Some ENOENT
  end.

(** Where an entry at or inside [src] goes when [src] is renamed to [dst]. *)
Definition rekey (src dst k : string) : string :=
  if decide (k = src) then dst
  else match Py.strip_prefix (child_prefix src) k with
       | Some (String a r) => child_prefix dst +:+ String a r
       | _ => k
       end.

Definition move_tree (src dst : string) (m : filesystem) : filesystem :=
  list_to_map (prod_map (rekey src dst) id <$> map_to_list m).

Definition fail {A} (e : errno) : M A := raise (OSError e).

(** A mutation that went through: new file system, one more event. *)
Definition commit (m : filesystem) (e : event) : M unit :=
  fun w => (Ok tt, emit e (with_fs m w)).

(** [os.unlink(p)], which is also [os.remove(p)] *)
Definition unlink (p : string) : M unit :=
  fun w =>
    match fs w !! p with
    | None => fail ENOENT w
    | Some Dir => fail EISDIR w
    | Some _ => commit (delete p (fs w)) (Unlinked p) w
    end.

Definition remove (p : string) : M unit := unlink p.

(** [os.rmdir(p)] *)
Definition rmdir (p : string) : M unit :=
  fun w =>
    match fs w !! p with
    | None => fail ENOENT w
    | Some Dir =>
        if has_entries p (fs w) then fail ENOTEMPTY w
        else commit (delete p (fs w)) (RemovedDir p) w
    | Some _ => fail ENOTDIR w
    end.

(** [os.rename(src, dst)]: a directory replaces nothing but an empty
    directory, anything else replaces anything but a directory. *)
Definition rename (src dst : string) : M unit :=
  fun w =>
    let m := fs w in
    match m !! src with
    | None => fail ENOENT w
    | Some n =>
        if decide (src = dst) then (Ok tt, w)
        else if inside src dst then fail EINVAL w
        else match parent_check dst m with
             | Some e => fail e w
             | None =>
                 match n, m !! dst with
                 | Dir, Some (File _ | Link _) => fail ENOTDIR w
                 | (File _ | Link _), Some Dir => fail EISDIR w
                 | _, _ =>
                     if has_entries dst m then fail ENOTEMPTY w
                     else commit (move_tree src dst (delete dst m)) (Renamed src dst) w
                 end
             end
    end.

(** [os.mkdir(p)] *)
Definition mkdir (p : string) : M unit :=
  fun w =>
    match fs w !! p with
    | Some _ => fail EEXIST w
    | None =>
        match parent_check p (fs w) with
        | Some e => fail e w
        | None => commit (<[p := Dir]> (fs w)) (MadeDir p) w
        end
    end.

(** [os.makedirs(name, exist_ok=True)], after the standard library:
    make the missing ancestors, then the leaf, and accept a leaf that is
    a directory already. *)
Fixpoint makedirs_go (fuel : nat) (name : string) : M unit :=
  match fuel with
  | O => fail ELOOP
  | S n =>
      let '(head, tail) := posixpath.split name in
      let '(head, tail) :=
        if Py.truthy tail then (head, tail) else posixpath.split head in
      let leaf :=
        try_except (mkdir name) is_OSError
          (fun e => d <- probe (isdir name) ;; if d then ret tt else raise e) in
      head_exists <- probe (exists_ head) ;;
      if Py.truthy head && Py.truthy tail && negb head_exists then
        try_except (makedirs_go n head) is_FileExistsError (fun _ => ret tt) ;;;
        if decide (tail = ".") then ret tt else leaf
      else leaf
  end.

Definition makedirs (name : string) : M unit :=
  makedirs_go (S (String.length name)) name.

(** [os.symlink(target, p)] *)
Definition symlink (target p : string) : M unit :=
  fun w =>
    match fs w !! p with
    | Some _ => fail EEXIST w
    | None =>
        match parent_check p (fs w) with
        | Some e => fail e w
        | None => commit (<[p := Link target]> (fs w)) (Symlinked target p) w
        end
    end.

(** [with open(p, "r", encoding="utf-8") as f: f.read()] *)
Definition read_text (p : string) : M string :=
  fun w =>
    match resolve (fs w) p with
    | None => fail ELOOP w
    | Some q =>
        match fs w !! q with
        | Some (File data) => (Ok (Py.universal_newlines data), w)
        | Some _ => fail EISDIR w
        | None => fail ENOENT w
        end
    end.

(** [with open(p, "w", encoding="utf-8") as f: f.write(data)].  What
    can fail is [open]; the line feeds of the text are written as they
    are. *)
Definition write_text (p data : string) : M unit :=
  fun w =>
    match resolve (fs w) p with
    | None => fail ELOOP w
    | Some q =>
        match fs w !! q with
        | Some (File _) => commit (<[q := File data]> (fs w)) (Wrote p data) w
        | Some _ => fail EISDIR w
        | None =>
            match parent_check q (fs w) with
            | Some e => fail e w
            | None => commit (<[q := File data]> (fs w)) (Wrote p data) w
            end
        end
    end.

End os.

(** ** Collaborators that prefix.py imports *)

(** Modelled from the spec: the hive store, class [WineRegistry] of
    [lutris.util.wine.registry], whose source is not at hand.  Its contract
    (section 6, Hive Store) is [open(path)], [query(keyPath, valueName) ->
    value|None], [setValue(keyPath, valueName, value)] and [save()]:
    opening a hive file gives an in-memory copy of its entries, [query] and
    [set_value] work on the copy, [save] writes the copy back.  A hive that
    was never saved has no entries. *)
Module WineRegistry.

Record t := Build {
  reg_filename : string;
  keys : hive
}.

Definition open (reg_filename : string) : M t :=
  fun w =>
    (Ok (Build reg_filename (default ∅ (hives w !! reg_filename))),
     emit (HiveRead reg_filename) w).

Definition query (r : t) (path subkey : string) : option pyval :=
  keys r !! (path, subkey).

Definition set_value (r : t) (path subkey : string) (value : pyval) : t :=
  Build (reg_filename r) (<[(path, subkey) := value]> (keys r)).

Definition save (r : t) : M unit :=
  fun w =>
    (Ok tt,
     emit (HiveSaved (reg_filename r))
       (with_hives (<[reg_filename r := keys r]> (hives w)) w)).

End WineRegistry.

(** The process environment and the host: [os.environ], the password
    database behind [os.path.expanduser], and the host's special folders
    ([lutris.util.xdgshortcuts.get_xdg_entry], the "host special-folder
    discovery" capability: a folder identifier gives a path or nothing). *)
Record Host := {
  environ : string -> option string;
  pw_dir_self : option string;
  pw_dir : string -> option string;
  get_xdg_entry : string -> option string
}.

(** [a or b] where [a] may be [None]. *)
Definition opt_or (a : option string) (b : string) : string :=
  match a with
  | Some s => Py.or_else s b
  | None => b
  end.

Definition opt_truthy (a : option string) : bool :=
  match a with
  | Some s => Py.truthy s
  | None => false
  end.

(** The truth value of what a registry query returns. *)
Definition val_truthy (v : option pyval) : bool :=
  match v with
  | None => false
  | Some (VStr s) => Py.truthy s
  | Some (VInt z) => negb (z =? 0)
  end.

(** [os.path.expanduser(path)] *)
Definition expanduser (host : Host) (path : string) : string :=
  if negb (Py.startswith path "~") then path
  else
    let j := Py.find "/" (Py.drop 1 path) in
    let i := if j <? 0 then Py.len path else j + 1 in
    let userhome :=
      if i =? 1 then
        match environ host "HOME" with
        | Some home => Some home
        | None => pw_dir_self host
        end
      else pw_dir host (Py.take (Z.to_nat (i - 1)) (Py.drop 1 path)) in
    match userhome with
    | None => path
    | Some userhome =>
        Py.or_else (Py.rstrip "/" userhome +:+ Py.slice_from path i) "/"
    end.

Module system.
(** Modelled from the spec: [path_exists] of [lutris.util.system], whose
    source is not at hand.  The spec does not describe it; it is taken as
    the existence test its name states (the operations ask it whether the
    guest user-profile directory exists): a non-empty path that leads
    somewhere, or is a symbolic link. *)
Definition path_exists (p : string) (m : filesystem) : bool :=
  Py.truthy p && (os.exists_ p m || os.islink p m).
End system.

(** ** The module under verification *)

Definition DESKTOP_KEYS : list string :=
  ["Desktop"; "Personal"; "My Music"; "My Videos"; "My Pictures"].
Definition DEFAULT_DESKTOP_FOLDERS : list string :=
  ["Desktop"; "Documents"; "Music"; "Videos"; "Pictures"].
Definition DESKTOP_XDG : list string :=
  ["DESKTOP"; "DOCUMENTS"; "MUSIC"; "VIDEOS"; "PICTURES"].

Record WinePrefixManager := { path : string }.

Definition hkcu_prefix : string := "HKEY_CURRENT_USER".
Definition hklm_prefix : string := "HKEY_LOCAL_MACHINE".

Definition lift {A} (o : outcome A) : M A := fun w => (o, w).

Section Manager.

Context (host : Host) (self : WinePrefixManager).

Definition get_user_dir (default_user : option string) : string :=
  let user := opt_or default_user (opt_or (environ host "USER") "lutrisuser") in
  posixpath.join (posixpath.join (path self) "drive_c/users/") user.

Definition user_dir : string := get_user_dir None.

Definition get_registry_path (key : string) : outcome string :=
  if Py.startswith key hkcu_prefix then Ok (posixpath.join (path self) "user.reg")
  else if Py.startswith key hklm_prefix then Ok (posixpath.join (path self) "system.reg")
  else Raise (ValueError ("Unsupported key '" +:+ key +:+ "'")).

Definition get_key_path (key : string) : outcome string :=
  if Py.startswith key hkcu_prefix then Ok (Py.slice_from key (Py.len hkcu_prefix + 1))
  else if Py.startswith key hklm_prefix then Ok (Py.slice_from key (Py.len hklm_prefix + 1))
  else Raise (ValueError ("The key " +:+ key +:+ " is currently not supported by WinePrefixManager")).

Definition get_registry_key (key subkey : string) : M (option pyval) :=
  file <- lift (get_registry_path key) ;;
  registry <- WineRegistry.open file ;;
  key_path <- lift (get_key_path key) ;;
  ret (WineRegistry.query registry key_path subkey).

Definition set_registry_key (key subkey : string) (value : pyval) : M unit :=
  file <- lift (get_registry_path key) ;;
  registry <- WineRegistry.open file ;;
  key_path <- lift (get_key_path key) ;;
  WineRegistry.save (WineRegistry.set_value registry key_path subkey value).

Definition DLL_MODES : list string :=
  ["builtin"; "native"; "builtin,native"; "native,builtin"; EmptyString].

Definition override_dll (dll mode : string) : M unit :=
  let key := hkcu_prefix +:+ "/Software/Wine/DllOverrides" in
  let mode := if Py.startswith mode "dis" then EmptyString else mode in
  if negb (bool_decide (mode ∈ DLL_MODES)) then
    logger.error ("DLL override '" +:+ mode +:+ "' mode is not valid")
  else set_registry_key key dll (VStr mode).

Definition SHELL_FOLDERS : string :=
  hkcu_prefix +:+ "/Software/Microsoft/Windows/CurrentVersion/Explorer/Shell Folders".

(** The body of the [for key in DESKTOP_KEYS] loop, with the list built so
    far.  A registry value that is a non-zero integer has no [rfind]. *)
Fixpoint get_desktop_folders_loop (keys : list string) (desktop_folders : list string)
  : M (list string) :=
  match keys with
  | [] => ret desktop_folders
  | key :: keys' =>
      folder <- get_registry_key SHELL_FOLDERS key ;;
      if negb (val_truthy folder) then
        logger.warning ("Couldn't load shell folder name for " +:+ key) ;;;
        get_desktop_folders_loop keys' desktop_folders
      else
        match folder with
        | Some (VStr folder) =>
            get_desktop_folders_loop keys'
              (desktop_folders ++ [Py.slice_from folder (Py.rfind "\" folder + 1)])
        | _ => raise (AttributeError "'int' object has no attribute 'rfind'")
        end
  end.

Definition get_desktop_folders : M (list string) :=
  desktop_folders <- get_desktop_folders_loop DESKTOP_KEYS [] ;;
  ret (match desktop_folders with [] => DEFAULT_DESKTOP_FOLDERS | _ => desktop_folders end).

Definition _remove_desktop_folder (path safe_path : string) : M unit :=
  is_link <- probe (os.islink path) ;;
  if is_link then os.unlink path
  else
    is_dir <- probe (os.isdir path) ;;
    if is_dir then
      try_except (os.rmdir path) is_OSError (fun _ => os.rename path safe_path)
    else ret tt.

Definition setting_path : string :=
  posixpath.join (path self) ".lutris_destkop_integration".

Definition _get_desktop_integration_assignment : M string :=
  try_except
    (is_file <- probe (os.isfile setting_path) ;;
     if is_file then os.read_text setting_path else ret EmptyString)
    is_Exception
    (fun _ =>
       logger.exception "Unable to read Lutris desktop integration setting" ;;;
       ret EmptyString).

Definition _set_desktop_integration_assignment (desktop_dir : string) : M unit :=
  try_except
    (if Py.truthy desktop_dir then os.write_text setting_path desktop_dir
     else
       is_file <- probe (os.isfile setting_path) ;;
       if is_file then os.remove setting_path else ret tt)
    is_Exception
    (fun _ => logger.exception "Unable to write Lutris desktop integration setting").

(** [system.path_exists(user_dir) and self._get_desktop_integration_assignment() != target] *)
Definition needs_transition (target : string) : M bool :=
  present <- probe (system.path_exists user_dir) ;;
  if present then
    assignment <- _get_desktop_integration_assignment ;;
    ret (negb (bool_decide (assignment = target)))
  else ret false.

(** One turn of the loop of [enable_desktop_disintegration]. *)
Definition disintegrate_folder (item : string) : M unit :=
  let path := posixpath.join user_dir item in
  let safe_path := path +:+ ".winecfg" in
  is_link <- probe (os.islink path) ;;
  if negb is_link then ret tt
  else
    _remove_desktop_folder path safe_path ;;;
    saved <- probe (os.isdir safe_path) ;;
    if saved then os.rename safe_path path else os.makedirs path.

Definition enable_desktop_disintegration : M unit :=
  go <- needs_transition user_dir ;;
  if go then
    desktop_folders <- get_desktop_folders ;;
    for_each desktop_folders disintegrate_folder ;;;
    _set_desktop_integration_assignment user_dir
  else ret tt.

(** One turn of the loop of [enable_desktop_integration_sandbox].  The
    [TypeError] handler around [os.path.join] has nothing to catch here:
    both arguments are strings. *)
Definition sandbox_folder (desktop_dir item : string) : M unit :=
  let path := posixpath.join user_dir item in
  let safe_path := path +:+ ".winecfg" in
  _remove_desktop_folder path safe_path ;;;
  let src_path := posixpath.join desktop_dir item in
  os.makedirs src_path ;;;
  os.symlink src_path path.

Definition enable_desktop_integration_sandbox (desktop_dir : option string) : M unit :=
  let desktop_dir :=
    match desktop_dir with
    | Some d => if Py.truthy d then expanduser host d else user_dir
    | None => user_dir
    end in
  if decide (desktop_dir = user_dir) then enable_desktop_disintegration
  else
    go <- needs_transition desktop_dir ;;
    if go then
      desktop_folders <- get_desktop_folders ;;
      for_each desktop_folders (sandbox_folder desktop_dir) ;;;
      _set_desktop_integration_assignment desktop_dir
    else ret tt.

(** One turn of the loop of [restore_desktop_integration]; [i] is the
    index [enumerate] gives. *)
Definition restore_folder (i : nat) (item : string) : M unit :=
  let path := posixpath.join user_dir item in
  let safe_path := path +:+ ".winecfg" in
  _remove_desktop_folder path safe_path ;;;
  match DESKTOP_XDG !! i with
  | None => raise (IndexError "list index out of range")
  | Some xdg =>
      let src_path := get_xdg_entry host xdg in
      if negb (opt_truthy src_path) then
        logger.error ("No XDG entry found for " +:+ xdg +:+ ", launcher not created")
      else os.symlink (default EmptyString src_path) path
  end.

(** [for i, item in enumerate(l): body i item], counting from [i]. *)
Fixpoint for_each_indexed {A} (i : nat) (l : list A) (body : nat -> A -> M unit) : M unit :=
  match l with
  | [] => ret tt
  | x :: l' => body i x ;;; for_each_indexed (S i) l' body
  end.

Definition restore_desktop_integration : M unit :=
  let home_dir := expanduser host "~" in
  go <- needs_transition home_dir ;;
  if go then
    desktop_folders <- get_desktop_folders ;;
    for_each_indexed 0 desktop_folders restore_folder ;;;
    _set_desktop_integration_assignment home_dir
  else ret tt.

Definition assignment_path : string :=
  posixpath.join (path self) ".lutris_dpi_assignment".

Definition key_paths : list string :=
  [hkcu_prefix +:+ "/Software/Wine/Fonts"; hkcu_prefix +:+ "/Control Panel/Desktop"].

Definition assign_dpi (dpi : Z) : M unit :=
  for_each key_paths (fun key_path => set_registry_key key_path "LogPixels" (VInt dpi)).

(** The loop of [is_lutris_dpi_assigned]: [False] at the first location
    that differs. *)
Fixpoint dpi_matches (assigned_dpi : Z) (key_paths : list string) : M bool :=
  match key_paths with
  | [] => ret true
  | key_path :: rest =>
      current <- get_registry_key key_path "LogPixels" ;;
      if negb (bool_decide (current = Some (VInt assigned_dpi))) then ret false
      else dpi_matches assigned_dpi rest
  end.

(** The [try] block reads and parses the marker; anything it raises is
    logged and answered [False]. *)
Definition is_lutris_dpi_assigned : M bool :=
  assigned <-
    try_except
      (text <- os.read_text assignment_path ;;
       match Py.int text with
       | Some n => ret (Some n)
       | None => raise (ValueError "invalid literal for int() with base 10")
       end)
      is_Exception
      (fun _ => logger.exception "Unable to read Lutris assigned DPI" ;;; ret None) ;;
  match assigned with
  | None => ret false
  | Some assigned_dpi => dpi_matches assigned_dpi key_paths
  end.

(** [dpi] is an integer or [None]; [None] and [0] are false. *)
Definition int_truthy (dpi : option Z) : bool :=
  match dpi with
  | Some d => negb (d =? 0)
  | None => false
  end.

Definition set_dpi (dpi : option Z) : M unit :=
  if int_truthy dpi then
    let dpi := default 0 dpi in
    assign_dpi dpi ;;;
    os.write_text assignment_path (Py.str dpi)
  else
    is_file <- probe (os.isfile assignment_path) ;;
    if is_file then
      assigned <- is_lutris_dpi_assigned ;;
      (if assigned then assign_dpi 96 else ret tt) ;;;
      os.remove assignment_path
    else ret tt.

End Manager.

(** ** The rest of the module *)

(** The dictionary, as the list of its items. *)
Definition DEFAULT_DLL_OVERRIDES : list (string * string) :=
  [("winemenubuilder", EmptyString)].

Definition is_prefix (path : string) (m : filesystem) : bool :=
  os.isdir (posixpath.join path "drive_c") m
  && os.exists_ (posixpath.join path "user.reg") m.

Definition PREFIX_DIRS : list string := ["prefix"; "pfx"].

(** The [while] loop of [find_prefix], which only reads the file system.
    [Some r] is what the loop returns ([r] is the prefix found, or [None]
    when the loop ran to its end); [None] is a loop that is still running
    when the fuel is spent. *)
Fixpoint find_prefix_loop (fuel : nat) (dir_path : string) (m : filesystem)
  : option (option string) :=
  match fuel with
  | O => None
  | S n =>
      if bool_decide (dir_path <> "/") && Py.truthy dir_path then
        let dir_path := posixpath.dirname dir_path in
        if is_prefix dir_path m then Some (Some dir_path)
        else
          match List.find (fun prefix_dir => is_prefix (posixpath.join dir_path prefix_dir) m)
                  PREFIX_DIRS with
          | Some prefix_dir => Some (Some (posixpath.join dir_path prefix_dir))
          | None => find_prefix_loop n dir_path m
          end
      else Some None
  end.

(** [find_prefix(path)]: the result together with the messages logged at
    the info level, of which the trace of the world keeps no record. *)
Definition find_prefix (fuel : nat) (path : string) (m : filesystem)
  : option (option string * list string) :=
  if negb (Py.truthy path)
  then Some (None, ["No path given, unable to guess prefix location"])
  else (fun r => (r, [])) <$> find_prefix_loop fuel path m.

(** [str(ex)] as far as the model goes: the error number, or the message. *)
Definition exn_text (e : exn) : string :=
  match e with
  | OSError ENOENT => "ENOENT"
  | OSError EEXIST => "EEXIST"
  | OSError ENOTDIR => "ENOTDIR"
  | OSError EISDIR => "EISDIR"
  | OSError ENOTEMPTY => "ENOTEMPTY"
  | OSError EINVAL => "EINVAL"
  | OSError ELOOP => "ELOOP"
  | ValueError msg | AttributeError msg | IndexError msg => msg
  end.

Section ManagerRest.

Context (host : Host) (self : WinePrefixManager).

(** A registry value that is an integer has no [lower]. *)
Definition appdata_dir : M string :=
  let user_dir := get_user_dir host self None in
  folder <- get_registry_key self SHELL_FOLDERS "AppData" ;;
  match folder with
  | None =>
      logger.warning "Get Registry Key function returned NoneType to variable folder." ;;;
      ret (posixpath.join user_dir "AppData/Roaming")
  | Some (VStr folder) =>
      if Py.endswith (Py.lower folder) "\application data"
      then ret (posixpath.join user_dir "Application Data")
      else ret (posixpath.join user_dir "AppData/Roaming")
  | Some (VInt _) => raise (AttributeError "'int' object has no attribute 'lower'")
  end.

Definition setup_defaults : M unit :=
  for_each DEFAULT_DLL_OVERRIDES (fun item => override_dll self item.1 item.2) ;;;
  try_except (enable_desktop_disintegration host self) is_OSError
    (fun ex =>
       logger.error "Failed to setup desktop integration, the prefix may not be valid." ;;;
       logger.exception (exn_text ex)).

(** [target_is_directory] means something on Windows only. *)
Definition create_user_symlinks : M unit :=
  let wine_user_dir := get_user_dir host self None in
  let proton_user_dir := get_user_dir host self (Some "steamuser") in
  wine_only <- probe (fun m => os.exists_ wine_user_dir m
                               && negb (os.exists_ proton_user_dir m)) ;;
  if wine_only then os.symlink wine_user_dir proton_user_dir
  else
    proton_only <- probe (fun m => os.exists_ proton_user_dir m
                                   && negb (os.exists_ wine_user_dir m)) ;;
    if proton_only then os.symlink proton_user_dir wine_user_dir else ret tt.

End ManagerRest.

(** ** A prefix to run the code on *)

Module Fixture.

Definition host : Host := {|
  environ := fun k =>
    if decide (k = "USER") then Some "joe"
    else if decide (k = "HOME") then Some "/home/joe" else None;
  pw_dir_self := Some "/home/joe";
  pw_dir := fun _ => None;
  get_xdg_entry := fun k =>
    if decide (k = "DESKTOP") then Some "/home/joe/Desktop"
    else if decide (k = "DOCUMENTS") then Some "/home/joe/Documents"
    else None
|}.

Definition self : WinePrefixManager := {| path := "/pfx" |}.

Definition dirs (l : list string) : filesystem :=
  list_to_map ((fun p => (p, Dir)) <$> l).

(** Directories every fixture has. *)
Definition base : filesystem :=
  dirs ["/"; "/tmp"; "/home"; "/home/joe"; "/home/joe/Desktop"; "/home/joe/Documents";
        "/pfx"; "/pfx/drive_c"; "/pfx/drive_c/users"].

(** A prefix whose user profile holds a [Desktop] with a file in it, an
    empty [Documents], and nothing else. *)
Definition profile : filesystem :=
  <["/pfx/drive_c/users/joe/Desktop/notes.txt" := File "hello"]>
    (dirs ["/pfx/drive_c/users/joe"; "/pfx/drive_c/users/joe/Desktop";
           "/pfx/drive_c/users/joe/Documents"] ∪ base).

Definition start (m : filesystem) : world := World m ∅ [].

(** The prefix before Wine made a profile for the user. *)
Definition bare : world := start base.

(** The prefix with a native profile. *)
Definition native : world := start profile.

(** The prefix with a directory where the assignment marker goes, so that
    the marker cannot be written. *)
Definition unwritable : world :=
  start (<["/pfx/.lutris_destkop_integration" := Dir]> profile).

(** The same prefix once its folders were sandboxed in [/tmp/sandbox]. *)
Definition sandboxed : world :=
  (enable_desktop_integration_sandbox host self (Some "/tmp/sandbox") native).2.

End Fixture.

(** Worlds with registry entries. *)
Module FixtureRegistry.
Import Fixture.

(** A user hive that names two of the five shell folders only. *)
Definition partial_hive : hive :=
  <[("Software/Microsoft/Windows/CurrentVersion/Explorer/Shell Folders", "Desktop")
      := VStr "C:\users\joe\Bureau"]>
    (<[("Software/Microsoft/Windows/CurrentVersion/Explorer/Shell Folders", "My Music")
         := VStr "C:\users\joe\Musique"]> ∅).

Definition partial : world := World profile {["/pfx/user.reg" := partial_hive]} [].



(** The DPI marker says 120; [set] has both registry locations at 120,
    [changed] has one of them changed behind the manager's back. *)
Definition dpi_hive (fonts desktop : Z) : hive :=
  <[("Software/Wine/Fonts", "LogPixels") := VInt fonts]>
    (<[("Control Panel/Desktop", "LogPixels") := VInt desktop]> ∅).

Definition with_dpi (fonts desktop : Z) : world :=
  World (<["/pfx/.lutris_dpi_assignment" := File "120"]> profile)
        {["/pfx/user.reg" := dpi_hive fonts desktop]} [].

End FixtureRegistry.

(** ** Vocabulary of the statements *)

(** The entries of a hive file as [WineRegistry] reads them. *)
Definition hive_of (file : string) (w : world) : hive := default ∅ (hives w !! file).

(** The user hive of the prefix. *)
Definition user_reg (self : WinePrefixManager) : string :=
  posixpath.join (path self) "user.reg".

(** The folder name [get_desktop_folders] takes from a registry value:
    what follows the last backslash. *)
Definition folder_name (folder : string) : string :=
  Py.slice_from folder (Py.rfind "\" folder + 1).

Definition shell_folder (h : hive) (key : string) : option pyval :=
  h !! ("Software/Microsoft/Windows/CurrentVersion/Explorer/Shell Folders", key).

(** The names of the shell folders a hive has a usable value for, in the
    order of [keys]. *)
Definition names_read (h : hive) (keys : list string) : list string :=
  omap (fun key =>
          match shell_folder h key with
          | Some (VStr s) => if Py.truthy s then Some (folder_name s) else None
          | _ => None
          end) keys.

(** The two places of the registry that hold the DPI. *)
Definition fonts_entry : string * string := ("Software/Wine/Fonts", "LogPixels").
Definition desktop_entry : string * string := ("Control Panel/Desktop", "LogPixels").

Definition reset_dpi (h : hive) : hive :=
  <[desktop_entry := VInt 96]> (<[fonts_entry := VInt 96]> h).

(** The integer the DPI marker records, when it is a file that holds one. *)
Definition marker_dpi (self : WinePrefixManager) (m : filesystem) : option Z :=
  match os.stat m (assignment_path self) with
  | Some (File data) => Py.int (Py.universal_newlines data)
  | _ => None
  end.

(** Both registry locations hold the integer of the marker. *)
Definition dpi_is_ours (self : WinePrefixManager) (w : world) : bool :=
  match marker_dpi self (fs w) with
  | Some n =>
      bool_decide (hive_of (user_reg self) w !! fonts_entry = Some (VInt n))
      && bool_decide (hive_of (user_reg self) w !! desktop_entry = Some (VInt n))
  | None => false
  end.

(** The events that are mutations of the file system. *)
Definition is_mutation (e : event) : bool :=
  match e with
  | Unlinked _ | RemovedDir _ | Renamed _ _ | MadeDir _ | Symlinked _ _ | Wrote _ _ => true
  | _ => false
  end.

Definition is_save (e : event) : bool :=
  match e with HiveSaved _ => true | _ => false end.
Definition is_write (e : event) : bool :=
  match e with Wrote _ _ => true | _ => false end.

(** The assignment the marker file records: its text as it is read, or
    the empty string when there is no such file. *)
Definition assignment (self : WinePrefixManager) (m : filesystem) : string :=
  match os.stat m (setting_path self) with
  | Some (File data) => Py.universal_newlines data
  | _ => EmptyString
  end.

(** The report of a write of the assignment marker that failed. *)
Definition write_failure : event :=
  Logged EXCEPTION "Unable to write Lutris desktop integration setting".

(** A user profile, with an empty registry, that has an empty regular
    file where its [Desktop] folder is expected, and nothing else. *)
Definition blocked_desktop (host : Host) (self : WinePrefixManager) : world :=
  World (<[user_dir host self := Dir]>
           {[posixpath.join (user_dir host self) "Desktop" := File EmptyString]})
        ∅ [].

(** [k] is the directory [d] or lies inside it. *)
Definition at_or_inside (d k : string) : Prop := k = d \/ os.inside d k = true.

(** [m'] is [m] with the tree at [src] moved to [dst]: every entry at or
    inside [src] is found at its new key, nothing is left at or inside
    [src], and the rest of the file system is as it was. *)
Definition moved (src dst : string) (m m' : filesystem) : Prop :=
  (forall k, at_or_inside src k -> m' !! os.rekey src dst k = m !! k)
  /\ (forall k, at_or_inside src k -> m' !! k = None)
  /\ (forall k, ~ at_or_inside src k -> ~ at_or_inside dst k -> m' !! k = m !! k).



(** Where the renames among the events [l] (newest first) take what was
    at the key [k]. *)
Fixpoint route (l : list event) (k : string) : string :=
  match l with
  | [] => k
  | Renamed src dst :: l' => os.rekey src dst (route l' k)
  | _ :: l' => route l' k
  end.


(** A file system with nothing at or inside [dst]. *)
Definition clear_of (dst : string) (m : filesystem) : Prop :=
  forall k, is_Some (m !! k) -> ~ at_or_inside dst k.













(** A computation that raises, raises an exception of [P]. *)
Definition raises_only {A} (P : exn -> Prop) (c : M A) : Prop :=
  forall w e w', c w = (Raise e, w') -> P e.

(** What [os] raises: an [OSError], whatever the call. *)
Definition os_error (e : exn) : Prop := is_OSError e = true.

(** A computation that does not write the registry, however it ends: the
    hives are as they were, and no event it adds is the save of a hive. *)
Definition saves_no_hive {A} (c : M A) : Prop :=
  forall w r w', c w = (r, w') ->
    hives w' = hives w
    /\ exists l, trace w' = l ++ trace w /\ List.filter is_save l = [].

(** Some shell folder of the user hive holds an integer that is not zero:
    a value [get_desktop_folders] cannot take a name from. *)
Definition odd_shell_folder (self : WinePrefixManager) (w : world) : Prop :=
  exists key z, key ∈ DESKTOP_KEYS
    /\ shell_folder (hive_of (user_reg self) w) key = Some (VInt z) /\ z <> 0.

(** The events of the lookups of [get_desktop_folders], oldest first: the
    hive is read for every key, a warning follows each lookup that gives
    no value or an empty one, and a value that is a non-zero integer ends
    the loop. *)
Fixpoint lookup_events (file : string) (h : hive) (keys : list string) : list event :=
  match keys with
  | [] => []
  | key :: keys' =>
      let warned :=
        Logged WARNING ("Couldn't load shell folder name for " +:+ key)
        :: lookup_events file h keys' in
      HiveRead file ::
      match shell_folder h key with
      | Some (VStr s) => if Py.truthy s then lookup_events file h keys' else warned
      | Some (VInt z) => if z =? 0 then warned else []
      | None => warned
      end
  end.

(** A computation that only adds entries to the file system, however it
    ends: what was there is there, unchanged. *)
Definition only_adds {A} (c : M A) : Prop :=
  forall w r w', c w = (r, w') -> fs w ⊆ fs w'.

(** The directory [find_prefix] looks at in its turn [k]: the path with
    its last [k] components taken off. *)
Definition ancestor (k : nat) (path : string) : string :=
  Nat.iter k posixpath.dirname path.

(** The places where [find_prefix] looks for a prefix at a directory, in
    the order it tries them. *)
Definition candidates (d : string) : list string :=
  d :: (posixpath.join d <$> PREFIX_DIRS).

Definition no_prefix_at (d : string) (m : filesystem) : Prop :=
  Forall (fun p => is_prefix p m = false) (candidates d).





(** A closed, decidable statement is settled by evaluating its decision. *)
Ltac by_evaluation := cbv zeta; apply (bool_decide_unpack _); vm_compute; exact I.

(** * Proofs *)

(** ** Strings *)

Lemma app_cons (a : ascii) (s t : string) : String a s +:+ t = String a (s +:+ t).
Proof. reflexivity. Qed.

Lemma app_assoc_str (s t u : string) : (s +:+ t) +:+ u = s +:+ t +:+ u.
Proof. induction s as [|a s IH]; [done|]. by rewrite !app_cons, IH. Qed.

Lemma length_app_str (s t : string) :
  String.length (s +:+ t) = (String.length s + String.length t)%nat.
Proof. induction s as [|a s IH]; [done|]. rewrite app_cons. simpl. by rewrite IH. Qed.

Lemma strip_prefix_Some (p s r : string) :
  Py.strip_prefix p s = Some r <-> s = p +:+ r.
Proof.
  revert s. induction p as [|a p IH]; intros s; simpl.
  - split; [by intros [= ->] | by intros ->].
  - destruct s as [|b s].
    + split; [done | by rewrite app_cons].
    + rewrite app_cons. destruct (decide (a = b)) as [->|Hne].
      * rewrite IH. split; [by intros -> | by intros [= ->]].
      * split; [done | intros [= ? ?]; congruence].
Qed.

Lemma strip_prefix_app (p r : string) : Py.strip_prefix p (p +:+ r) = Some r.
Proof. by apply strip_prefix_Some. Qed.

Lemma startswith_true (s p : string) :
  Py.startswith s p = true <-> exists r, s = p +:+ r.
Proof.
  unfold Py.startswith. destruct (Py.strip_prefix p s) as [r|] eqn:E.
  - apply strip_prefix_Some in E. split; eauto.
  - split; [done|]. intros [r ->]. by rewrite strip_prefix_app in E.
Qed.

Lemma endswith_refl (x : string) : Py.endswith x x = true.
Proof. destruct x; simpl; [done|]. by rewrite decide_True. Qed.

Lemma endswith_app (p x : string) : Py.endswith (p +:+ x) x = true.
Proof.
  induction p as [|a p IH]; [apply endswith_refl|].
  rewrite app_cons. simpl. by destruct (decide _).
Qed.

Lemma join_endswith (a b : string) : Py.endswith (posixpath.join a b) b = true.
Proof.
  unfold posixpath.join.
  destruct (Py.startswith b "/").
  - apply (endswith_app EmptyString).
  - destruct (_ || _).
    + apply endswith_app.
    + rewrite <- app_assoc_str. apply endswith_app.
Qed.

(** The two hive identifiers exclude each other. *)
Lemma hives_disjoint (key : string) :
  Py.startswith key hkcu_prefix = true -> Py.startswith key hklm_prefix = false.
Proof.
  intros [r ->]%startswith_true. reflexivity.
Qed.

(** ** Registry access *)

Section Registry.

Context (self : WinePrefixManager).

Lemma get_registry_key_ok (key subkey file key_path : string) (w : world) :
  get_registry_path self key = Ok file ->
  get_key_path key = Ok key_path ->
  get_registry_key self key subkey w
  = (Ok (hive_of file w !! (key_path, subkey)), emit (HiveRead file) w).
Proof.
  intros Hf Hk. unfold get_registry_key, bind, lift. by rewrite Hf, Hk.
Qed.

Lemma set_registry_key_ok (key subkey file key_path : string) (value : pyval) (w : world) :
  get_registry_path self key = Ok file ->
  get_key_path key = Ok key_path ->
  set_registry_key self key subkey value w
  = (Ok tt,
     emit (HiveSaved file)
       (with_hives (<[file := <[(key_path, subkey) := value]> (hive_of file w)]> (hives w))
          (emit (HiveRead file) w))).
Proof.
  intros Hf Hk. unfold set_registry_key, bind, lift. by rewrite Hf, Hk.
Qed.

Lemma get_registry_key_raise (key subkey : string) (e : exn) (w : world) :
  get_registry_path self key = Raise e ->
  get_registry_key self key subkey w = (Raise e, w).
Proof. intros Hf. unfold get_registry_key, bind, lift. by rewrite Hf. Qed.

Lemma set_registry_key_raise (key subkey : string) (value : pyval) (e : exn) (w : world) :
  get_registry_path self key = Raise e ->
  set_registry_key self key subkey value w = (Raise e, w).
Proof. intros Hf. unfold set_registry_key, bind, lift. by rewrite Hf. Qed.

(** C6.  A key address that starts with the user-hive identifier is routed
    to the prefix's [user.reg], one that starts with the machine-hive
    identifier to the prefix's [system.reg]; for an address that starts
    with neither, [get_registry_path] and [get_key_path] both raise
    [ValueError], and the registry accessors built on them let it through
    and leave the world as it was. *)
Theorem router_contract (key : string) :
  (Py.startswith key hkcu_prefix = true ->
   get_registry_path self key = Ok (posixpath.join (path self) "user.reg")
   /\ Py.endswith (posixpath.join (path self) "user.reg") "user.reg" = true) /\
  (Py.startswith key hklm_prefix = true ->
   get_registry_path self key = Ok (posixpath.join (path self) "system.reg")
   /\ Py.endswith (posixpath.join (path self) "system.reg") "system.reg" = true) /\
  (Py.startswith key hkcu_prefix = false ->
   Py.startswith key hklm_prefix = false ->
   (exists msg, get_registry_path self key = Raise (ValueError msg)) /\
   (exists msg, get_key_path key = Raise (ValueError msg)) /\
   (forall subkey w, exists msg,
      get_registry_key self key subkey w = (Raise (ValueError msg), w)) /\
   (forall subkey value w, exists msg,
      set_registry_key self key subkey value w = (Raise (ValueError msg), w))).
Proof.
  split; [|split].
  - intros Hu. unfold get_registry_path. rewrite Hu. split; [done|apply join_endswith].
  - intros Hm. unfold get_registry_path.
    destruct (Py.startswith key hkcu_prefix) eqn:Hu.
    + apply hives_disjoint in Hu. congruence.
    + rewrite Hm. split; [done|apply join_endswith].
  - intros Hu Hm.
    assert (Hp : exists msg, get_registry_path self key = Raise (ValueError msg)).
    { unfold get_registry_path. rewrite Hu, Hm. eauto. }
    split; [exact Hp|]. split.
    { unfold get_key_path. rewrite Hu, Hm. eauto. }
    destruct Hp as [msg Hp]. split.
    + intros subkey w. exists msg. by apply get_registry_key_raise.
    + intros subkey value w. exists msg. by apply set_registry_key_raise.
Qed.

(** C7.  [override_dll] with a mode that starts with the disable
    convention, such as "disabled", does what it does with the empty mode:
    it stores the empty string for the DLL in the user hive.  With a mode
    that does not start with the convention and is none of the five valid
    ones, such as "bogus", it logs an error, returns normally and leaves
    file system and registry as they were. *)
Theorem override_dll_modes (dll : string) (w : world) :
  override_dll self dll "disabled" w = override_dll self dll EmptyString w /\
  (forall mode, Py.startswith mode "dis" = true ->
     override_dll self dll mode w = override_dll self dll EmptyString w) /\
  (exists w', override_dll self dll "disabled" w = (Ok tt, w') /\ fs w' = fs w /\
     hives w' = <[user_reg self :=
                    <[("Software/Wine/DllOverrides", dll) := VStr EmptyString]>
                      (hive_of (user_reg self) w)]> (hives w)) /\
  (forall mode, Py.startswith mode "dis" = false -> mode ∉ DLL_MODES ->
     override_dll self dll mode w
     = (Ok tt, emit (Logged ERROR ("DLL override '" +:+ mode +:+ "' mode is not valid")) w)).
Proof.
  split; [reflexivity|]. split; [|split].
  - intros mode Hd. unfold override_dll. by rewrite Hd.
  - eexists. split; [|split].
    + unfold override_dll. simpl.
      by apply set_registry_key_ok.
    + done.
    + done.
  - intros mode Hd Hm. unfold override_dll. rewrite Hd.
    by rewrite bool_decide_eq_false_2.
Qed.

End Registry.

Lemma override_dll_modes_witness :
  override_dll Fixture.self "winemenubuilder" "bogus" Fixture.native
  = (Ok tt, emit (Logged ERROR "DLL override 'bogus' mode is not valid") Fixture.native).
Proof.
  apply (override_dll_modes Fixture.self "winemenubuilder" Fixture.native).
  - reflexivity.
  - by_evaluation.
Defined.


Lemma router_contract_witness :
  get_registry_path Fixture.self "HKEY_CURRENT_USER/Software/Wine/Fonts" = Ok "/pfx/user.reg"
  /\ get_registry_path Fixture.self "HKEY_LOCAL_MACHINE/System" = Ok "/pfx/system.reg"
  /\ (exists msg, get_key_path "HKEY_USERS/S-1-5" = Raise (ValueError msg)).
Proof.
  split; [|split].
  - apply (router_contract Fixture.self "HKEY_CURRENT_USER/Software/Wine/Fonts"). reflexivity.
  - apply (router_contract Fixture.self "HKEY_LOCAL_MACHINE/System"). reflexivity.
  - apply (router_contract Fixture.self "HKEY_USERS/S-1-5"); reflexivity.
Defined.

(** ** The desktop folder names *)

Section DesktopFolders.

Context (self : WinePrefixManager).

Lemma get_shell_folder (key : string) (w : world) :
  get_registry_key self SHELL_FOLDERS key w
  = (Ok (shell_folder (hive_of (user_reg self) w) key), emit (HiveRead (user_reg self)) w).
Proof. by apply get_registry_key_ok. Qed.

(** The loop with its trace, whatever the registry holds. *)
Lemma get_desktop_folders_loop_trace (keys acc : list string) (w : world) :
  let h := hive_of (user_reg self) w in
  exists r w',
    get_desktop_folders_loop self keys acc w = (r, w')
    /\ fs w' = fs w /\ hives w' = hives w
    /\ trace w' = rev (lookup_events (user_reg self) h keys) ++ trace w
    /\ ((exists key z, key ∈ keys /\ shell_folder h key = Some (VInt z) /\ z <> 0) ->
        exists msg, r = Raise (AttributeError msg))
    /\ (~ (exists key z, key ∈ keys /\ shell_folder h key = Some (VInt z) /\ z <> 0) ->
        r = Ok (acc ++ names_read h keys)).
Proof.
  revert acc w. induction keys as [|key keys IH]; intros acc w h.
  - exists (Ok acc), w. simpl. rewrite app_nil_r. repeat split; try done.
    intros (key & z & Hk & _). by apply elem_of_nil in Hk.
  - assert (Hwarn : forall v,
              shell_folder h key = v -> val_truthy v = false ->
              exists r w',
                (logger.warning ("Couldn't load shell folder name for " +:+ key) ;;;
                 get_desktop_folders_loop self keys acc)
                  (emit (HiveRead (user_reg self)) w) = (r, w')
                /\ fs w' = fs w /\ hives w' = hives w
                /\ trace w'
                   = rev (HiveRead (user_reg self)
                          :: Logged WARNING ("Couldn't load shell folder name for " +:+ key)
                          :: lookup_events (user_reg self) h keys) ++ trace w
                /\ ((exists key' z, key' ∈ key :: keys
                       /\ shell_folder h key' = Some (VInt z) /\ z <> 0) ->
                    exists msg, r = Raise (AttributeError msg))
                /\ (~ (exists key' z, key' ∈ key :: keys
                         /\ shell_folder h key' = Some (VInt z) /\ z <> 0) ->
                    r = Ok (acc ++ names_read h keys))).
    { intros v Hv Hfalsy. unfold bind at 1. simpl.
      destruct (IH acc (emit (Logged WARNING ("Couldn't load shell folder name for " +:+ key))
                          (emit (HiveRead (user_reg self)) w)))
        as (r & w' & Hrun & Hfs & Hh & Htr & Hodd & Hnames).
      exists r, w'. split; [exact Hrun|]. split; [done|]. split; [done|]. split.
      { rewrite Htr. simpl. by rewrite <- !app_assoc. }
      split.
      - intros (key' & z & Hk & Hz & Hnz). apply Hodd.
        apply elem_of_cons in Hk as [->|Hk]; [|by exists key', z].
        fold h in Hv. rewrite Hz in Hv. subst v. simpl in Hfalsy.
        apply negb_false_iff, Z.eqb_eq in Hfalsy. done.
      - intros Hno. apply Hnames. intros (key' & z & Hk & Hz). apply Hno.
        exists key', z. split; [by right|done]. }
    simpl get_desktop_folders_loop. unfold bind at 1. rewrite get_shell_folder. fold h.
    simpl lookup_events. simpl names_read.
    destruct (shell_folder h key) as [[s|z]|] eqn:Hv.
    + change (val_truthy (Some (VStr s))) with (Py.truthy s).
      destruct (Py.truthy s) eqn:Hs; simpl negb; cbv iota.
      * destruct (IH (acc ++ [folder_name s]) (emit (HiveRead (user_reg self)) w))
          as (r & w' & Hrun & Hfs & Hh & Htr & Hodd & Hnames).
        exists r, w'. split; [exact Hrun|]. split; [done|]. split; [done|]. split.
        { rewrite Htr. simpl. by rewrite <- !app_assoc. }
        split.
        -- intros (key' & z & Hk & Hz & Hnz). apply Hodd.
           apply elem_of_cons in Hk as [->|Hk]; [congruence|by exists key', z].
        -- intros Hno. rewrite Hnames.
           { simpl. by rewrite <- app_assoc. }
           intros (key' & z & Hk & Hz). apply Hno. exists key', z. split; [by right|done].
      * destruct (Hwarn _ eq_refl) as (r & w' & Hrun & Hrest); [simpl; by rewrite Hs|].
        exists r, w'. split; [exact Hrun|]. simpl. exact Hrest.
    + change (val_truthy (Some (VInt z))) with (negb (z =? 0)).
      destruct (z =? 0) eqn:Hz; simpl negb; cbv iota.
      * destruct (Hwarn _ eq_refl) as (r & w' & Hrun & Hrest); [simpl; by rewrite Hz|].
        exists r, w'. split; [exact Hrun|]. simpl. exact Hrest.
      * eexists _, _. split; [reflexivity|]. split; [done|]. split; [done|]. split; [done|].
        split; [by eexists|]. intros Hno. exfalso. apply Hno. exists key, z.
        split; [by left|]. split; [done|]. by apply Z.eqb_neq.
    + change (val_truthy None) with false. simpl negb. cbv iota.
      destruct (Hwarn _ eq_refl) as (r & w' & Hrun & Hrest); [done|].
      exists r, w'. split; [exact Hrun|]. simpl. exact Hrest.
Qed.

(** C5, as the code has it.  [get_desktop_folders] looks the five logical
    names up in order; it reads the hive once for each, and logs a warning
    for each lookup that gives no value or an empty one.  It returns the
    names it could read, in that order, and the five built-in defaults
    only when it could read none: so the list is either all defaults or
    all read from the registry, and in the second case it has one name for
    each lookup that succeeded, no more.  When a value is a non-zero
    integer the call raises [AttributeError] at that lookup.  However it
    ends, it changes neither the file system nor the registry. *)
Theorem get_desktop_folders_spec (w : world) :
  let h := hive_of (user_reg self) w in
  exists r w',
    get_desktop_folders self w = (r, w')
    /\ fs w' = fs w /\ hives w' = hives w
    /\ trace w' = rev (lookup_events (user_reg self) h DESKTOP_KEYS) ++ trace w
    /\ (odd_shell_folder self w -> exists msg, r = Raise (AttributeError msg))
    /\ (~ odd_shell_folder self w ->
        r = Ok (match names_read h DESKTOP_KEYS with
                | [] => DEFAULT_DESKTOP_FOLDERS
                | names => names
                end)).
Proof.
  intros h.
  destruct (get_desktop_folders_loop_trace DESKTOP_KEYS [] w)
    as (r & w' & Hrun & Hfs & Hh & Htr & Hodd & Hnames).
  unfold get_desktop_folders, bind, ret. rewrite Hrun.
  destruct r as [names|e].
  - eexists _, _. split; [reflexivity|].
    split; [done|]. split; [done|]. split; [done|]. split.
    + intros Ho. by destruct (Hodd Ho).
    + intros Ho. specialize (Hnames Ho).
      assert (names = names_read h DESKTOP_KEYS) as ->.
      { change (Ok names = Ok (names_read h DESKTOP_KEYS)) in Hnames.
        by injection Hnames. }
      by destruct (names_read h DESKTOP_KEYS).
  - eexists _, _. split; [reflexivity|].
    split; [done|]. split; [done|]. split; [done|]. split.
    + intros Ho. destruct (Hodd Ho) as [msg [= ->]]. by eexists.
    + intros Ho. by specialize (Hnames Ho).
Qed.

End DesktopFolders.

(** Two of the five names can be read: the list has those two, and no
    default stands in for the other three. *)
Lemma get_desktop_folders_spec_witness :
  exists w',
    get_desktop_folders Fixture.self FixtureRegistry.partial = (Ok ["Bureau"; "Musique"], w')
    /\ fs w' = fs FixtureRegistry.partial.
Proof.
  destruct (get_desktop_folders_spec Fixture.self FixtureRegistry.partial)
    as (r & w' & Hrun & Hfs & _ & _ & _ & Hok).
  exists w'. split; [|exact Hfs]. rewrite Hrun. f_equal. rewrite Hok.
  - by_evaluation.
  - intros (key & z & Hkey & Hv & _).
    repeat (apply elem_of_cons in Hkey as [->|Hkey]; [by vm_compute in Hv|]).
    by apply elem_of_nil in Hkey.
Defined.

(** The same call logs a warning for each of the three names it could
    not read. *)
Example get_desktop_folders_two_names :
  let r := get_desktop_folders Fixture.self FixtureRegistry.partial in
  r.1 = Ok ["Bureau"; "Musique"]
  /\ List.filter (fun e => bool_decide (e <> HiveRead "/pfx/user.reg")) (trace r.2)
     = [Logged WARNING "Couldn't load shell folder name for My Pictures";
        Logged WARNING "Couldn't load shell folder name for My Videos";
        Logged WARNING "Couldn't load shell folder name for Personal"].
Proof. by_evaluation. Qed.

(** C5 as stated fails: the lookup of [Personal] finds nothing, and yet the
    list is not the five defaults. *)
Lemma get_desktop_folders_partial :
  shell_folder FixtureRegistry.partial_hive "Personal" = None
  /\ (get_desktop_folders Fixture.self FixtureRegistry.partial).1 = Ok ["Bureau"; "Musique"]
  /\ ["Bureau"; "Musique"] <> DEFAULT_DESKTOP_FOLDERS.
Proof. by_evaluation. Qed.

(** ** Reading through symbolic links *)

Lemma resolve_go_unfold (fuel : nat) (m : filesystem) (p : string) :
  os.resolve_go fuel m p
  = match m !! p with
    | Some (Link t) =>
        match fuel with
        | O => None
        | S n => os.resolve_go n m (posixpath.join (posixpath.dirname p) t)
        end
    | _ => Some p
    end.
Proof. by destruct fuel. Qed.

(** Where a chain of links ends there is no link. *)
Lemma resolve_go_end (fuel : nat) (m : filesystem) (p q : string) :
  os.resolve_go fuel m p = Some q -> forall t, m !! q <> Some (Link t).
Proof.
  revert p. induction fuel as [|n IH]; intros p; rewrite resolve_go_unfold.
  - destruct (m !! p) as [[]|] eqn:E; intros [= <-] t; congruence.
  - destruct (m !! p) as [[]|] eqn:E; try (intros [= <-] t; congruence).
    apply IH.
Qed.

Lemma isfile_inv (p : string) (m : filesystem) :
  os.isfile p m = true ->
  exists q data, os.resolve m p = Some q /\ m !! q = Some (File data)
                 /\ exists n, m !! p = Some n /\ n <> Dir.
Proof.
  unfold os.isfile, os.stat. destruct (os.resolve m p) as [q|] eqn:Hq; [|done].
  destruct (m !! q) as [[data| |]|] eqn:Hd; try done. intros _.
  exists q, data. split; [done|]. split; [done|].
  unfold os.resolve in Hq. rewrite resolve_go_unfold in Hq.
  destruct (m !! p) as [[]|] eqn:E.
  - eexists; split; done.
  - eexists; split; done.
  - injection Hq as <-. congruence.
  - injection Hq as <-. congruence.
Qed.

Lemma read_text_isfile (p : string) (w : world) :
  os.isfile p (fs w) = true ->
  exists data, os.stat (fs w) p = Some (File data)
               /\ os.read_text p w = (Ok (Py.universal_newlines data), w).
Proof.
  intros (q & data & Hq & Hd & _)%isfile_inv. exists data.
  unfold os.stat, os.read_text. by rewrite Hq, Hd.
Qed.

Lemma remove_isfile (p : string) (w : world) :
  os.isfile p (fs w) = true ->
  os.remove p w = (Ok tt, emit (Unlinked p) (with_fs (delete p (fs w)) w)).
Proof.
  intros (q & data & _ & _ & n & Hn & Hdir)%isfile_inv.
  unfold os.remove, os.unlink. rewrite Hn. by destruct n.
Qed.

(** ** The guard of the desktop-folder operations *)

Section Guard.

Context (host : Host) (self : WinePrefixManager).

Lemma needs_transition_absent (target : string) (w : world) :
  system.path_exists (user_dir host self) (fs w) = false ->
  needs_transition host self target w = (Ok false, w).
Proof. intros H. unfold needs_transition, bind, probe. by rewrite H. Qed.

(** C10.  When the guest user-profile directory does not exist, each of
    the three desktop-folder operations returns at once and leaves the
    world as it found it: same file system, same registry, and no event
    added to the trace, so no mutation, no registry access and no write of
    the assignment marker. *)
Theorem no_profile_no_effect (target : option string) (w : world) :
  system.path_exists (user_dir host self) (fs w) = false ->
  enable_desktop_integration_sandbox host self target w = (Ok tt, w)
  /\ enable_desktop_disintegration host self w = (Ok tt, w)
  /\ restore_desktop_integration host self w = (Ok tt, w).
Proof.
  intros H.
  assert (Hd : enable_desktop_disintegration host self w = (Ok tt, w)).
  { unfold enable_desktop_disintegration, bind. by rewrite needs_transition_absent. }
  split; [|split; [done|]].
  - unfold enable_desktop_integration_sandbox.
    case_decide; [done|]. unfold bind. by rewrite needs_transition_absent.
  - unfold restore_desktop_integration, bind. by rewrite needs_transition_absent.
Qed.

End Guard.

Lemma no_profile_no_effect_witness :
  enable_desktop_integration_sandbox Fixture.host Fixture.self (Some "/tmp/sandbox") Fixture.bare
  = (Ok tt, Fixture.bare)
  /\ enable_desktop_disintegration Fixture.host Fixture.self Fixture.bare = (Ok tt, Fixture.bare)
  /\ restore_desktop_integration Fixture.host Fixture.self Fixture.bare = (Ok tt, Fixture.bare).
Proof.
  apply (no_profile_no_effect Fixture.host Fixture.self (Some "/tmp/sandbox") Fixture.bare).
  reflexivity.
Defined.

(** ** The DPI assignment *)

Section DPI.

Context (self : WinePrefixManager).

Lemma get_fonts_dpi (w : world) :
  get_registry_key self (hkcu_prefix +:+ "/Software/Wine/Fonts") "LogPixels" w
  = (Ok (hive_of (user_reg self) w !! fonts_entry), emit (HiveRead (user_reg self)) w).
Proof. by apply get_registry_key_ok. Qed.

Lemma get_desktop_dpi (w : world) :
  get_registry_key self (hkcu_prefix +:+ "/Control Panel/Desktop") "LogPixels" w
  = (Ok (hive_of (user_reg self) w !! desktop_entry), emit (HiveRead (user_reg self)) w).
Proof. by apply get_registry_key_ok. Qed.

(** [assign_dpi] stores the value at both places of the user hive. *)
Lemma assign_dpi_spec (dpi : Z) (w : world) :
  assign_dpi self dpi w
  = (Ok tt,
     World (fs w)
       (<[user_reg self :=
            <[desktop_entry := VInt dpi]> (<[fonts_entry := VInt dpi]> (hive_of (user_reg self) w))]>
          (hives w))
       ([HiveSaved (user_reg self); HiveRead (user_reg self);
         HiveSaved (user_reg self); HiveRead (user_reg self)] ++ trace w)).
Proof.
  unfold assign_dpi, key_paths. simpl. unfold bind.
  erewrite set_registry_key_ok by reflexivity.
  erewrite set_registry_key_ok by reflexivity.
  unfold ret, emit, with_hives, hive_of. simpl.
  rewrite lookup_insert_eq. simpl. by rewrite insert_insert_eq.
Qed.

(** What [is_lutris_dpi_assigned] answers, and what it adds to the trace:
    an exception report when the marker holds no integer, else one read
    of the hive for each location up to the first that differs. *)
Lemma is_lutris_dpi_assigned_spec (w : world) :
  os.isfile (assignment_path self) (fs w) = true ->
  exists l,
    is_lutris_dpi_assigned self w
    = (Ok (dpi_is_ours self w), World (fs w) (hives w) (l ++ trace w))
    /\ List.filter is_save l = [] /\ List.filter is_write l = [].
Proof.
  intros (data & Hstat & Hread)%read_text_isfile.
  unfold is_lutris_dpi_assigned, dpi_is_ours, marker_dpi. rewrite Hstat.
  unfold bind at 1, try_except. unfold bind at 1. rewrite Hread.
  destruct (Py.int (Py.universal_newlines data)) as [n|]; simpl.
  - unfold bind at 1. rewrite get_fonts_dpi.
    destruct (bool_decide (hive_of (user_reg self) w !! fonts_entry = Some (VInt n))) eqn:Hf; simpl.
    + unfold bind at 1. rewrite get_desktop_dpi.
      change (hive_of (user_reg self) (emit (HiveRead (user_reg self)) w))
        with (hive_of (user_reg self) w).
      destruct (bool_decide (hive_of (user_reg self) w !! desktop_entry = Some (VInt n))); simpl.
      * by exists [HiveRead (user_reg self); HiveRead (user_reg self)].
      * by exists [HiveRead (user_reg self); HiveRead (user_reg self)].
    + by exists [HiveRead (user_reg self)].
  - by exists [Logged EXCEPTION "Unable to read Lutris assigned DPI"].
Qed.

(** The clear path of [set_dpi] when the marker is there. *)
Lemma set_dpi_clear (w : world) :
  os.isfile (assignment_path self) (fs w) = true ->
  exists l,
    set_dpi self None w
    = (Ok tt,
       World (delete (assignment_path self) (fs w))
         (if dpi_is_ours self w
          then <[user_reg self := reset_dpi (hive_of (user_reg self) w)]> (hives w)
          else hives w)
         (l ++ trace w))
    /\ List.filter is_save l
       = (if dpi_is_ours self w
          then [HiveSaved (user_reg self); HiveSaved (user_reg self)] else [])
    /\ List.filter is_write l = [].
Proof.
  intros Hfile.
  destruct (is_lutris_dpi_assigned_spec w Hfile) as (l & Hrun & Hs & Hw).
  unfold set_dpi. simpl. unfold bind at 1, probe. rewrite Hfile.
  unfold bind at 1. rewrite Hrun.
  destruct (dpi_is_ours self w).
  - unfold bind at 1. rewrite assign_dpi_spec. simpl.
    rewrite remove_isfile by done.
    eexists (Unlinked _ :: [_; _; _; _] ++ l). split; [reflexivity|].
    simpl. by rewrite Hs, Hw.
  - unfold bind at 1, ret. rewrite remove_isfile by done.
    eexists (Unlinked _ :: l). split; [reflexivity|].
    simpl. by rewrite Hs, Hw.
Qed.


(** C9.  [set_dpi(0)] is [set_dpi(None)]: zero is false, so the call takes
    the clear path.  It always returns normally; it writes no file (the
    marker is removed when it was there, and nothing else changes in the
    file system); and the registry is either what it was or has both
    locations reset to 96, never set to zero by this call. *)
Theorem set_dpi_zero_clears (w : world) :
  set_dpi self (Some 0) w = set_dpi self None w
  /\ exists w' l,
       set_dpi self (Some 0) w = (Ok tt, w')
       /\ trace w' = l ++ trace w
       /\ List.filter is_write l = []
       /\ fs w' = (if os.isfile (assignment_path self) (fs w)
                   then delete (assignment_path self) (fs w) else fs w)
       /\ hives w' = (if os.isfile (assignment_path self) (fs w) && dpi_is_ours self w
                      then <[user_reg self := reset_dpi (hive_of (user_reg self) w)]> (hives w)
                      else hives w).
Proof.
  split; [reflexivity|].
  change (set_dpi self (Some 0) w) with (set_dpi self None w).
  destruct (os.isfile (assignment_path self) (fs w)) eqn:Hfile.
  - destruct (set_dpi_clear w Hfile) as (l & Hrun & Hs & Hw).
    eexists _, l. split; [exact Hrun|]. by simpl.
  - exists w, []. unfold set_dpi. simpl. unfold bind, probe. rewrite Hfile.
    by destruct w.
Qed.

End DPI.


(** After [set_dpi(120)], a change of one location behind the manager's
    back keeps [set_dpi(None)] from touching the registry; the marker goes
    all the same. *)
Example clear_dpi_after_external_change :
  let r := set_dpi Fixture.self None (FixtureRegistry.with_dpi 120 144) in
  r.1 = Ok tt
  /\ hives r.2 = hives (FixtureRegistry.with_dpi 120 144)
  /\ fs r.2 !! "/pfx/.lutris_dpi_assignment" = None.
Proof. by_evaluation. Qed.

(** [set_dpi(120)] on a fresh prefix leaves the world [with_dpi 120 120]
    describes, up to the trace. *)
Example set_dpi_120 :
  let r := set_dpi Fixture.self (Some 120) Fixture.native in
  r.1 = Ok tt
  /\ fs r.2 = fs (FixtureRegistry.with_dpi 120 120)
  /\ hives r.2 = hives (FixtureRegistry.with_dpi 120 120).
Proof. by_evaluation. Qed.

(** ** The assignment marker *)

Lemma truthy_app_r (a b : string) : Py.truthy b = true -> Py.truthy (a +:+ b) = true.
Proof. destruct a; [done|]. by rewrite app_cons. Qed.

Lemma join_truthy (a b : string) : Py.truthy b = true -> Py.truthy (posixpath.join a b) = true.
Proof.
  intros Hb. unfold posixpath.join.
  destruct (Py.startswith b "/"); [done|].
  destruct (_ || _); [by apply truthy_app_r|].
  apply truthy_app_r. by rewrite app_cons.
Qed.

Lemma or_else_truthy (a b : string) : Py.truthy b = true -> Py.truthy (Py.or_else a b) = true.
Proof. intros Hb. unfold Py.or_else. by destruct (Py.truthy a) eqn:Ha. Qed.

Lemma opt_or_truthy (a : option string) (b : string) :
  Py.truthy b = true -> Py.truthy (opt_or a b) = true.
Proof. intros Hb. destruct a; [by apply or_else_truthy|done]. Qed.

Lemma user_dir_truthy (host : Host) (self : WinePrefixManager) :
  Py.truthy (user_dir host self) = true.
Proof. apply join_truthy. by repeat apply opt_or_truthy. Qed.

Lemma expanduser_truthy (host : Host) (d : string) :
  Py.truthy d = true -> Py.truthy (expanduser host d) = true.
Proof.
  intros Hd. unfold expanduser.
  destruct (negb _); [done|].
  destruct (if _ =? 1 then _ else _); [|done].
  by apply or_else_truthy.
Qed.

Section Marker.

Context (host : Host) (self : WinePrefixManager).

(** Reading the marker cannot fail in this model, and changes nothing. *)
Lemma get_assignment_spec (w : world) :
  _get_desktop_integration_assignment self w = (Ok (assignment self (fs w)), w).
Proof.
  unfold _get_desktop_integration_assignment, try_except, bind at 1, probe, assignment.
  destruct (os.isfile (setting_path self) (fs w)) eqn:Hf.
  - destruct (read_text_isfile _ _ Hf) as (data & Hstat & Hread). by rewrite Hread, Hstat.
  - unfold os.isfile in Hf. by destruct (os.stat _ _) as [[]|].
Qed.

Lemma needs_transition_present (target : string) (w : world) :
  system.path_exists (user_dir host self) (fs w) = true ->
  needs_transition host self target w
  = (Ok (negb (bool_decide (assignment self (fs w) = target))), w).
Proof.
  intros H. unfold needs_transition, bind at 1, probe. rewrite H.
  unfold bind. by rewrite get_assignment_spec.
Qed.

(** Whatever the profile, nothing is due once the marker says [target]. *)
Lemma needs_transition_assigned (target : string) (w : world) :
  assignment self (fs w) = target ->
  needs_transition host self target w = (Ok false, w).
Proof.
  intros H. destruct (system.path_exists (user_dir host self) (fs w)) eqn:Hp.
  - rewrite needs_transition_present by done. by rewrite bool_decide_eq_true_2.
  - by apply needs_transition_absent.
Qed.

End Marker.

(** Writing where a chain of links ends does not move the end. *)
Lemma resolve_go_insert_end (fuel : nat) (m : filesystem) (p q data : string) :
  os.resolve_go fuel m p = Some q ->
  os.resolve_go fuel (<[q := File data]> m) p = Some q.
Proof.
  revert p. induction fuel as [|n IH]; intros p Hq.
  - pose proof (resolve_go_end _ _ _ _ Hq) as Hend.
    rewrite resolve_go_unfold in Hq |- *.
    destruct (decide (p = q)) as [->|Hne].
    + by rewrite lookup_insert_eq.
    + rewrite lookup_insert_ne by done. by destruct (m !! p) as [[]|].
  - pose proof (resolve_go_end _ _ _ _ Hq) as Hend.
    rewrite resolve_go_unfold in Hq |- *.
    destruct (decide (p = q)) as [->|Hne].
    + by rewrite lookup_insert_eq.
    + rewrite lookup_insert_ne by done.
      destruct (m !! p) as [[]|]; try done. by apply IH.
Qed.

Lemma write_text_cases (p data : string) (w : world) :
  (exists q, os.resolve (fs w) p = Some q
             /\ os.write_text p data w
                = (Ok tt, emit (Wrote p data) (with_fs (<[q := File data]> (fs w)) w)))
  \/ (exists e, os.write_text p data w = (Raise (OSError e), w)
                /\ os.isfile p (fs w) = false).
Proof.
  unfold os.write_text, os.isfile, os.stat.
  destruct (os.resolve (fs w) p) as [q|] eqn:Hq; [|right; by eexists].
  destruct (fs w !! q) as [[]|] eqn:E.
  - left. by exists q.
  - right. by eexists.
  - right. by eexists.
  - destruct (os.parent_check q (fs w)); [right; by eexists|left; by exists q].
Qed.

Lemma assignment_written (self : WinePrefixManager) (m : filesystem) (q data : string) :
  os.resolve m (setting_path self) = Some q ->
  assignment self (<[q := File data]> m) = Py.universal_newlines data.
Proof.
  intros Hq. unfold assignment, os.stat, os.resolve in *.
  rewrite (resolve_go_insert_end _ _ _ _ _ Hq). by rewrite lookup_insert_eq.
Qed.

Lemma bind_inv_ok {A B} (m : M A) (k : A -> M B) (w w2 : world) (b : B) :
  bind m k w = (Ok b, w2) -> exists a w1, m w = (Ok a, w1) /\ k a w1 = (Ok b, w2).
Proof.
  unfold bind. destruct (m w) as [[a|e] w1]; [|done]. intros H. by exists a, w1.
Qed.

Section MarkerWrite.

Context (host : Host) (self : WinePrefixManager).

(** [_set_desktop_integration_assignment] with a non-empty directory:
    either the marker now records it, or the write failed, was logged,
    and the marker is not a file. *)
Lemma set_assignment_cases (target : string) (w : world) :
  Py.truthy target = true ->
  exists w', _set_desktop_integration_assignment self target w = (Ok tt, w')
    /\ hives w' = hives w
    /\ ((exists q, os.resolve (fs w) (setting_path self) = Some q
                   /\ fs w' = <[q := File target]> (fs w)
                   /\ trace w' = Wrote (setting_path self) target :: trace w)
        \/ (fs w' = fs w /\ os.isfile (setting_path self) (fs w) = false
            /\ trace w' = write_failure :: trace w)).
Proof.
  intros Ht. unfold _set_desktop_integration_assignment, try_except. rewrite Ht.
  destruct (write_text_cases (setting_path self) target w)
    as [(q & Hq & ->)|(e & -> & Hnf)].
  - eexists. split; [done|]. split; [done|]. left. by exists q.
  - eexists. split; [done|]. split; [done|]. by right.
Qed.

End MarkerWrite.

(** ** Keys inside a directory, and renaming *)

Lemma inside_spec (d k : string) :
  os.inside d k = true <-> exists a r, k = os.child_prefix d +:+ String a r.
Proof.
  unfold os.inside. destruct (Py.strip_prefix _ k) as [[|a r]|] eqn:E.
  - split; [done|]. intros (a & r & ->). rewrite strip_prefix_app in E. done.
  - apply strip_prefix_Some in E. split; [eauto|done].
  - split; [done|]. intros (a & r & ->). by rewrite strip_prefix_app in E.
Qed.

Lemma child_prefix_length (d : string) :
  (String.length d <= String.length (os.child_prefix d))%nat.
Proof.
  unfold os.child_prefix. case_decide; [by subst|]. rewrite length_app_str. lia.
Qed.

Lemma inside_longer (d k : string) :
  os.inside d k = true -> (String.length d < String.length k)%nat.
Proof.
  intros (a & r & ->)%inside_spec. rewrite length_app_str. simpl.
  pose proof (child_prefix_length d). lia.
Qed.


Lemma rekey_at (src dst : string) : os.rekey src dst src = dst.
Proof. unfold os.rekey. by rewrite decide_True. Qed.

Lemma rekey_inside (src dst : string) (a : ascii) (r : string) :
  os.rekey src dst (os.child_prefix src +:+ String a r)
  = os.child_prefix dst +:+ String a r.
Proof.
  unfold os.rekey. rewrite strip_prefix_app. rewrite decide_False; [done|].
  intros H. apply (f_equal String.length) in H. rewrite length_app_str in H. simpl in H.
  pose proof (child_prefix_length src). lia.
Qed.

Lemma rekey_outside (src dst k : string) :
  ~ at_or_inside src k -> os.rekey src dst k = k.
Proof.
  intros H. unfold os.rekey. rewrite decide_False by (intros ->; apply H; by left).
  destruct (Py.strip_prefix _ k) as [[|a r]|] eqn:E; try done.
  exfalso. apply H. right. unfold os.inside. by rewrite E.
Qed.

Lemma at_or_inside_dec (d k : string) : Decision (at_or_inside d k).
Proof. unfold at_or_inside. apply _. Defined.

(** The image of an entry at or inside [src] is at or inside [dst]. *)
Lemma rekey_lands (src dst k : string) :
  at_or_inside src k -> at_or_inside dst (os.rekey src dst k).
Proof.
  intros [->|(a & r & ->)%inside_spec].
  - left. apply rekey_at.
  - right. rewrite rekey_inside. apply inside_spec. eauto.
Qed.

(** [rekey] is injective on the keys that are at or inside [src] or else
    away from [dst]. *)
Lemma rekey_inj (src dst k1 k2 : string) :
  at_or_inside src k1 \/ ~ at_or_inside dst k1 ->
  at_or_inside src k2 \/ ~ at_or_inside dst k2 ->
  os.rekey src dst k1 = os.rekey src dst k2 -> k1 = k2.
Proof.
  assert (Hlen : forall a r, dst <> os.child_prefix dst +:+ String a r).
  { intros a r H. apply (f_equal String.length) in H. rewrite length_app_str in H.
    simpl in H. pose proof (child_prefix_length dst). lia. }
  intros H1 H2 Heq.
  destruct (at_or_inside_dec src k1) as [I1|O1], (at_or_inside_dec src k2) as [I2|O2].
  - destruct I1 as [->|(a1 & r1 & ->)%inside_spec], I2 as [->|(a2 & r2 & ->)%inside_spec];
      rewrite ?rekey_at, ?rekey_inside in Heq; try done.
    + by apply Hlen in Heq.
    + symmetry in Heq. by apply Hlen in Heq.
    + by apply String.app_inj in Heq as [= -> ->].
  - rewrite (rekey_outside _ _ k2) in Heq by done.
    destruct H2 as [?|H2]; [done|]. exfalso. apply H2. rewrite <- Heq. by apply rekey_lands.
  - rewrite (rekey_outside _ _ k1) in Heq by done.
    destruct H1 as [?|H1]; [done|]. exfalso. apply H1. rewrite Heq. by apply rekey_lands.
  - by rewrite !rekey_outside in Heq.
Qed.

Lemma has_entries_false (d : string) (m : filesystem) :
  os.has_entries d m = false <-> forall k, is_Some (m !! k) -> os.inside d k = false.
Proof.
  unfold os.has_entries. rewrite negb_false_iff, bool_decide_eq_true.
  rewrite map_Forall_lookup. split.
  - intros H k [v Hv]. by eapply H.
  - intros H k v Hv. apply H. by eexists.
Qed.

Lemma has_entries_true (d : string) (m : filesystem) :
  os.has_entries d m = true <-> exists k, is_Some (m !! k) /\ os.inside d k = true.
Proof.
  unfold os.has_entries. rewrite negb_true_iff, bool_decide_eq_false.
  rewrite map_not_Forall by apply _. unfold map_Exists. split.
  - intros (k & v & Hv & Hin). exists k. split; [by eexists|].
    by destruct (os.inside d k).
  - intros (k & [v Hv] & Hin). exists k, v. split; [done|]. by rewrite Hin.
Qed.

Lemma clear_of_delete (dst : string) (m : filesystem) :
  os.has_entries dst m = false -> clear_of dst (delete dst m).
Proof.
  intros H k Hk [->|Hin].
  - rewrite lookup_delete_eq in Hk. by destruct Hk.
  - rewrite has_entries_false in H. rewrite H in Hin; [done|].
    destruct Hk as [v Hv]. apply lookup_delete_Some in Hv as [_ Hv]. by eexists.
Qed.


(** The entries of the moved file system are the entries of the old one
    under their new keys. *)
Lemma lookup_move_tree (src dst : string) (m : filesystem) (k' : string) (v : node) :
  clear_of dst m ->
  os.move_tree src dst m !! k' = Some v
  <-> exists k, m !! k = Some v /\ os.rekey src dst k = k'.
Proof.
  intros Hclear. unfold os.move_tree.
  rewrite <- elem_of_list_to_map.
  - rewrite list_elem_of_fmap. split.
    + intros ([k v0] & [= -> ->] & Hin). exists k. split; [|done].
      by apply elem_of_map_to_list in Hin.
    + intros (k & Hk & <-). exists (k, v). split; [done|].
      by apply elem_of_map_to_list.
  - rewrite <- list_fmap_compose.
    apply NoDup_fmap_2_strong; [|apply NoDup_map_to_list].
    intros [k1 v1] [k2 v2] H1%elem_of_map_to_list H2%elem_of_map_to_list. simpl.
    intros Heq. apply rekey_inj in Heq.
    + subst. rewrite H1 in H2. by injection H2 as ->.
    + right. apply Hclear. by eexists.
    + right. apply Hclear. by eexists.
Qed.

Lemma move_tree_moved (src dst : string) (m : filesystem) :
  clear_of dst m ->
  (forall k, at_or_inside src k -> ~ at_or_inside dst k) ->
  moved src dst m (os.move_tree src dst m).
Proof.
  intros Hclear Hdisj. split; [|split].
  - intros k Hk. destruct (m !! k) as [v|] eqn:Hv.
    + apply lookup_move_tree; [done|]. by exists k.
    + destruct (os.move_tree src dst m !! os.rekey src dst k) as [v|] eqn:E; [|done].
      apply lookup_move_tree in E as (k0 & Hk0 & Heq); [|done].
      apply rekey_inj in Heq; [congruence| |by left].
      right. apply Hclear. by eexists.
  - intros k Hk. destruct (os.move_tree src dst m !! k) as [v|] eqn:E; [|done].
    apply lookup_move_tree in E as (k0 & Hk0 & Heq); [|done].
    destruct (at_or_inside_dec src k0) as [Hin|Hout].
    + exfalso. apply (Hdisj k Hk). rewrite <- Heq. by apply rekey_lands.
    + rewrite rekey_outside in Heq by done. by subst.
  - intros k Hs Hd. destruct (m !! k) as [v|] eqn:Hv.
    + apply lookup_move_tree; [done|]. exists k. split; [done|]. by apply rekey_outside.
    + destruct (os.move_tree src dst m !! k) as [v|] eqn:E; [|done].
      apply lookup_move_tree in E as (k0 & Hk0 & Heq); [|done].
      destruct (at_or_inside_dec src k0) as [Hin|Hout].
      * exfalso. apply Hd. rewrite <- Heq. by apply rekey_lands.
      * rewrite rekey_outside in Heq by done. congruence.
Qed.

(** Replacing what was at [dst], an empty directory at most, does not
    show in the statement: [dst] is where [src] lands. *)
Lemma moved_delete (src dst : string) (m m' : filesystem) :
  src <> dst -> os.inside src dst = false ->
  moved src dst (delete dst m) m' -> moved src dst m m'.
Proof.
  intros Hne Hin (H1 & H2 & H3). split; [|split].
  - intros k Hk. rewrite H1 by done. apply lookup_delete_ne.
    intros <-. destruct Hk as [?|Hk]; [done|]. by rewrite Hin in Hk.
  - done.
  - intros k Hs Hd. rewrite H3 by done. apply lookup_delete_ne.
    intros <-. apply Hd. by left.
Qed.

(** What [os.rename] does: it fails and changes nothing, or it is asked to
    rename a path to itself, or it moves the tree. *)
Lemma rename_cases (src dst : string) (w : world) :
  (exists e, os.rename src dst w = (Raise (OSError e), w))
  \/ (src = dst /\ os.rename src dst w = (Ok tt, w))
  \/ (src <> dst /\ os.inside src dst = false /\ os.has_entries dst (fs w) = false
      /\ is_Some (fs w !! src)
      /\ (fs w !! src = Some Dir -> forall c, fs w !! dst <> Some (File c))
      /\ os.rename src dst w
         = (Ok tt, emit (Renamed src dst)
                     (with_fs (os.move_tree src dst (delete dst (fs w))) w))).
Proof.
  unfold os.rename.
  destruct (fs w !! src) as [n|] eqn:Hsrc; [|left; by eexists].
  destruct (decide (src = dst)) as [->|Hne]; [right; by left|].
  destruct (os.inside src dst) eqn:Hin; [left; by eexists|].
  destruct (os.parent_check dst (fs w)); [left; by eexists|].
  destruct n as [c|t|], (fs w !! dst) as [[c'|t'|]|] eqn:Hdst;
    try (left; by eexists);
    (destruct (os.has_entries dst (fs w)) eqn:Hent; [left; by eexists|]);
    right; right; repeat split; eauto; congruence.
Qed.

(** ** The backup path *)

Lemma winecfg_ne (p : string) : p <> p +:+ ".winecfg".
Proof.
  intros H. apply (f_equal String.length) in H. rewrite length_app_str in H.
  simpl in H. lia.
Qed.

Lemma winecfg_not_inside (p : string) : os.inside (p +:+ ".winecfg") p = false.
Proof.
  destruct (os.inside _ p) eqn:E; [|done]. apply inside_longer in E.
  rewrite length_app_str in E. lia.
Qed.

Lemma child_prefix_not_root (d : string) : d <> "/" -> os.child_prefix d = d +:+ "/".
Proof. intros H. unfold os.child_prefix. by rewrite decide_False. Qed.

Lemma winecfg_not_root (p : string) : p +:+ ".winecfg" <> "/".
Proof.
  intros H. apply (f_equal String.length) in H. rewrite length_app_str in H.
  simpl in H. lia.
Qed.


(** The tree of a folder and the tree of its backup path share no key. *)
Lemma winecfg_disjoint (p k : string) :
  os.inside p (p +:+ ".winecfg") = false ->
  at_or_inside p k -> at_or_inside (p +:+ ".winecfg") k -> False.
Proof.
  intros Hp [->|Hin] [Hk|Hin'].
  - by apply winecfg_ne in Hk.
  - by rewrite winecfg_not_inside in Hin'.
  - subst. by rewrite Hp in Hin.
  - assert (p <> "/") as Hne.
    { intros ->. by vm_compute in Hp. }
    apply inside_spec in Hin as (a & r & ->).
    apply inside_spec in Hin' as (a' & r' & H).
    rewrite child_prefix_not_root in H by done.
    rewrite (child_prefix_not_root (p +:+ _)) in H by apply winecfg_not_root.
    rewrite !app_assoc_str in H. by apply String.app_inj in H.
Qed.

(** ** Looking at a path that is no link *)


Lemma stat_not_link (p : string) (m : filesystem) :
  os.islink p m = false -> os.stat m p = m !! p.
Proof.
  unfold os.islink, os.stat, os.resolve. rewrite resolve_go_unfold.
  destruct (m !! p) as [[]|] eqn:E; try done; by rewrite E.
Qed.

Lemma isdir_not_link (p : string) (m : filesystem) :
  os.islink p m = false -> os.isdir p m = bool_decide (m !! p = Some Dir).
Proof.
  intros H. unfold os.isdir. rewrite stat_not_link by done.
  by destruct (m !! p) as [[]|].
Qed.


(** ** [_remove_desktop_folder] *)

Lemma remove_link (p safe t : string) (w : world) :
  fs w !! p = Some (Link t) ->
  _remove_desktop_folder p safe w
  = (Ok tt, emit (Unlinked p) (with_fs (delete p (fs w)) w)).
Proof.
  intros H. unfold _remove_desktop_folder, bind, probe, os.islink, os.unlink.
  rewrite H. by rewrite H.
Qed.

Lemma remove_other (p safe : string) (w : world) :
  (forall t, fs w !! p <> Some (Link t)) -> fs w !! p <> Some Dir ->
  _remove_desktop_folder p safe w = (Ok tt, w).
Proof.
  intros Hl Hd. unfold _remove_desktop_folder, bind at 1, probe.
  assert (os.islink p (fs w) = false) as Hnl.
  { unfold os.islink. destruct (fs w !! p) as [[]|]; try done. by edestruct Hl. }
  rewrite Hnl. unfold bind. rewrite isdir_not_link by done.
  by rewrite bool_decide_eq_false_2.
Qed.

Lemma remove_dir (p safe : string) (w : world) :
  fs w !! p = Some Dir ->
  _remove_desktop_folder p safe w
  = if os.has_entries p (fs w) then os.rename p safe w
    else (Ok tt, emit (RemovedDir p) (with_fs (delete p (fs w)) w)).
Proof.
  intros H. unfold _remove_desktop_folder, bind at 1, probe.
  assert (os.islink p (fs w) = false) as Hnl by (unfold os.islink; by rewrite H).
  rewrite Hnl. unfold bind. rewrite isdir_not_link by done.
  rewrite bool_decide_eq_true_2 by done.
  unfold try_except, os.rmdir. rewrite H.
  by destruct (os.has_entries p (fs w)).
Qed.

(** Renaming a directory to its backup path: it fails and nothing
    changes, or the whole tree is found under the backup path. *)
Lemma rename_to_backup (p : string) (w : world) :
  (exists e, os.rename p (p +:+ ".winecfg") w = (Raise (OSError e), w))
  \/ (exists w', os.rename p (p +:+ ".winecfg") w = (Ok tt, w')
                 /\ moved p (p +:+ ".winecfg") (fs w) (fs w')
                 /\ hives w' = hives w
                 /\ trace w' = Renamed p (p +:+ ".winecfg") :: trace w).
Proof.
  destruct (rename_cases p (p +:+ ".winecfg") w)
    as [?|[[Heq _]|(Hne & Hin & Hent & Hsrc & _ & Hrun)]].
  - by left.
  - by apply winecfg_ne in Heq.
  - right. eexists. split; [exact Hrun|]. split; [|done]. simpl.
    apply moved_delete; [done..|].
    apply move_tree_moved; [by apply clear_of_delete|].
    intros k Hk Hk'. by eapply winecfg_disjoint.
Qed.


(** ** Keeping the regular files *)



















Lemma makedirs_go_S (n : nat) (name : string) :
  os.makedirs_go (S n) name
  = (let '(head, tail) := posixpath.split name in
     let '(head, tail) :=
       if Py.truthy tail then (head, tail) else posixpath.split head in
     let leaf :=
       try_except (os.mkdir name) is_OSError
         (fun e => d <- probe (os.isdir name) ;; if d then ret tt else raise e) in
     head_exists <- probe (os.exists_ head) ;;
     if Py.truthy head && Py.truthy tail && negb head_exists then
       try_except (os.makedirs_go n head) is_FileExistsError (fun _ => ret tt) ;;;
       if decide (tail = ".") then ret tt else leaf
     else leaf).
Proof. reflexivity. Qed.





Section Keeping.

Context (host : Host) (self : WinePrefixManager).










Lemma needs_transition_total (target : string) (w : world) :
  exists go, needs_transition host self target w = (Ok go, w).
Proof.
  destruct (system.path_exists (user_dir host self) (fs w)) eqn:Hp.
  - eexists. by apply needs_transition_present.
  - eexists. by apply needs_transition_absent.
Qed.





End Keeping.

(** The sandbox transition on the fixture: the [Desktop] folder had a
    file in it, which is found under the backup path afterwards. *)
Example sandbox_backs_up_desktop :
  let r := enable_desktop_integration_sandbox Fixture.host Fixture.self (Some "/tmp/sandbox")
             Fixture.native in
  r.1 = Ok tt
  /\ fs r.2 !! "/pfx/drive_c/users/joe/Desktop" = Some (Link "/tmp/sandbox/Desktop")
  /\ fs r.2 !! "/pfx/drive_c/users/joe/Desktop.winecfg/notes.txt" = Some (File "hello")
  /\ fs r.2 !! "/pfx/drive_c/users/joe/Desktop/notes.txt" = None
  /\ fs r.2 !! "/pfx/drive_c/users/joe/Documents" = Some (Link "/tmp/sandbox/Documents")
  /\ fs r.2 !! "/pfx/drive_c/users/joe/Documents.winecfg" = None.
Proof. by_evaluation. Qed.

(** ** Disintegration *)




Lemma truthy_true (s : string) : s <> EmptyString -> Py.truthy s = true.
Proof. intros H. unfold Py.truthy. by rewrite bool_decide_eq_false_2. Qed.



Section Disintegration.

Context (host : Host) (self : WinePrefixManager).

Lemma disintegrate_folder_native (item : string) (w : world) :
  os.islink (posixpath.join (user_dir host self) item) (fs w) = false ->
  disintegrate_folder host self item w = (Ok tt, w).
Proof. intros H. unfold disintegrate_folder, bind, probe. by rewrite H. Qed.


Lemma disintegration_unfold (w : world) :
  system.path_exists (user_dir host self) (fs w) = true ->
  assignment self (fs w) <> user_dir host self ->
  enable_desktop_disintegration host self w
  = (desktop_folders <- get_desktop_folders self ;;
     for_each desktop_folders (disintegrate_folder host self) ;;;
     _set_desktop_integration_assignment self (user_dir host self)) w.
Proof.
  intros Hp Ha. unfold enable_desktop_disintegration. unfold bind at 1.
  rewrite needs_transition_present by done.
  by rewrite bool_decide_eq_false_2.
Qed.

End Disintegration.

(** Sandboxing and disintegrating the fixture gives the files back where
    they were, and the folders that had no backup are new directories. *)
Example sandbox_then_disintegrate :
  let r := enable_desktop_disintegration Fixture.host Fixture.self Fixture.sandboxed in
  r.1 = Ok tt
  /\ fs r.2 !! "/pfx/drive_c/users/joe/Desktop" = Some Dir
  /\ fs r.2 !! "/pfx/drive_c/users/joe/Desktop/notes.txt" = Some (File "hello")
  /\ fs r.2 !! "/pfx/drive_c/users/joe/Desktop.winecfg" = None
  /\ fs r.2 !! "/pfx/drive_c/users/joe/Documents" = Some Dir
  /\ fs r.2 !! "/pfx/drive_c/users/joe/Music" = Some Dir
  /\ assignment Fixture.self (fs r.2) = "/pfx/drive_c/users/joe".
Proof. by_evaluation. Qed.

(** ** [os.makedirs] has fuel to spare *)

Lemma take_length (n : nat) (s : string) :
  (String.length (Py.take n s) <= n)%nat.
Proof.
  revert s. induction n as [|n IH]; intros [|a s]; simpl; try lia.
  specialize (IH s). lia.
Qed.

Lemma drop_nonempty (n : nat) (s : string) :
  Py.drop n s <> EmptyString -> (n < String.length s)%nat.
Proof.
  revert s. induction n as [|n IH]; intros [|a s]; simpl; try done; try lia.
  intros H. specialize (IH s H). lia.
Qed.

Lemma rstrip_length (c : ascii) (s : string) :
  (String.length (Py.rstrip c s) <= String.length s)%nat.
Proof.
  induction s as [|a s IH]; simpl; [done|].
  destruct (Py.rstrip c s) as [|b r]; simpl in *.
  - destruct (decide (a = c)); simpl; lia.
  - lia.
Qed.

Lemma split_head_le (p : string) :
  (String.length (posixpath.split p).1 <= String.length p)%nat.
Proof.
  unfold posixpath.split. simpl.
  assert (String.length (Py.slice_to p (Py.rfind "/" p + 1)) <= String.length p)%nat.
  { unfold Py.slice_to, Py.clamp, Py.len.
    etrans; [apply take_length|]. lia. }
  destruct (_ && _); [|done].
  etrans; [apply rstrip_length|done].
Qed.

Lemma split_head_lt (p : string) :
  (posixpath.split p).2 <> EmptyString ->
  (String.length (posixpath.split p).1 < String.length p)%nat.
Proof.
  unfold posixpath.split. simpl. unfold Py.slice_from, Py.slice_to.
  intros H%drop_nonempty.
  assert (String.length (Py.take (Py.clamp p (Py.rfind "/" p + 1)) p) < String.length p)%nat.
  { eapply Nat.le_lt_trans; [apply take_length|done]. }
  destruct (_ && _); [|done].
  eapply Nat.le_lt_trans; [apply rstrip_length|done].
Qed.

Lemma truthy_false (s : string) : Py.truthy s = false -> s = EmptyString.
Proof. unfold Py.truthy. by intros H%negb_false_iff%bool_decide_eq_true. Qed.

(** With more fuel than the name is long, the amount does not matter:
    the recursion is on a shorter name each time. *)
Lemma makedirs_go_fuel (n m : nat) (name : string) :
  (String.length name < n)%nat -> (String.length name < m)%nat ->
  os.makedirs_go n name = os.makedirs_go m name.
Proof.
  revert m name. induction n as [|n IH]; intros [|m] name Hn Hm; try lia.
  rewrite !makedirs_go_S.
  pose proof (split_head_le name) as Hle.
  pose proof (split_head_lt name) as Hlt.
  destruct (posixpath.split name) as [head tail]. simpl in *.
  destruct (Py.truthy tail) eqn:Htail.
  - destruct (Py.truthy head); [|done]. simpl.
    rewrite (IH m head); [done|..].
    + assert (tail <> EmptyString) as Ht by (by intros ->). specialize (Hlt Ht). lia.
    + assert (tail <> EmptyString) as Ht by (by intros ->). specialize (Hlt Ht). lia.
  - pose proof (split_head_lt head) as Hlt'.
    destruct (posixpath.split head) as [head' tail']. simpl in *.
    destruct (Py.truthy head'); [|done].
    destruct (Py.truthy tail') eqn:Htail'; [|done]. simpl.
    assert (tail' <> EmptyString) as Ht by (by intros ->). specialize (Hlt' Ht).
    rewrite (IH m head'); [done|lia..].
Qed.

Lemma makedirs_fuel (n : nat) (name : string) :
  (String.length name < n)%nat -> os.makedirs_go n name = os.makedirs name.
Proof. intros H. apply makedirs_go_fuel; [done|]. lia. Qed.

(** ** Key addresses and the registry accessors *)

Lemma drop_app (p r : string) : Py.drop (String.length p) (p +:+ r) = r.
Proof. induction p as [|a p IH]; [done|]. by rewrite app_cons. Qed.

Lemma drop_all (s : string) : Py.drop (String.length s) s = EmptyString.
Proof. induction s as [|a s IH]; [done|]. done. Qed.

Lemma slice_from_app (p r : string) (i : Z) :
  i = Py.len p -> Py.slice_from (p +:+ r) i = r.
Proof.
  intros ->. unfold Py.slice_from, Py.clamp, Py.len. rewrite length_app_str.
  replace (Z.of_nat (String.length p) <? 0) with false by (symmetry; apply Z.ltb_ge; lia).
  replace (Z.to_nat _) with (String.length p) by lia.
  apply drop_app.
Qed.

Lemma slice_from_end (s : string) (i : Z) :
  Py.len s <= i -> Py.slice_from s i = EmptyString.
Proof.
  intros Hi. unfold Py.slice_from, Py.clamp, Py.len in *.
  replace (i <? 0) with false by (symmetry; apply Z.ltb_ge; lia).
  replace (Z.to_nat _) with (String.length s) by lia.
  apply drop_all.
Qed.

Lemma join_relative (a b : string) :
  Py.startswith b "/" = false ->
  exists a', posixpath.join a b = a' +:+ b
             /\ (a' = a \/ a' = a +:+ "/")
             /\ forall c, Py.startswith c "/" = false -> posixpath.join a c = a' +:+ c.
Proof.
  intros Hb. unfold posixpath.join. rewrite Hb.
  destruct (negb (Py.truthy a) || Py.endswith a "/").
  - exists a. split; [done|]. split; [by left|]. by intros c ->.
  - exists (a +:+ "/"). rewrite app_assoc_str. split; [done|]. split; [by right|].
    intros c ->. by rewrite app_assoc_str.
Qed.

Section RegistryAccess.

Context (self : WinePrefixManager).

(** X1.  The key path of an address is what follows the hive identifier
    and one more character, whatever that character is: the separator is
    dropped, not checked.  The bare identifier has the empty key path. *)
Theorem key_path_after_identifier (hive : string) (c : ascii) (rest : string) :
  hive = hkcu_prefix \/ hive = hklm_prefix ->
  get_key_path (hive +:+ String c rest) = Ok rest
  /\ get_key_path hive = Ok EmptyString
  /\ get_registry_path self (hive +:+ String c rest) = get_registry_path self hive.
Proof.
  intros [-> | ->].
  - split; [|done]. unfold get_key_path.
    rewrite (proj2 (startswith_true _ _)) by eauto. f_equal.
    change (hkcu_prefix +:+ String c rest) with ((hkcu_prefix +:+ String c EmptyString) +:+ rest).
    by apply slice_from_app.
  - split; [|done]. unfold get_key_path.
    change (Py.startswith (hklm_prefix +:+ String c rest) hkcu_prefix) with false.
    cbv iota.
    rewrite (proj2 (startswith_true _ _)) by eauto. f_equal.
    change (hklm_prefix +:+ String c rest) with ((hklm_prefix +:+ String c EmptyString) +:+ rest).
    by apply slice_from_app.
Qed.

End RegistryAccess.

Lemma key_path_after_identifier_witness :
  get_key_path "HKEY_CURRENT_USER/Software/Wine" = Ok "Software/Wine"
  /\ get_key_path "HKEY_CURRENT_USER" = Ok EmptyString
  /\ get_registry_path Fixture.self "HKEY_CURRENT_USER/Software/Wine"
     = get_registry_path Fixture.self "HKEY_CURRENT_USER".
Proof.
  apply (key_path_after_identifier Fixture.self "HKEY_CURRENT_USER" "/" "Software/Wine").
  by left.
Defined.

(** ** The assignment marker, written and read back *)

Lemma assignment_not_file (self : WinePrefixManager) (m : filesystem) :
  os.isfile (setting_path self) m = false -> assignment self m = EmptyString.
Proof. unfold os.isfile, assignment. by destruct (os.stat _ _) as [[]|]. Qed.

Lemma isfile_delete (p : string) (m : filesystem) : os.isfile p (delete p m) = false.
Proof.
  unfold os.isfile, os.stat, os.resolve. rewrite resolve_go_unfold.
  rewrite lookup_delete_eq. by rewrite lookup_delete_eq.
Qed.

Section MarkerRoundTrip.

Context (self : WinePrefixManager).

(** X3.  The two accessors of the assignment marker never raise: a
    failure is logged and swallowed.  After
    [_set_desktop_integration_assignment(d)] the getter returns [d] as a
    text file gives it back, a carriage return (alone or before a line
    feed) read as a line feed; unless the write failed, and then its
    report is the one event added.  Setting the empty string removes the
    marker, and the getter returns the empty string afterwards.  Neither
    accessor touches the registry. *)
Theorem marker_set_then_get (d : string) (w : world) :
  exists w1,
    _set_desktop_integration_assignment self d w = (Ok tt, w1)
    /\ hives w1 = hives w
    /\ (_get_desktop_integration_assignment self w1 = (Ok (Py.universal_newlines d), w1)
        \/ trace w1 = write_failure :: trace w).
Proof.
  destruct (Py.truthy d) eqn:Hd.
  - unfold _set_desktop_integration_assignment, try_except. rewrite Hd.
    destruct (write_text_cases (setting_path self) d w) as [(q & Hq & ->)|(e & -> & Hnf)].
    + eexists. split; [done|]. split; [done|]. left.
      rewrite get_assignment_spec. simpl. by rewrite assignment_written.
    + eexists. split; [done|]. split; [done|]. by right.
  - apply truthy_false in Hd as ->.
    unfold _set_desktop_integration_assignment, try_except. simpl.
    unfold bind, probe.
    destruct (os.isfile (setting_path self) (fs w)) eqn:Hf.
    + rewrite remove_isfile by done. eexists. split; [done|]. split; [done|]. left.
      rewrite get_assignment_spec. simpl. by rewrite assignment_not_file by apply isfile_delete.
    + eexists. split; [done|]. split; [done|]. left.
      rewrite get_assignment_spec. by rewrite assignment_not_file.
Qed.

End MarkerRoundTrip.

(** ** What the operations can raise *)

Lemma raises_only_mono {A} (P Q : exn -> Prop) (c : M A) :
  (forall e, P e -> Q e) -> raises_only P c -> raises_only Q c.
Proof. intros HPQ Hc w e w' Hrun. eapply HPQ, Hc, Hrun. Qed.

Lemma raises_only_ret {A} (P : exn -> Prop) (a : A) : raises_only P (ret a).
Proof. by intros w e w'. Qed.

Lemma raises_only_probe {A} (P : exn -> Prop) (f : filesystem -> A) : raises_only P (probe f).
Proof. by intros w e w'. Qed.

Lemma raises_only_tell (P : exn -> Prop) (ev : event) : raises_only P (tell ev).
Proof. by intros w e w'. Qed.

Lemma raises_only_raise {A} (P : exn -> Prop) (e : exn) : P e -> raises_only P (@raise A e).
Proof. intros He w e' w' [= <- _]. exact He. Qed.

Lemma raises_only_bind {A B} (P : exn -> Prop) (m : M A) (k : A -> M B) :
  raises_only P m -> (forall a, raises_only P (k a)) -> raises_only P (bind m k).
Proof.
  intros Hm Hk w e w'. unfold bind.
  destruct (m w) as [[a|e1] w1] eqn:E.
  - apply Hk.
  - intros [= <- <-]. by eapply Hm.
Qed.

(** The same when the continuation is only known to behave on the values
    [m] can return. *)
Lemma raises_only_bind_post {A B} (P : exn -> Prop) (R : A -> Prop) (m : M A) (k : A -> M B) :
  (forall w a w', m w = (Ok a, w') -> R a) ->
  raises_only P m -> (forall a, R a -> raises_only P (k a)) -> raises_only P (bind m k).
Proof.
  intros HR Hm Hk w e w'. unfold bind.
  destruct (m w) as [[a|e1] w1] eqn:E.
  - apply Hk. by eapply HR.
  - intros [= <- <-]. by eapply Hm.
Qed.

Lemma raises_only_try_except {A} (P : exn -> Prop) (m : M A) (catches : exn -> bool)
    (h : exn -> M A) :
  raises_only (fun e => catches e = false -> P e) m ->
  (forall e, raises_only P (h e)) ->
  raises_only P (try_except m catches h).
Proof.
  intros Hm Hh w e w'. unfold try_except.
  destruct (m w) as [[a|e1] w1] eqn:E; [done|].
  destruct (catches e1) eqn:Hc.
  - apply Hh.
  - intros [= <- <-]. by eapply Hm.
Qed.

Lemma raises_only_for_each {A} (P : exn -> Prop) (l : list A) (body : A -> M unit) :
  (forall x, raises_only P (body x)) -> raises_only P (for_each l body).
Proof.
  intros Hb. induction l as [|x l IH]; simpl.
  - apply raises_only_ret.
  - apply raises_only_bind; [apply Hb|by intros].
Qed.

Lemma raises_only_fail {A} (e : errno) : raises_only os_error (@os.fail A e).
Proof. by apply raises_only_raise. Qed.

Lemma raises_only_unlink (p : string) : raises_only os_error (os.unlink p).
Proof.
  intros w e w'. unfold os.unlink.
  destruct (fs w !! p) as [[]|]; try done; by intros [= <- _].
Qed.

Lemma raises_only_rmdir (p : string) : raises_only os_error (os.rmdir p).
Proof.
  intros w e w'. unfold os.rmdir.
  destruct (fs w !! p) as [[]|]; try (by intros [= <- _]).
  destruct (os.has_entries p (fs w)); [by intros [= <- _]|done].
Qed.

Lemma raises_only_rename (src dst : string) : raises_only os_error (os.rename src dst).
Proof.
  intros w e w' Hrun.
  destruct (rename_cases src dst w) as [[e' He]|[[_ He]|(_ & _ & _ & _ & _ & He)]];
    rewrite He in Hrun; try done. by injection Hrun as <-.
Qed.

Lemma raises_only_mkdir (p : string) : raises_only os_error (os.mkdir p).
Proof.
  intros w e w'. unfold os.mkdir.
  destruct (fs w !! p); [by intros [= <- _]|].
  destruct (os.parent_check p (fs w)); [by intros [= <- _]|done].
Qed.

Lemma raises_only_symlink (target p : string) : raises_only os_error (os.symlink target p).
Proof.
  intros w e w'. unfold os.symlink.
  destruct (fs w !! p); [by intros [= <- _]|].
  destruct (os.parent_check p (fs w)); [by intros [= <- _]|done].
Qed.

Lemma raises_only_makedirs_go (fuel : nat) (name : string) :
  raises_only os_error (os.makedirs_go fuel name).
Proof.
  revert name. induction fuel as [|n IH]; intros name.
  - apply raises_only_fail.
  - rewrite makedirs_go_S.
    destruct (posixpath.split name) as [head tail].
    destruct (if Py.truthy tail then (head, tail) else posixpath.split head) as [head' tail'].
    assert (Hleaf : raises_only os_error
              (try_except (os.mkdir name) is_OSError
                 (fun e => d <- probe (os.isdir name) ;; if d then ret tt else raise e))).
    { intros w e w'. unfold try_except.
      destruct (os.mkdir name w) as [[[]|e1] w1] eqn:E; [done|].
      pose proof (raises_only_mkdir _ _ _ _ E) as He1. unfold os_error in He1. rewrite He1.
      unfold bind, probe. destruct (os.isdir name (fs w1)); [done|].
      by intros [= <- _]. }
    apply raises_only_bind; [apply raises_only_probe|]. intros head_exists.
    destruct (_ && _); [|done].
    apply raises_only_bind.
    + apply raises_only_try_except; [|intros; apply raises_only_ret].
      eapply raises_only_mono; [|apply IH]. by intros e He _.
    + intros _. case_decide; [apply raises_only_ret|done].
Qed.

Lemma raises_only_makedirs (name : string) : raises_only os_error (os.makedirs name).
Proof. apply raises_only_makedirs_go. Qed.

Lemma raises_only_write_text (p data : string) : raises_only os_error (os.write_text p data).
Proof.
  intros w e w' Hrun.
  destruct (write_text_cases p data w) as [(q & _ & He)|(e' & He & _)];
    rewrite He in Hrun; try done. by injection Hrun as <-.
Qed.

Lemma raises_only_remove_desktop_folder (p safe : string) :
  raises_only os_error (_remove_desktop_folder p safe).
Proof.
  unfold _remove_desktop_folder.
  apply raises_only_bind; [apply raises_only_probe|]. intros [].
  - apply raises_only_unlink.
  - apply raises_only_bind; [apply raises_only_probe|]. intros []; [|apply raises_only_ret].
    apply raises_only_try_except; [|intros; apply raises_only_rename].
    eapply raises_only_mono; [|apply raises_only_rmdir].
    unfold os_error. intros e He. congruence.
Qed.

Section Raising.

Context (host : Host) (self : WinePrefixManager).

(** The loop over the shell folders raises for one reason only. *)
Lemma get_desktop_folders_loop_raises (keys acc : list string) (w w' : world) (e : exn) :
  get_desktop_folders_loop self keys acc w = (Raise e, w') ->
  (exists msg, e = AttributeError msg)
  /\ exists key z, key ∈ keys
       /\ shell_folder (hive_of (user_reg self) w) key = Some (VInt z) /\ z <> 0.
Proof.
  revert acc w. induction keys as [|key keys IH]; intros acc w; simpl; [done|].
  unfold bind at 1. rewrite get_shell_folder.
  destruct (shell_folder (hive_of (user_reg self) w) key) as [[s|z]|] eqn:Hv; simpl.
  - destruct (Py.truthy s); simpl.
    + intros (Hmsg & k & z & Hk & Hz)%IH. split; [done|]. exists k, z. split; [by right|done].
    + unfold bind at 1. simpl.
      intros (Hmsg & k & z & Hk & Hz)%IH. split; [done|]. exists k, z. split; [by right|done].
  - destruct (z =? 0) eqn:Hz; simpl.
    + unfold bind at 1. simpl.
      intros (Hmsg & k & z' & Hk & Hz')%IH. split; [done|]. exists k, z'. split; [by right|done].
    + intros [= <- _]. split; [by eexists|]. exists key, z. split; [by left|].
      split; [done|]. by apply Z.eqb_neq.
  - unfold bind at 1. simpl.
    intros (Hmsg & k & z & Hk & Hz)%IH. split; [done|]. exists k, z. split; [by right|done].
Qed.

Lemma get_desktop_folders_raises (w w' : world) (e : exn) :
  get_desktop_folders self w = (Raise e, w') ->
  (exists msg, e = AttributeError msg) /\ odd_shell_folder self w.
Proof.
  unfold get_desktop_folders, bind.
  destruct (get_desktop_folders_loop self DESKTOP_KEYS [] w) as [[l|e1] w1] eqn:E; [done|].
  intros [= <- _]. by eapply get_desktop_folders_loop_raises.
Qed.

(** How many names the loop returns. *)
Lemma get_desktop_folders_loop_length (keys acc l : list string) (w w' : world) :
  get_desktop_folders_loop self keys acc w = (Ok l, w') ->
  (length acc <= length l <= length acc + length keys)%nat.
Proof.
  revert acc w. induction keys as [|key keys IH]; intros acc w; simpl.
  - intros [= <- _]. lia.
  - unfold bind at 1. rewrite get_shell_folder.
    destruct (shell_folder (hive_of (user_reg self) w) key) as [[s|z]|]; simpl.
    + destruct (Py.truthy s); simpl.
      * intros H%IH. rewrite length_app in H. simpl in H. lia.
      * unfold bind at 1. simpl. intros H%IH. lia.
    + destruct (z =? 0); simpl; [|done].
      unfold bind at 1. simpl. intros H%IH. lia.
    + unfold bind at 1. simpl. intros H%IH. lia.
Qed.

Lemma get_desktop_folders_length (l : list string) (w w' : world) :
  get_desktop_folders self w = (Ok l, w') -> (1 <= length l <= 5)%nat.
Proof.
  unfold get_desktop_folders, bind.
  destruct (get_desktop_folders_loop self DESKTOP_KEYS [] w) as [[l1|e1] w1] eqn:E; [|done].
  apply get_desktop_folders_loop_length in E. simpl in E.
  intros [= <- _]. destruct l1; simpl in *; lia.
Qed.

(** Writing the marker cannot raise: the handler takes everything. *)
Lemma set_assignment_total (d : string) (w : world) :
  exists w1, _set_desktop_integration_assignment self d w = (Ok tt, w1).
Proof.
  unfold _set_desktop_integration_assignment, try_except.
  destruct (Py.truthy d).
  - destruct (os.write_text _ _ _) as [[[]|e] w1]; by eexists.
  - unfold bind, probe. destruct (os.isfile _ _).
    + destruct (os.remove _ _) as [[[]|e] w1]; by eexists.
    + by eexists.
Qed.

Lemma raises_only_disintegrate_folder (item : string) :
  raises_only os_error (disintegrate_folder host self item).
Proof.
  unfold disintegrate_folder.
  apply raises_only_bind; [apply raises_only_probe|]. intros []; [|apply raises_only_ret].
  apply raises_only_bind; [apply raises_only_remove_desktop_folder|]. intros _.
  apply raises_only_bind; [apply raises_only_probe|].
  intros []; [apply raises_only_rename|apply raises_only_makedirs].
Qed.

Lemma raises_only_sandbox_folder (desktop_dir item : string) :
  raises_only os_error (sandbox_folder host self desktop_dir item).
Proof.
  unfold sandbox_folder.
  apply raises_only_bind; [apply raises_only_remove_desktop_folder|]. intros _.
  apply raises_only_bind; [apply raises_only_makedirs|]. intros _.
  apply raises_only_symlink.
Qed.

(** The index [enumerate] gives stays inside [DESKTOP_XDG] as long as the
    list is no longer than that. *)
Lemma raises_only_restore_loop (i : nat) (l : list string) :
  (i + length l <= length DESKTOP_XDG)%nat ->
  raises_only os_error (for_each_indexed i l (restore_folder host self)).
Proof.
  revert i. induction l as [|item l IH]; intros i Hi; simpl in *.
  - apply raises_only_ret.
  - apply raises_only_bind; [|intros _; apply IH; lia].
    unfold restore_folder.
    apply raises_only_bind; [apply raises_only_remove_desktop_folder|]. intros _.
    destruct (DESKTOP_XDG !! i) as [xdg|] eqn:Hx.
    + destruct (negb _); [apply raises_only_tell|apply raises_only_symlink].
    + apply lookup_ge_None in Hx. simpl in Hx. lia.
Qed.

(** The shape the three operations share, and what it can raise. *)
Lemma guarded_transition_raises (target : string) (loop : list string -> M unit)
    (w w' : world) (e : exn) :
  (forall folders, (1 <= length folders <= 5)%nat -> raises_only os_error (loop folders)) ->
  (go <- needs_transition host self target ;;
   if go then
     desktop_folders <- get_desktop_folders self ;;
     loop desktop_folders ;;;
     _set_desktop_integration_assignment self target
   else ret tt) w = (Raise e, w') ->
  os_error e \/ ((exists msg, e = AttributeError msg) /\ odd_shell_folder self w).
Proof.
  intros Hloop.
  destruct (needs_transition_total host self target w) as [go Hgo].
  unfold bind at 1. rewrite Hgo. destruct go; [|done].
  unfold bind at 1.
  destruct (get_desktop_folders self w) as [[folders|e1] wa] eqn:Ea.
  - unfold bind at 1.
    destruct (loop folders wa) as [[[]|e2] wb] eqn:Eb.
    + destruct (set_assignment_total target wb) as [w1 ->]. done.
    + intros [= <- _]. left. eapply Hloop; [|exact Eb].
      by eapply get_desktop_folders_length.
  - intros [= <- _]. right. by eapply get_desktop_folders_raises.
Qed.

Lemma disintegration_raises (w w' : world) (e : exn) :
  enable_desktop_disintegration host self w = (Raise e, w') ->
  os_error e \/ ((exists msg, e = AttributeError msg) /\ odd_shell_folder self w).
Proof.
  apply (guarded_transition_raises (user_dir host self)
           (fun folders => for_each folders (disintegrate_folder host self))).
  intros folders _. apply raises_only_for_each, raises_only_disintegrate_folder.
Qed.

(** X4.  What the three desktop-folder operations cannot raise.  None of
    them raises [IndexError]: the list of folders is never longer than
    the list of host folders it is paired with.  And an [AttributeError]
    is that of a shell folder whose registry value is a non-zero integer:
    it is raised only in a registry that holds such a value. *)
Theorem desktop_operations_raise (target : option string) (w w' : world) (e : exn) :
  enable_desktop_integration_sandbox host self target w = (Raise e, w')
  \/ enable_desktop_disintegration host self w = (Raise e, w')
  \/ restore_desktop_integration host self w = (Raise e, w') ->
  (forall msg, e <> IndexError msg)
  /\ ((exists msg, e = AttributeError msg) -> odd_shell_folder self w).
Proof.
  intros Hrun.
  assert (Hcases : os_error e \/ ((exists msg, e = AttributeError msg) /\ odd_shell_folder self w)).
  { destruct Hrun as [Hrun|[Hrun|Hrun]].
    - revert Hrun. unfold enable_desktop_integration_sandbox.
      case_decide; [apply disintegration_raises|].
      apply (guarded_transition_raises _
               (fun folders => for_each folders (sandbox_folder host self _))).
      intros folders _. apply raises_only_for_each, raises_only_sandbox_folder.
    - by eapply disintegration_raises.
    - revert Hrun.
      apply (guarded_transition_raises _
               (fun folders => for_each_indexed 0 folders (restore_folder host self))).
      intros folders Hlen. apply raises_only_restore_loop. simpl. lia. }
  destruct Hcases as [Hos|[[msg ->] Hodd]].
  - unfold os_error in Hos. destruct e; try done. split; [done|]. by intros [msg' ?].
  - split; [done|]. by intros _.
Qed.

End Raising.

(** A shell folder that holds the integer 5: the sandboxing raises the
    [AttributeError], and the registry is an odd one. *)
Lemma desktop_operations_raise_witness :
  let w := World Fixture.profile
             {[user_reg Fixture.self :=
                 {[("Software/Microsoft/Windows/CurrentVersion/Explorer/Shell Folders",
                    "Desktop") := VInt 5]}]} [] in
  let r := enable_desktop_integration_sandbox Fixture.host Fixture.self (Some "/tmp/sandbox") w in
  r.1 = Raise (AttributeError "'int' object has no attribute 'rfind'")
  /\ odd_shell_folder Fixture.self w.
Proof.
  cbv zeta.
  set (w := World Fixture.profile _ []).
  assert (Hrun : (enable_desktop_integration_sandbox Fixture.host Fixture.self
                    (Some "/tmp/sandbox") w).1
                 = Raise (AttributeError "'int' object has no attribute 'rfind'"))
    by by_evaluation.
  split; [exact Hrun|].
  eapply (desktop_operations_raise Fixture.host Fixture.self (Some "/tmp/sandbox") w).
  - left. rewrite <- Hrun. apply surjective_pairing.
  - by eexists.
Defined.

(** ** The names of the desktop folders *)

Lemma rfind_bounds (c : ascii) (s : string) : -1 <= Py.rfind c s < Py.len s.
Proof.
  unfold Py.len. induction s as [|a s IH]; simpl; [lia|].
  destruct (0 <=? Py.rfind c s) eqn:E.
  - apply Z.leb_le in E. lia.
  - destruct (decide (a = c)); lia.
Qed.

(** Nothing after the last occurrence of a character holds that
    character. *)
Lemma rfind_drop (c : ascii) (s : string) :
  Py.rfind c (Py.drop (Z.to_nat (Py.rfind c s + 1)) s) = -1.
Proof.
  induction s as [|a s IH]; [done|]. simpl.
  pose proof (rfind_bounds c s) as Hb.
  destruct (0 <=? Py.rfind c s) eqn:E.
  - apply Z.leb_le in E.
    replace (Z.to_nat (Py.rfind c s + 1 + 1)) with (S (Z.to_nat (Py.rfind c s + 1))) by lia.
    exact IH.
  - apply Z.leb_gt in E. assert (Py.rfind c s = -1) as Hr by lia.
    destruct (decide (a = c)) as [->|Hne].
    + simpl. rewrite Hr in IH. exact IH.
    + simpl. rewrite Hr. simpl. by rewrite decide_False.
Qed.

Lemma folder_name_no_backslash (s : string) : Py.rfind "\" (folder_name s) = -1.
Proof.
  unfold folder_name, Py.slice_from, Py.clamp.
  pose proof (rfind_bounds "\" s) as Hb.
  replace (Py.rfind "\" s + 1 <? 0) with false by (symmetry; apply Z.ltb_ge; lia).
  rewrite Z.min_r by lia. apply rfind_drop.
Qed.

Section FolderNames.

Context (self : WinePrefixManager).

Lemma get_desktop_folders_loop_names (P : string -> Prop) (keys acc l : list string)
    (w w' : world) :
  (forall s, P (folder_name s)) -> Forall P acc ->
  get_desktop_folders_loop self keys acc w = (Ok l, w') -> Forall P l.
Proof.
  intros HP. revert acc w. induction keys as [|key keys IH]; intros acc w Hacc; simpl.
  - by intros [= <- _].
  - unfold bind at 1. rewrite get_shell_folder.
    destruct (shell_folder (hive_of (user_reg self) w) key) as [[s|z]|]; simpl.
    + destruct (Py.truthy s); simpl.
      * apply IH. apply Forall_app. split; [done|]. apply Forall_singleton. apply HP.
      * unfold bind at 1. simpl. by apply IH.
    + destruct (z =? 0); simpl; [|done]. unfold bind at 1. simpl. by apply IH.
    + unfold bind at 1. simpl. by apply IH.
Qed.

(** X5.  When [get_desktop_folders] returns, it returns between one and
    five names, and none of them holds a backslash: a name read from the
    registry is what follows the last backslash of the value, and the
    built-in names have none.  The call changes nothing but the trace. *)
Theorem get_desktop_folders_names (l : list string) (w w' : world) :
  get_desktop_folders self w = (Ok l, w') ->
  (1 <= length l <= 5)%nat
  /\ Forall (fun name => Py.rfind "\" name = -1) l
  /\ fs w' = fs w /\ hives w' = hives w.
Proof.
  intros Hrun. split; [by eapply get_desktop_folders_length|].
  unfold get_desktop_folders, bind in Hrun.
  destruct (get_desktop_folders_loop self DESKTOP_KEYS [] w) as [[l1|e1] w1] eqn:E; [|done].
  injection Hrun as <- <-. split.
  - apply (get_desktop_folders_loop_names (fun name => Py.rfind "\" name = -1)) in E;
      [|apply folder_name_no_backslash|done].
    destruct l1; [|done]. by repeat constructor.
  - clear -E. revert E. generalize (@nil string). generalize DESKTOP_KEYS.
    intros keys. revert w. induction keys as [|key keys IH]; intros w acc; simpl.
    + by intros [= _ <-].
    + unfold bind at 1. rewrite get_shell_folder.
      destruct (shell_folder (hive_of (user_reg self) w) key) as [[s|z]|]; simpl.
      * destruct (Py.truthy s); simpl.
        -- intros H%IH. by simpl in H.
        -- unfold bind at 1. simpl. intros H%IH. by simpl in H.
      * destruct (z =? 0); simpl; [|done]. unfold bind at 1. simpl. intros H%IH. by simpl in H.
      * unfold bind at 1. simpl. intros H%IH. by simpl in H.
Qed.

End FolderNames.

Lemma get_desktop_folders_names_witness :
  let r := get_desktop_folders Fixture.self FixtureRegistry.partial in
  r.1 = Ok ["Bureau"; "Musique"]
  /\ Forall (fun name => Py.rfind "\" name = -1) ["Bureau"; "Musique"].
Proof.
  assert (Hrun : (get_desktop_folders Fixture.self FixtureRegistry.partial).1
                 = Ok ["Bureau"; "Musique"]) by by_evaluation.
  split; [exact Hrun|].
  eapply (get_desktop_folders_names Fixture.self ["Bureau"; "Musique"] FixtureRegistry.partial).
  rewrite <- Hrun. apply surjective_pairing.
Defined.

(** ** The profiles of Wine and of Proton *)

Lemma startswith_app (a x p : string) :
  Py.startswith a p = true -> Py.startswith (a +:+ x) p = true.
Proof.
  intros [r ->]%startswith_true. apply startswith_true. exists (r +:+ x).
  by rewrite app_assoc_str.
Qed.

Lemma join_absolute (a b : string) :
  Py.startswith a "/" = true -> Py.startswith (posixpath.join a b) "/" = true.
Proof.
  intros Ha. unfold posixpath.join.
  destruct (Py.startswith b "/") eqn:Hb; [done|].
  destruct (_ || _); by apply startswith_app.
Qed.

Lemma join_onto_absolute (a b : string) :
  Py.startswith b "/" = true -> posixpath.join a b = b.
Proof. intros Hb. unfold posixpath.join. by rewrite Hb. Qed.

Lemma exists_not_link (p : string) (m : filesystem) :
  os.islink p m = false -> os.exists_ p m = bool_decide (is_Some (m !! p)).
Proof.
  intros H. unfold os.exists_. rewrite stat_not_link by done.
  destruct (m !! p) as [n|].
  - by rewrite bool_decide_eq_true_2.
  - rewrite bool_decide_eq_false_2; [done|]. by intros [? ?].
Qed.

(** A new link to an absolute path that is there and is no link leads
    somewhere. *)
Lemma exists_new_link (p t : string) (n : node) (m : filesystem) :
  Py.startswith t "/" = true -> m !! t = Some n -> (forall t', n <> Link t') -> t <> p ->
  os.exists_ p (<[p := Link t]> m) = true /\ os.exists_ t (<[p := Link t]> m) = true.
Proof.
  intros Habs Ht Hn Hne.
  assert (Ht' : <[p := Link t]> m !! t = Some n) by by rewrite lookup_insert_ne.
  assert (Hend : forall fuel, os.resolve_go fuel (<[p := Link t]> m) t = Some t).
  { intros fuel. rewrite resolve_go_unfold, Ht'. destruct n; try done. by edestruct Hn. }
  split.
  - unfold os.exists_, os.stat, os.resolve, os.MAXSYMLINKS.
    rewrite resolve_go_unfold, lookup_insert_eq.
    rewrite join_onto_absolute by done. by rewrite Hend, Ht'.
  - unfold os.exists_, os.stat, os.resolve. by rewrite Hend, Ht'.
Qed.

Lemma symlink_ok (t p : string) (w w1 : world) :
  os.symlink t p w = (Ok tt, w1) ->
  fs w !! p = None /\ w1 = emit (Symlinked t p) (with_fs (<[p := Link t]> (fs w)) w).
Proof.
  unfold os.symlink. destruct (fs w !! p); [done|].
  destruct (os.parent_check p (fs w)); [done|]. by intros [= <-].
Qed.

Section UserSymlinks.

Context (host : Host) (self : WinePrefixManager).

Lemma get_user_dir_absolute (default_user : option string) :
  Py.startswith (path self) "/" = true ->
  Py.startswith (get_user_dir host self default_user) "/" = true.
Proof. intros Hp. unfold get_user_dir. by do 2 apply join_absolute. Qed.

(** One link between two profiles of which one is there. *)
Lemma link_profiles (here there : string) (w w1 : world) :
  Py.startswith here "/" = true ->
  os.islink here (fs w) = false ->
  os.exists_ here (fs w) = true ->
  os.symlink here there w = (Ok tt, w1) ->
  os.exists_ here (fs w1) = true /\ os.exists_ there (fs w1) = true
  /\ fs w1 = <[there := Link here]> (fs w).
Proof.
  intros Habs Hnl Hex [Hfree ->]%symlink_ok. simpl.
  rewrite exists_not_link in Hex by done.
  apply bool_decide_eq_true in Hex as [n Hn].
  assert (forall t', n <> Link t') as Hn'.
  { intros t' ->. unfold os.islink in Hnl. by rewrite Hn in Hnl. }
  destruct (exists_new_link there here n (fs w)) as [H1 H2]; try done.
  intros ->. congruence.
Qed.

Lemma create_user_symlinks_unfold (w : world) :
  let wine := get_user_dir host self None in
  let proton := get_user_dir host self (Some "steamuser") in
  create_user_symlinks host self w
  = if os.exists_ wine (fs w) && negb (os.exists_ proton (fs w))
    then os.symlink wine proton w
    else if os.exists_ proton (fs w) && negb (os.exists_ wine (fs w))
         then os.symlink proton wine w
         else (Ok tt, w).
Proof.
  intros wine proton. unfold create_user_symlinks, bind, probe. cbv zeta.
  fold wine. fold proton.
  destruct (os.exists_ wine (fs w) && negb (os.exists_ proton (fs w))); [done|].
  by destruct (os.exists_ proton (fs w) && negb (os.exists_ wine (fs w))).
Qed.

(** X6.  [create_user_symlinks] in a prefix with an absolute path whose
    two profile paths are no symbolic links yet.  When it returns
    normally, one of three things has happened.  Both profiles were
    there, or both were missing, and nothing has changed.  Or the Wine
    profile was there and the Proton one was not: then the one change is
    a new symbolic link at the Proton path, to the Wine profile.  Or the
    other way round.  After a link was made both paths lead somewhere;
    in every case a second call changes nothing, and the registry is left
    alone. *)
Theorem create_user_symlinks_settles (w w1 : world) :
  let wine := get_user_dir host self None in
  let proton := get_user_dir host self (Some "steamuser") in
  Py.startswith (path self) "/" = true ->
  os.islink wine (fs w) = false ->
  os.islink proton (fs w) = false ->
  create_user_symlinks host self w = (Ok tt, w1) ->
  ((w1 = w /\ os.exists_ wine (fs w) = os.exists_ proton (fs w))
   \/ (os.exists_ wine (fs w) = true /\ fs w !! proton = None
       /\ w1 = emit (Symlinked wine proton) (with_fs (<[proton := Link wine]> (fs w)) w)
       /\ os.exists_ wine (fs w1) = true /\ os.exists_ proton (fs w1) = true)
   \/ (os.exists_ proton (fs w) = true /\ fs w !! wine = None
       /\ w1 = emit (Symlinked proton wine) (with_fs (<[wine := Link proton]> (fs w)) w)
       /\ os.exists_ wine (fs w1) = true /\ os.exists_ proton (fs w1) = true))
  /\ create_user_symlinks host self w1 = (Ok tt, w1)
  /\ hives w1 = hives w.
Proof.
  intros wine proton Hpath Hlw Hlp Hrun.
  pose proof (get_user_dir_absolute None Hpath) as Haw.
  pose proof (get_user_dir_absolute (Some "steamuser") Hpath) as Hap.
  fold wine in Haw. fold proton in Hap.
  assert (Hsame : forall w0, os.exists_ wine (fs w0) = os.exists_ proton (fs w0) ->
                    create_user_symlinks host self w0 = (Ok tt, w0)).
  { intros w0 H. rewrite create_user_symlinks_unfold. fold wine. fold proton.
    rewrite H. by destruct (os.exists_ proton (fs w0)). }
  rewrite create_user_symlinks_unfold in Hrun. fold wine in Hrun. fold proton in Hrun.
  destruct (os.exists_ wine (fs w)) eqn:Hw, (os.exists_ proton (fs w)) eqn:Hp; simpl in Hrun.
  - injection Hrun as <-. split; [left; split; congruence|].
    split; [apply Hsame; congruence|done].
  - pose proof (symlink_ok _ _ _ _ Hrun) as [Hfree Hw1].
    destruct (link_profiles wine proton w w1) as (H1 & H2 & Hfs); try done.
    split; [right; left; by repeat split|].
    split; [apply Hsame; congruence|by rewrite Hw1].
  - pose proof (symlink_ok _ _ _ _ Hrun) as [Hfree Hw1].
    destruct (link_profiles proton wine w w1) as (H1 & H2 & Hfs); try done.
    split; [right; right; by repeat split|].
    split; [apply Hsame; congruence|by rewrite Hw1].
  - injection Hrun as <-. split; [left; split; congruence|].
    split; [apply Hsame; congruence|done].
Qed.

End UserSymlinks.

Lemma create_user_symlinks_settles_witness :
  let r := create_user_symlinks Fixture.host Fixture.self Fixture.native in
  r.1 = Ok tt
  /\ fs r.2 !! "/pfx/drive_c/users/steamuser" = Some (Link "/pfx/drive_c/users/joe")
  /\ create_user_symlinks Fixture.host Fixture.self r.2 = (Ok tt, r.2).
Proof.
  assert (Hrun : (create_user_symlinks Fixture.host Fixture.self Fixture.native).1 = Ok tt)
    by by_evaluation.
  split; [exact Hrun|]. split; [by_evaluation|].
  eapply (create_user_symlinks_settles Fixture.host Fixture.self Fixture.native).
  - reflexivity.
  - reflexivity.
  - reflexivity.
  - rewrite <- Hrun. apply surjective_pairing.
Defined.

(** Why the prefix path has to be absolute: the target of the link is the
    path as the manager spells it, which a relative link resolves from
    its own directory.  The link dangles, and the second call tries to
    make it again. *)
Example create_user_symlinks_relative :
  let self := {| path := "pfx" |} in
  let w := Fixture.start (Fixture.dirs [""; "pfx"; "pfx/drive_c"; "pfx/drive_c/users";
                                        "pfx/drive_c/users/joe"]) in
  let r1 := create_user_symlinks Fixture.host self w in
  let r2 := create_user_symlinks Fixture.host self r1.2 in
  r1.1 = Ok tt
  /\ fs r1.2 !! "pfx/drive_c/users/steamuser" = Some (Link "pfx/drive_c/users/joe")
  /\ os.exists_ "pfx/drive_c/users/steamuser" (fs r1.2) = false
  /\ r2.1 = Raise (OSError EEXIST).
Proof. by_evaluation. Qed.

(** ** Looking for a prefix *)

Lemma take_all (n : nat) (s : string) : (String.length s <= n)%nat -> Py.take n s = s.
Proof.
  revert s. induction n as [|n IH]; intros [|a s]; simpl; try done; try lia.
  intros H. rewrite IH; [done|lia].
Qed.

Lemma take_prefix (n : nat) (s : string) : exists r, s = Py.take n s +:+ r.
Proof.
  revert s. induction n as [|n IH]; intros s; [by exists s|].
  destruct s as [|a s]; [by exists EmptyString|].
  destruct (IH s) as [r Hr]. exists r. simpl. rewrite app_cons. by rewrite <- Hr.
Qed.

Lemma drop_empty (n : nat) (s : string) :
  Py.drop n s = EmptyString -> (String.length s <= n)%nat.
Proof.
  revert s. induction n as [|n IH]; intros [|a s]; simpl; try done; try lia.
  intros H. specialize (IH s H). lia.
Qed.

Lemma rstrip_prefix (c : ascii) (s : string) : exists r, s = Py.rstrip c s +:+ r.
Proof.
  induction s as [|a s [r IH]]; [by exists EmptyString|]. simpl.
  destruct (Py.rstrip c s) as [|b t] eqn:E.
  - destruct (decide (a = c)).
    + by exists (String a s).
    + exists s. by rewrite app_cons.
  - exists r. rewrite app_cons. by rewrite <- IH.
Qed.

Lemma rstrip_empty (c : ascii) (s : string) :
  Py.rstrip c s = EmptyString <-> Py.all_chars c s = true.
Proof.
  induction s as [|a s IH]; simpl; [done|].
  destruct (Py.rstrip c s) as [|b t] eqn:E.
  - destruct (decide (a = c)) as [->|Hne].
    + rewrite bool_decide_eq_true_2 by done. simpl. split; [intros _; by apply IH|done].
    + rewrite bool_decide_eq_false_2 by done. done.
  - split; [done|]. intros [_ H]%andb_true_iff. by apply IH in H.
Qed.

(** What [rstrip] leaves does not end with the character. *)
Lemma rstrip_fixed (c : ascii) (s : string) :
  Py.rstrip c s = s -> s <> EmptyString -> Py.rfind c s < Py.len s - 1.
Proof.
  unfold Py.len. induction s as [|a s IH]; [done|]. intros H _.
  pose proof (rfind_bounds c s) as Hb. unfold Py.len in Hb.
  change (String.length (String a s)) with (S (String.length s)).
  rewrite Nat2Z.inj_succ.
  simpl in H. simpl Py.rfind. cbv zeta.
  destruct (Py.rstrip c s) as [|b t] eqn:E.
  - destruct (decide (a = c)) as [|Hne]; [done|]. injection H as <-. simpl. lia.
  - injection H as H.
    assert (s <> EmptyString) as Hs by (intros ->; done).
    specialize (IH H Hs).
    assert (1 <= Z.of_nat (String.length s)) as Hlen by (destruct s; [done|simpl; lia]).
    destruct (0 <=? Py.rfind c s); [lia|]. destruct (decide (a = c)); lia.
Qed.

Lemma prefix_same_length (x r s : string) :
  s = x +:+ r -> String.length x = String.length s -> x = s.
Proof.
  intros -> H. rewrite length_app_str in H.
  destruct r; [|simpl in H; lia].
  clear H. induction x as [|a x IH]; [done|]. rewrite app_cons. by rewrite <- IH.
Qed.

Lemma dirname_prefix (p : string) : exists r, p = posixpath.dirname p +:+ r.
Proof.
  unfold posixpath.dirname, posixpath.split. simpl. unfold Py.slice_to.
  destruct (take_prefix (Py.clamp p (Py.rfind "/" p + 1)) p) as [r Hr].
  destruct (_ && _); [|by exists r].
  destruct (rstrip_prefix "/" (Py.take (Py.clamp p (Py.rfind "/" p + 1)) p)) as [r' Hr'].
  exists (r' +:+ r). rewrite <- app_assoc_str. by rewrite <- Hr'.
Qed.

(** Taking a component off makes a path shorter, except for [/], the
    empty path, and a path of slashes only. *)
Lemma dirname_shorter (p : string) :
  p <> EmptyString -> Py.all_chars "/" p = false ->
  (String.length (posixpath.dirname p) < String.length p)%nat.
Proof.
  intros Hne Hall.
  destruct (decide ((posixpath.split p).2 = EmptyString)) as [Htail|Htail];
    [|by apply split_head_lt].
  unfold posixpath.dirname. revert Htail. unfold posixpath.split. simpl.
  unfold Py.slice_from, Py.slice_to. intros Hd%drop_empty.
  rewrite take_all by done.
  rewrite (truthy_true p) by done. rewrite Hall. simpl.
  pose proof (rstrip_length "/" p) as Hle.
  destruct (decide (String.length (Py.rstrip "/" p) = String.length p)) as [Heq|]; [|lia].
  exfalso. destruct (rstrip_prefix "/" p) as [r Hr].
  pose proof (prefix_same_length _ _ _ Hr Heq) as Hfix.
  pose proof (rstrip_fixed _ _ Hfix Hne) as Hlast.
  pose proof (rfind_bounds "/" p) as Hb.
  unfold Py.clamp, Py.len in *.
  destruct (Py.rfind "/" p + 1 <? 0) eqn:E.
  - apply Z.ltb_lt in E. lia.
  - lia.
Qed.

Lemma all_slashes_cases (p : string) :
  Py.all_chars "/" p = true ->
  p = EmptyString \/ p = "/" \/ Py.startswith p "//" = true.
Proof.
  destruct p as [|a [|b p]]; simpl; [by left|..].
  - intros H%andb_true_iff. destruct H as [->%bool_decide_eq_true _]. right. by left.
  - intros [->%bool_decide_eq_true [->%bool_decide_eq_true _]%andb_true_iff]%andb_true_iff.
    right. by right.
Qed.

Lemma dirname_single_slash (p : string) :
  Py.startswith p "//" = false -> Py.startswith (posixpath.dirname p) "//" = false.
Proof.
  intros H. destruct (Py.startswith (posixpath.dirname p) "//") eqn:E; [|done].
  destruct (dirname_prefix p) as [r Hr]. rewrite Hr in H.
  by rewrite startswith_app in H.
Qed.

Lemma rfind_second (a c : ascii) (s : string) : 1 <= Py.rfind c (String a (String c s)).
Proof.
  pose proof (rfind_bounds c s).
  change (Py.rfind c (String a (String c s)))
    with (let r := (let r := Py.rfind c s in
                    if 0 <=? r then r + 1 else if decide (c = c) then 0 else -1) in
          if 0 <=? r then r + 1 else if decide (a = c) then 0 else -1).
  cbv zeta. rewrite decide_True by done.
  destruct (0 <=? Py.rfind c s) eqn:E.
  - apply Z.leb_le in E.
    replace (0 <=? Py.rfind c s + 1) with true by (symmetry; apply Z.leb_le; lia). lia.
  - simpl. lia.
Qed.

Lemma dirname_unfold (p : string) :
  posixpath.dirname p
  = let head := Py.slice_to p (Py.rfind "/" p + 1) in
    if Py.truthy head && negb (Py.all_chars "/" head) then Py.rstrip "/" head else head.
Proof. reflexivity. Qed.

Lemma rstrip_double (c : ascii) (t : string) :
  Py.all_chars c t = false ->
  Py.rstrip c (String c (String c t)) = String c (String c (Py.rstrip c t)).
Proof.
  intros H. simpl. destruct (Py.rstrip c t) as [|b r] eqn:E; [|done].
  apply rstrip_empty in E. congruence.
Qed.

(** A path that starts with two slashes keeps them, however many
    components are taken off. *)
Lemma dirname_double_slash (p : string) :
  Py.startswith p "//" = true -> Py.startswith (posixpath.dirname p) "//" = true.
Proof.
  intros [rest ->]%startswith_true.
  change ("//" +:+ rest) with (String "/" (String "/" rest)).
  rewrite dirname_unfold.
  pose proof (rfind_second "/" "/" rest) as H1.
  pose proof (rfind_bounds "/" (String "/" (String "/" rest))) as Hb.
  unfold Py.slice_to, Py.clamp, Py.len in *.
  change (String.length (String "/" (String "/" rest))) with (S (S (String.length rest))) in *.
  generalize dependent (Py.rfind "/" (String "/" (String "/" rest))). intros r H1 Hb.
  replace (r + 1 <? 0) with false by (symmetry; apply Z.ltb_ge; lia).
  rewrite Z.min_r by lia.
  replace (Z.to_nat (r + 1)) with (S (S (Z.to_nat (r - 1)))) by lia.
  cbv zeta. simpl Py.take.
  destruct (Py.truthy _ && negb _) eqn:E; [|done].
  apply andb_true_iff in E as [_ E]. apply negb_true_iff in E. simpl in E.
  rewrite rstrip_double; [done|]. exact E.
Qed.

Lemma ancestor_S (k : nat) (p : string) :
  ancestor (S k) p = ancestor k (posixpath.dirname p).
Proof. unfold ancestor. apply Nat.iter_succ_r. Qed.

Lemma ancestor_fixed (k : nat) (d : string) :
  posixpath.dirname d = d -> ancestor k d = d.
Proof. intros H. induction k as [|k IH]; [done|]. by rewrite ancestor_S, H. Qed.

(** One turn of the loop: it stops at the root and at the empty path;
    else it looks at the directory above, and either finds nothing there
    and goes on from it, or returns the first of the candidates that is a
    prefix. *)
Lemma find_prefix_turn (n : nat) (path : string) (m : filesystem) :
  path <> "/" -> path <> EmptyString ->
  (no_prefix_at (posixpath.dirname path) m
   /\ find_prefix_loop (S n) path m = find_prefix_loop n (posixpath.dirname path) m)
  \/ (exists before p after,
        candidates (posixpath.dirname path) = before ++ p :: after
        /\ Forall (fun q => is_prefix q m = false) before
        /\ is_prefix p m = true
        /\ find_prefix_loop (S n) path m = Some (Some p)).
Proof.
  intros Hroot Hne. simpl.
  rewrite bool_decide_eq_true_2 by done. rewrite truthy_true by done. simpl.
  set (d := posixpath.dirname path). unfold no_prefix_at, candidates. simpl.
  destruct (is_prefix d m) eqn:H1.
  { right. exists [], d, [posixpath.join d "prefix"; posixpath.join d "pfx"]. by repeat split. }
  destruct (is_prefix (posixpath.join d "prefix") m) eqn:H2.
  { right. exists [d], (posixpath.join d "prefix"), [posixpath.join d "pfx"].
    repeat split; try done. by repeat constructor. }
  destruct (is_prefix (posixpath.join d "pfx") m) eqn:H3.
  { right. exists [d; posixpath.join d "prefix"], (posixpath.join d "pfx"), [].
    repeat split; try done. by repeat constructor. }
  left. split; [by repeat constructor|done].
Qed.

Lemma find_prefix_loop_stop (n : nat) (path : string) (m : filesystem) :
  path = "/" \/ path = EmptyString -> find_prefix_loop (S n) path m = Some None.
Proof. by intros [-> | ->]. Qed.

Lemma find_prefix_loop_found (fuel : nat) (path : string) (m : filesystem) (p : string) :
  find_prefix_loop fuel path m = Some (Some p) ->
  is_prefix p m = true
  /\ exists k before after,
       (k < fuel)%nat
       /\ candidates (ancestor (S k) path) = before ++ p :: after
       /\ Forall (fun q => is_prefix q m = false) before
       /\ forall j, (j < k)%nat -> no_prefix_at (ancestor (S j) path) m.
Proof.
  revert path. induction fuel as [|n IH]; intros path; [done|].
  destruct (decide (path = "/")) as [->|Hroot]; [done|].
  destruct (decide (path = EmptyString)) as [->|Hne]; [done|].
  destruct (find_prefix_turn n path m Hroot Hne)
    as [[Hnone ->]|(before & q & after & Hc & Hb & Hq & ->)].
  - intros (Hp & k & before & after & Hk & Hc & Hb & Hnear)%IH. split; [done|].
    exists (S k), before, after. split; [lia|]. rewrite ancestor_S. split; [done|].
    split; [done|]. intros [|j] Hj; [done|]. rewrite ancestor_S. apply Hnear. lia.
  - intros [= <-]. split; [done|]. exists 0%nat, before, after.
    split; [lia|]. split; [done|]. split; [done|]. intros j Hj. lia.
Qed.

Lemma find_prefix_loop_none (fuel : nat) (path : string) (m : filesystem) :
  find_prefix_loop fuel path m = Some None ->
  path = EmptyString \/ path = "/" \/ forall k, no_prefix_at (ancestor (S k) path) m.
Proof.
  revert path. induction fuel as [|n IH]; intros path; [done|].
  destruct (decide (path = "/")) as [->|Hroot]; [by right; left|].
  destruct (decide (path = EmptyString)) as [->|Hne]; [by left|].
  destruct (find_prefix_turn n path m Hroot Hne)
    as [[Hnone ->]|(before & q & after & Hc & Hb & Hq & ->)]; [|done].
  intros Hrest%IH. right. right. intros k. rewrite ancestor_S.
  destruct k as [|k]; [done|].
  destruct Hrest as [Hd|[Hd|Hall]].
  - rewrite ancestor_fixed; [done|]. by rewrite Hd.
  - rewrite ancestor_fixed; [done|]. by rewrite Hd.
  - apply Hall.
Qed.

Lemma find_prefix_loop_terminates (fuel : nat) (path : string) (m : filesystem) :
  Py.startswith path "//" = false -> (String.length path < fuel)%nat ->
  exists r, find_prefix_loop fuel path m = Some r.
Proof.
  revert path. induction fuel as [|n IH]; intros path Hs Hlen; [lia|].
  destruct (decide (path = "/")) as [->|Hroot]; [by eexists|].
  destruct (decide (path = EmptyString)) as [->|Hne]; [by eexists|].
  destruct (find_prefix_turn n path m Hroot Hne)
    as [[Hnone ->]|(before & q & after & Hc & Hb & Hq & ->)]; [|by eexists].
  apply IH; [by apply dirname_single_slash|].
  assert (Py.all_chars "/" path = false) as Hall.
  { destruct (Py.all_chars "/" path) eqn:E; [|done].
    apply all_slashes_cases in E as [?|[?|?]]; congruence. }
  pose proof (dirname_shorter path Hne Hall). lia.
Qed.

Lemma find_prefix_loop_double_slash (fuel : nat) (path : string) (m : filesystem) :
  Py.startswith path "//" = true ->
  find_prefix_loop fuel path m = None
  \/ exists p, find_prefix_loop fuel path m = Some (Some p).
Proof.
  revert path. induction fuel as [|n IH]; intros path Hs; [by left|].
  assert (path <> "/") as Hroot by (by intros ->).
  assert (path <> EmptyString) as Hne by (by intros ->).
  destruct (find_prefix_turn n path m Hroot Hne)
    as [[Hnone ->]|(before & q & after & Hc & Hb & Hq & ->)]; [|right; by eexists].
  apply IH. by apply dirname_double_slash.
Qed.

Lemma find_prefix_given (fuel : nat) (path : string) (m : filesystem) :
  path <> EmptyString ->
  find_prefix fuel path m = (fun r => (r, [])) <$> find_prefix_loop fuel path m.
Proof. intros H. unfold find_prefix. by rewrite truthy_true. Qed.

(** X7.  The prefix [find_prefix] returns is a prefix, and the nearest
    one: it is found at some directory above the path, as the directory
    itself or as its [prefix] or [pfx] entry, whichever comes first in
    that order, and no directory nearer to the path has a prefix at any
    of the three places.  Nothing is logged. *)
Theorem find_prefix_nearest (fuel : nat) (path : string) (m : filesystem)
    (p : string) (logs : list string) :
  find_prefix fuel path m = Some (Some p, logs) ->
  is_prefix p m = true /\ logs = []
  /\ exists k before after,
       (k < fuel)%nat
       /\ candidates (ancestor (S k) path) = before ++ p :: after
       /\ Forall (fun q => is_prefix q m = false) before
       /\ forall j, (j < k)%nat -> no_prefix_at (ancestor (S j) path) m.
Proof.
  unfold find_prefix. destruct (Py.truthy path); simpl; [|done].
  destruct (find_prefix_loop fuel path m) as [[q|]|] eqn:E; simpl; try done.
  intros [= <- <-]. apply find_prefix_loop_found in E as [Hp Hk]. done.
Qed.

(** X8.  When [find_prefix] returns nothing for a path that is neither
    empty nor the root, no directory above the path has a prefix at any
    of the three places.  For the empty path it returns nothing and says
    so at the info level; for the root it returns nothing without having
    looked anywhere. *)
Theorem find_prefix_exhaustive (fuel : nat) (path : string) (m : filesystem)
    (logs : list string) :
  find_prefix fuel path m = Some (None, logs) ->
  (path = EmptyString /\ logs = ["No path given, unable to guess prefix location"])
  \/ (path = "/" /\ logs = [])
  \/ (logs = [] /\ forall k, no_prefix_at (ancestor (S k) path) m).
Proof.
  unfold find_prefix. destruct (Py.truthy path) eqn:Ht; simpl.
  - destruct (find_prefix_loop fuel path m) as [[q|]|] eqn:E; simpl; try done.
    intros [= <-]. apply find_prefix_loop_none in E as [->|[->|Hall]]; [done|..].
    + right. by left.
    + right. by right.
  - intros [= <-]. left. by apply truthy_false in Ht.
Qed.

(** X9.  [find_prefix] returns for every path that does not start with
    two slashes: its loop takes a component off the path each turn, so at
    most as many turns as the path has characters. *)
Theorem find_prefix_terminates (fuel : nat) (path : string) (m : filesystem) :
  Py.startswith path "//" = false -> (String.length path < fuel)%nat ->
  exists r, find_prefix fuel path m = Some r.
Proof.
  intros Hs Hlen. unfold find_prefix. destruct (Py.truthy path); simpl; [|by eexists].
  destruct (find_prefix_loop_terminates fuel path m Hs Hlen) as [r ->]. by eexists.
Qed.

(** X10.  For a path that starts with two slashes, [find_prefix] never
    returns empty-handed: [os.path.dirname] keeps the two slashes, so the
    loop never reaches the root or the empty path.  It returns a prefix
    it found, or it is still running, whatever the number of turns. *)
Theorem find_prefix_double_slash (fuel : nat) (path : string) (m : filesystem) :
  Py.startswith path "//" = true ->
  find_prefix fuel path m = None
  \/ exists p, find_prefix fuel path m = Some (Some p, []).
Proof.
  intros Hs. rewrite find_prefix_given by (by intros ->).
  destruct (find_prefix_loop_double_slash fuel path m Hs) as [->|[p ->]]; [by left|].
  right. by exists p.
Qed.

Lemma find_prefix_nearest_witness :
  let m := <["/pfx/user.reg" := File EmptyString]> Fixture.base in
  find_prefix 32 "/pfx/drive_c/game/run.exe" m = Some (Some "/pfx", [])
  /\ is_prefix "/pfx" m = true.
Proof.
  assert (Hrun : find_prefix 32 "/pfx/drive_c/game/run.exe"
                   (<["/pfx/user.reg" := File EmptyString]> Fixture.base)
                 = Some (Some "/pfx", [])) by by_evaluation.
  split; [exact Hrun|].
  by destruct (find_prefix_nearest _ _ _ _ _ Hrun) as [H _].
Defined.

Lemma find_prefix_exhaustive_witness :
  find_prefix 32 "/home/joe/run.exe" Fixture.base = Some (None, [])
  /\ no_prefix_at (ancestor 2 "/home/joe/run.exe") Fixture.base.
Proof.
  assert (Hrun : find_prefix 32 "/home/joe/run.exe" Fixture.base = Some (None, []))
    by by_evaluation.
  split; [exact Hrun|].
  destruct (find_prefix_exhaustive _ _ _ _ Hrun) as [[H _]|[[H _]|[_ H]]];
    [discriminate H|discriminate H|apply H].
Defined.

Lemma find_prefix_terminates_witness :
  exists r, find_prefix 32 "/home/joe/run.exe" Fixture.base = Some r.
Proof.
  apply (find_prefix_terminates 32 "/home/joe/run.exe" Fixture.base).
  - reflexivity.
  - simpl. lia.
Defined.

Lemma find_prefix_double_slash_witness :
  find_prefix 32 "//home/joe/run.exe" Fixture.base = None
  \/ exists p, find_prefix 32 "//home/joe/run.exe" Fixture.base = Some (Some p, []).
Proof.
  apply (find_prefix_double_slash 32 "//home/joe/run.exe" Fixture.base). reflexivity.
Defined.

(** The search from a path with two slashes at its start, in a file
    system with no prefix: still running after a thousand turns. *)
Example find_prefix_still_running :
  find_prefix 1000 "//home/joe/run.exe" Fixture.base = None.
Proof. by_evaluation. Qed.

(** ** The application-data directory *)

Section AppData.

Context (host : Host) (self : WinePrefixManager).

Lemma appdata_options_differ :
  posixpath.join (user_dir host self) "Application Data"
  <> posixpath.join (user_dir host self) "AppData/Roaming".
Proof.
  destruct (join_relative (user_dir host self) "Application Data") as (a' & -> & _ & Hc);
    [done|].
  rewrite (Hc "AppData/Roaming") by done.
  intros H. by apply String.app_inj in H.
Qed.

Lemma join_under (a b : string) :
  Py.startswith b "/" = false -> Py.startswith (posixpath.join a b) a = true.
Proof.
  intros Hb. destruct (join_relative a b Hb) as (a' & -> & [-> | ->] & _).
  - apply startswith_true. by eexists.
  - apply startswith_true. exists ("/" +:+ b). by rewrite app_assoc_str.
Qed.

(** X11.  [appdata_dir] answers with one of two directories, both under
    the user profile of the prefix: [Application Data] exactly when the
    [AppData] shell folder is a string that ends, whatever the case of its
    letters, with a backslash and "application data"; [AppData/Roaming]
    otherwise, also when the registry has no such value.  It raises only
    for a value that is an integer.  It reads the registry and changes
    neither it nor the file system. *)
Theorem appdata_dir_options (w w' : world) (r : outcome string) :
  let xp := posixpath.join (user_dir host self) "Application Data" in
  let vista := posixpath.join (user_dir host self) "AppData/Roaming" in
  let folder := shell_folder (hive_of (user_reg self) w) "AppData" in
  appdata_dir host self w = (r, w') ->
  fs w' = fs w /\ hives w' = hives w
  /\ match r with
     | Ok d =>
         (d = xp \/ d = vista)
         /\ Py.startswith d (user_dir host self) = true
         /\ (d = xp <-> exists s, folder = Some (VStr s)
                          /\ Py.endswith (Py.lower s) "\application data" = true)
     | Raise e => exists z msg, folder = Some (VInt z) /\ e = AttributeError msg
     end.
Proof.
  intros xp vista folder. unfold appdata_dir. unfold bind at 1.
  rewrite get_shell_folder. fold folder. fold (user_dir host self). fold xp. fold vista.
  assert (Hxp : Py.startswith xp (user_dir host self) = true) by by apply join_under.
  assert (Hvista : Py.startswith vista (user_dir host self) = true) by by apply join_under.
  pose proof appdata_options_differ as Hne. fold xp vista in Hne.
  destruct folder as [[s|z]|] eqn:Hf.
  - destruct (Py.endswith (Py.lower s) "\application data") eqn:He.
    + intros [= <- <-]. split; [done|]. split; [done|]. split; [by left|].
      split; [done|]. split; [by eauto|done].
    + intros [= <- <-]. split; [done|]. split; [done|]. split; [by right|].
      split; [done|]. split; [by intros ?%symmetry|].
      intros (s' & [= <-] & He'). congruence.
  - intros [= <- <-]. split; [done|]. split; [done|]. by eexists _, _.
  - unfold bind. simpl. intros [= <- <-]. split; [done|]. split; [done|].
    split; [by right|]. split; [done|]. split; [by intros ?%symmetry|].
    by intros (s' & [=] & _).
Qed.

End AppData.

Lemma appdata_dir_options_witness :
  let w := World Fixture.profile
             {["/pfx/user.reg" :=
                 {[("Software/Microsoft/Windows/CurrentVersion/Explorer/Shell Folders", "AppData")
                     := VStr "C:\users\joe\Application Data"]}]} [] in
  (appdata_dir Fixture.host Fixture.self w).1 = Ok "/pfx/drive_c/users/joe/Application Data"
  /\ (appdata_dir Fixture.host Fixture.self Fixture.native).1
     = Ok "/pfx/drive_c/users/joe/AppData/Roaming"
  /\ fs (appdata_dir Fixture.host Fixture.self w).2 = fs w.
Proof.
  split; [by_evaluation|]. split; [by_evaluation|].
  eapply (appdata_dir_options Fixture.host Fixture.self). apply surjective_pairing.
Defined.

(** ** What leaves the registry alone *)

Lemma saves_no_hive_same {A} (c : M A) :
  (forall w, exists r, c w = (r, w)) -> saves_no_hive c.
Proof.
  intros Hc w r w' Hrun. destruct (Hc w) as [r0 H0]. rewrite H0 in Hrun.
  injection Hrun as <- <-. split; [done|]. by exists [].
Qed.

Lemma saves_no_hive_ret {A} (a : A) : saves_no_hive (ret a).
Proof. apply saves_no_hive_same. intros w. by eexists. Qed.

Lemma saves_no_hive_raise {A} (e : exn) : saves_no_hive (@raise A e).
Proof. apply saves_no_hive_same. intros w. by eexists. Qed.

Lemma saves_no_hive_lift {A} (o : outcome A) : saves_no_hive (lift o).
Proof. apply saves_no_hive_same. intros w. by eexists. Qed.

Lemma saves_no_hive_probe {A} (f : filesystem -> A) : saves_no_hive (probe f).
Proof. apply saves_no_hive_same. intros w. by eexists. Qed.

Lemma saves_no_hive_tell (ev : event) : is_save ev = false -> saves_no_hive (tell ev).
Proof.
  intros Hev w r w' [= <- <-]. split; [done|]. exists [ev]. split; [done|].
  simpl. by rewrite Hev.
Qed.

Lemma saves_no_hive_bind {A B} (m : M A) (k : A -> M B) :
  saves_no_hive m -> (forall a, saves_no_hive (k a)) -> saves_no_hive (bind m k).
Proof.
  intros Hm Hk w r w'. unfold bind.
  destruct (m w) as [[a|e] w1] eqn:E.
  - intros Hrun. destruct (Hm _ _ _ E) as (Hh1 & l1 & Ht1 & Hs1).
    destruct (Hk _ _ _ _ Hrun) as (Hh2 & l2 & Ht2 & Hs2).
    split; [congruence|]. exists (l2 ++ l1). split.
    + rewrite Ht2, Ht1. by rewrite app_assoc.
    + rewrite List.filter_app. by rewrite Hs1, Hs2.
  - intros [= <- <-]. by eapply Hm.
Qed.

Lemma saves_no_hive_try_except {A} (m : M A) (catches : exn -> bool) (h : exn -> M A) :
  saves_no_hive m -> (forall e, saves_no_hive (h e)) -> saves_no_hive (try_except m catches h).
Proof.
  intros Hm Hh w r w'. unfold try_except.
  destruct (m w) as [[a|e] w1] eqn:E.
  - intros [= <- <-]. by eapply Hm.
  - destruct (catches e).
    + intros Hrun. destruct (Hm _ _ _ E) as (Hh1 & l1 & Ht1 & Hs1).
      destruct (Hh _ _ _ _ Hrun) as (Hh2 & l2 & Ht2 & Hs2).
      split; [congruence|]. exists (l2 ++ l1). split.
      * rewrite Ht2, Ht1. by rewrite app_assoc.
      * rewrite List.filter_app. by rewrite Hs1, Hs2.
    + intros [= <- <-]. by eapply Hm.
Qed.

Lemma saves_no_hive_for_each {A} (l : list A) (body : A -> M unit) :
  (forall x, saves_no_hive (body x)) -> saves_no_hive (for_each l body).
Proof.
  intros Hb. induction l as [|x l IH]; simpl.
  - apply saves_no_hive_ret.
  - apply saves_no_hive_bind; [apply Hb|by intros].
Qed.

Lemma saves_no_hive_for_each_indexed {A} (i : nat) (l : list A) (body : nat -> A -> M unit) :
  (forall i x, saves_no_hive (body i x)) -> saves_no_hive (for_each_indexed i l body).
Proof.
  intros Hb. revert i. induction l as [|x l IH]; intros i; simpl.
  - apply saves_no_hive_ret.
  - apply saves_no_hive_bind; [apply Hb|by intros].
Qed.

(** A call of [os] fails and changes nothing, or changes the file system
    and adds the one event that says so. *)
Lemma saves_no_hive_step (c : M unit) :
  (forall w, (exists e, c w = (Raise e, w))
             \/ (exists m ev, is_save ev = false /\ c w = (Ok tt, emit ev (with_fs m w)))) ->
  saves_no_hive c.
Proof.
  intros Hc w r w' Hrun. destruct (Hc w) as [[e He]|(m & ev & Hev & He)];
    rewrite He in Hrun; injection Hrun as <- <-.
  - split; [done|]. by exists [].
  - split; [done|]. exists [ev]. split; [done|]. simpl. by rewrite Hev.
Qed.

Lemma saves_no_hive_unlink (p : string) : saves_no_hive (os.unlink p).
Proof.
  apply saves_no_hive_step. intros w. unfold os.unlink.
  destruct (fs w !! p) as [[]|]; try (left; by eexists); right; eexists _, _; (split; [|reflexivity]); reflexivity.
Qed.

Lemma saves_no_hive_rmdir (p : string) : saves_no_hive (os.rmdir p).
Proof.
  apply saves_no_hive_step. intros w. unfold os.rmdir.
  destruct (fs w !! p) as [[]|]; try (left; by eexists).
  destruct (os.has_entries p (fs w)); [left; by eexists|right; eexists _, _; (split; [|reflexivity]); reflexivity].
Qed.

Lemma saves_no_hive_rename (src dst : string) : saves_no_hive (os.rename src dst).
Proof.
  intros w r w' Hrun.
  destruct (rename_cases src dst w) as [[e He]|[[_ He]|(_ & _ & _ & _ & _ & He)]];
    rewrite He in Hrun; injection Hrun as <- <-.
  - split; [done|]. by exists [].
  - split; [done|]. by exists [].
  - split; [done|]. by exists [Renamed src dst].
Qed.

Lemma saves_no_hive_mkdir (p : string) : saves_no_hive (os.mkdir p).
Proof.
  apply saves_no_hive_step. intros w. unfold os.mkdir.
  destruct (fs w !! p); [left; by eexists|].
  destruct (os.parent_check p (fs w)); [left; by eexists|right; eexists _, _; (split; [|reflexivity]); reflexivity].
Qed.

Lemma saves_no_hive_symlink (target p : string) : saves_no_hive (os.symlink target p).
Proof.
  apply saves_no_hive_step. intros w. unfold os.symlink.
  destruct (fs w !! p); [left; by eexists|].
  destruct (os.parent_check p (fs w)); [left; by eexists|right; eexists _, _; (split; [|reflexivity]); reflexivity].
Qed.

Lemma saves_no_hive_makedirs_go (fuel : nat) (name : string) :
  saves_no_hive (os.makedirs_go fuel name).
Proof.
  revert name. induction fuel as [|n IH]; intros name.
  - apply saves_no_hive_raise.
  - rewrite makedirs_go_S.
    destruct (posixpath.split name) as [head tail].
    destruct (if Py.truthy tail then (head, tail) else posixpath.split head) as [head' tail'].
    assert (Hleaf : saves_no_hive
              (try_except (os.mkdir name) is_OSError
                 (fun e => d <- probe (os.isdir name) ;; if d then ret tt else raise e))).
    { apply saves_no_hive_try_except; [apply saves_no_hive_mkdir|]. intros e.
      apply saves_no_hive_bind; [apply saves_no_hive_probe|].
      intros []; [apply saves_no_hive_ret|apply saves_no_hive_raise]. }
    apply saves_no_hive_bind; [apply saves_no_hive_probe|]. intros head_exists.
    destruct (_ && _); [|done].
    apply saves_no_hive_bind.
    + apply saves_no_hive_try_except; [apply IH|]. intros. apply saves_no_hive_ret.
    + intros _. case_decide; [apply saves_no_hive_ret|done].
Qed.

Lemma saves_no_hive_read_text (p : string) : saves_no_hive (os.read_text p).
Proof.
  apply saves_no_hive_same. intros w. unfold os.read_text.
  destruct (os.resolve (fs w) p); [|by eexists].
  destruct (fs w !! s) as [[]|]; by eexists.
Qed.

Lemma saves_no_hive_write_text (p data : string) : saves_no_hive (os.write_text p data).
Proof.
  apply saves_no_hive_step. intros w.
  destruct (write_text_cases p data w) as [(q & _ & ->)|(e & -> & _)].
  - right. eexists _, _. split; [|reflexivity]. reflexivity.
  - left. by eexists.
Qed.

Section Reading.

Context (host : Host) (self : WinePrefixManager).

Lemma saves_no_hive_get_registry_key (key subkey : string) :
  saves_no_hive (get_registry_key self key subkey).
Proof.
  unfold get_registry_key.
  apply saves_no_hive_bind; [apply saves_no_hive_lift|]. intros file.
  apply saves_no_hive_bind.
  { intros w r w' [= <- <-]. split; [done|]. by exists [HiveRead file]. }
  intros registry.
  apply saves_no_hive_bind; [apply saves_no_hive_lift|]. intros key_path.
  apply saves_no_hive_ret.
Qed.

Lemma saves_no_hive_get_desktop_folders : saves_no_hive (get_desktop_folders self).
Proof.
  apply saves_no_hive_bind; [|intros; apply saves_no_hive_ret].
  generalize (@nil string). induction DESKTOP_KEYS as [|key keys IH]; intros acc; simpl.
  - apply saves_no_hive_ret.
  - apply saves_no_hive_bind; [apply saves_no_hive_get_registry_key|]. intros folder.
    destruct (negb (val_truthy folder)).
    + apply saves_no_hive_bind; [by apply saves_no_hive_tell|]. intros _. apply IH.
    + destruct folder as [[s|z]|]; [apply IH|apply saves_no_hive_raise..].
Qed.

Lemma saves_no_hive_remove_desktop_folder (p safe : string) :
  saves_no_hive (_remove_desktop_folder p safe).
Proof.
  unfold _remove_desktop_folder.
  apply saves_no_hive_bind; [apply saves_no_hive_probe|]. intros [].
  - apply saves_no_hive_unlink.
  - apply saves_no_hive_bind; [apply saves_no_hive_probe|]. intros []; [|apply saves_no_hive_ret].
    apply saves_no_hive_try_except; [apply saves_no_hive_rmdir|].
    intros. apply saves_no_hive_rename.
Qed.

Lemma saves_no_hive_get_assignment :
  saves_no_hive (_get_desktop_integration_assignment self).
Proof.
  apply saves_no_hive_try_except.
  - apply saves_no_hive_bind; [apply saves_no_hive_probe|].
    intros []; [apply saves_no_hive_read_text|apply saves_no_hive_ret].
  - intros e. apply saves_no_hive_bind; [by apply saves_no_hive_tell|].
    intros. apply saves_no_hive_ret.
Qed.

Lemma saves_no_hive_set_assignment (d : string) :
  saves_no_hive (_set_desktop_integration_assignment self d).
Proof.
  apply saves_no_hive_try_except.
  - destruct (Py.truthy d); [apply saves_no_hive_write_text|].
    apply saves_no_hive_bind; [apply saves_no_hive_probe|].
    intros []; [apply saves_no_hive_unlink|apply saves_no_hive_ret].
  - intros e. by apply saves_no_hive_tell.
Qed.

Lemma saves_no_hive_transition (target : string) (loop : list string -> M unit) :
  (forall folders, saves_no_hive (loop folders)) ->
  saves_no_hive
    (go <- needs_transition host self target ;;
     if go then
       desktop_folders <- get_desktop_folders self ;;
       loop desktop_folders ;;;
       _set_desktop_integration_assignment self target
     else ret tt).
Proof.
  intros Hloop. apply saves_no_hive_bind.
  - apply saves_no_hive_bind; [apply saves_no_hive_probe|]. intros []; [|apply saves_no_hive_ret].
    apply saves_no_hive_bind; [apply saves_no_hive_get_assignment|].
    intros. apply saves_no_hive_ret.
  - intros []; [|apply saves_no_hive_ret].
    apply saves_no_hive_bind; [apply saves_no_hive_get_desktop_folders|]. intros folders.
    apply saves_no_hive_bind; [apply Hloop|]. intros _.
    apply saves_no_hive_set_assignment.
Qed.

Lemma saves_no_hive_disintegrate_folder (item : string) :
  saves_no_hive (disintegrate_folder host self item).
Proof.
  unfold disintegrate_folder.
  apply saves_no_hive_bind; [apply saves_no_hive_probe|]. intros []; [|apply saves_no_hive_ret].
  apply saves_no_hive_bind; [apply saves_no_hive_remove_desktop_folder|]. intros _.
  apply saves_no_hive_bind; [apply saves_no_hive_probe|].
  intros []; [apply saves_no_hive_rename|apply saves_no_hive_makedirs_go].
Qed.

Lemma saves_no_hive_sandbox_folder (desktop_dir item : string) :
  saves_no_hive (sandbox_folder host self desktop_dir item).
Proof.
  unfold sandbox_folder.
  apply saves_no_hive_bind; [apply saves_no_hive_remove_desktop_folder|]. intros _.
  apply saves_no_hive_bind; [apply saves_no_hive_makedirs_go|]. intros _.
  apply saves_no_hive_symlink.
Qed.

Lemma saves_no_hive_restore_folder (i : nat) (item : string) :
  saves_no_hive (restore_folder host self i item).
Proof.
  unfold restore_folder.
  apply saves_no_hive_bind; [apply saves_no_hive_remove_desktop_folder|]. intros _.
  destruct (DESKTOP_XDG !! i); [|apply saves_no_hive_raise].
  destruct (negb _); [by apply saves_no_hive_tell|apply saves_no_hive_symlink].
Qed.

Lemma saves_no_hive_disintegration :
  saves_no_hive (enable_desktop_disintegration host self).
Proof.
  apply (saves_no_hive_transition _
           (fun folders => for_each folders (disintegrate_folder host self))).
  intros folders. apply saves_no_hive_for_each. intros item.
  apply saves_no_hive_disintegrate_folder.
Qed.

Lemma saves_no_hive_sandbox (target : option string) :
  saves_no_hive (enable_desktop_integration_sandbox host self target).
Proof.
  unfold enable_desktop_integration_sandbox.
  case_decide; [apply saves_no_hive_disintegration|].
  apply (saves_no_hive_transition _
           (fun folders => for_each folders (sandbox_folder host self _))).
  intros folders. apply saves_no_hive_for_each. intros item.
  apply saves_no_hive_sandbox_folder.
Qed.

Lemma saves_no_hive_restore : saves_no_hive (restore_desktop_integration host self).
Proof.
  apply (saves_no_hive_transition _
           (fun folders => for_each_indexed 0 folders (restore_folder host self))).
  intros folders. apply saves_no_hive_for_each_indexed. intros i item.
  apply saves_no_hive_restore_folder.
Qed.

Lemma saves_no_hive_create_user_symlinks : saves_no_hive (create_user_symlinks host self).
Proof.
  unfold create_user_symlinks.
  apply saves_no_hive_bind; [apply saves_no_hive_probe|].
  intros []; [apply saves_no_hive_symlink|].
  apply saves_no_hive_bind; [apply saves_no_hive_probe|].
  intros []; [apply saves_no_hive_symlink|apply saves_no_hive_ret].
Qed.

(** X12.  None of the three desktop-folder operations writes the
    registry, and [create_user_symlinks] does not either: however the
    call ends, the hives hold what they held, and no event the call adds
    to the trace is the save of a hive. *)
Theorem desktop_operations_save_no_hive (target : option string) (w w' : world)
    (r : outcome unit) :
  enable_desktop_integration_sandbox host self target w = (r, w')
  \/ enable_desktop_disintegration host self w = (r, w')
  \/ restore_desktop_integration host self w = (r, w')
  \/ create_user_symlinks host self w = (r, w') ->
  hives w' = hives w
  /\ exists l, trace w' = l ++ trace w /\ List.filter is_save l = [].
Proof.
  intros [Hrun|[Hrun|[Hrun|Hrun]]].
  - by eapply saves_no_hive_sandbox.
  - by eapply saves_no_hive_disintegration.
  - by eapply saves_no_hive_restore.
  - by eapply saves_no_hive_create_user_symlinks.
Qed.

End Reading.

Lemma desktop_operations_save_no_hive_witness :
  let r := restore_desktop_integration Fixture.host Fixture.self FixtureRegistry.partial in
  r.1 = Ok tt
  /\ fs r.2 !! "/pfx/drive_c/users/joe/Bureau" = Some (Link "/home/joe/Desktop")
  /\ hives r.2 = hives FixtureRegistry.partial.
Proof.
  split; [by_evaluation|]. split; [by_evaluation|].
  eapply (desktop_operations_save_no_hive Fixture.host Fixture.self None).
  right. right. left. apply surjective_pairing.
Defined.

(** ** [int(str(z))] *)

Lemma digit_char (y : N) :
  (y < 10)%N ->
  exists n : nat,
    Ascii.is_nat (pretty_N_char y) = Some n
    /\ Py.is_space (pretty_N_char y) = false
    /\ pretty_N_char y <> "+"%char /\ pretty_N_char y <> "-"%char
    /\ Z.of_nat n = Z.of_N y.
Proof.
  intros Hy.
  assert (y = 0 \/ y = 1 \/ y = 2 \/ y = 3 \/ y = 4 \/ y = 5 \/ y = 6 \/ y = 7 \/ y = 8
          \/ y = 9)%N as Hcases by lia.
  repeat (destruct Hcases as [->|Hcases]; [eexists; by repeat split|]).
  subst. eexists. by repeat split.
Qed.

(** The digits of [x], read back onto an accumulator. *)
Lemma digits_go_pretty (x : N) :
  exists k : nat, forall acc t,
    Py.digits_go acc false (pretty_N_go x t)
    = Py.digits_go (acc * 10 ^ Z.of_nat k + Z.of_N x) false t.
Proof.
  induction (N.lt_wf_0 x) as [x _ IH].
  assert (x = 0 \/ 0 < x)%N as [->|Hx] by lia.
  - exists 0%nat. intros acc t. rewrite pretty_N_go_0. f_equal. lia.
  - destruct (IH (x `div` 10)%N) as [k Hk]; [by apply N.div_lt|].
    exists (S k). intros acc t. rewrite pretty_N_go_step by done. rewrite Hk.
    destruct (digit_char (x `mod` 10)) as (n & Hn & _ & _ & _ & Hv);
      [apply N.mod_lt; lia|].
    simpl. rewrite Hn. f_equal. rewrite Hv.
    rewrite Nat2Z.inj_succ, Z.pow_succ_r by lia.
    pose proof (N.div_mod x 10) as Hdm.
    assert (Z.of_N x = 10 * Z.of_N (x `div` 10) + Z.of_N (x `mod` 10)) by lia.
    lia.
Qed.

Lemma pretty_first_digit (x : N) (s : string) :
  (0 < x)%N -> exists y r, (y < 10)%N /\ pretty_N_go x s = String (pretty_N_char y) r.
Proof.
  revert s. induction (N.lt_wf_0 x) as [x _ IH]. intros s Hx.
  rewrite pretty_N_go_step by done.
  destruct (N.eq_0_gt_0_cases (x `div` 10)) as [->|Hq].
  - rewrite pretty_N_go_0. eexists _, _. split; [|done]. apply N.mod_lt. lia.
  - apply IH; [by apply N.div_lt|done].
Qed.

Lemma rstrip_ws_cons (a : ascii) (s : string) :
  Py.rstrip_ws s = s -> s <> EmptyString -> Py.rstrip_ws (String a s) = String a s.
Proof. intros H Hs. simpl. rewrite H. by destruct s. Qed.

Lemma rstrip_ws_pretty (x : N) (s : string) :
  (0 < x)%N -> (s = EmptyString \/ Py.rstrip_ws s = s) ->
  Py.rstrip_ws (pretty_N_go x s) = pretty_N_go x s.
Proof.
  revert s. induction (N.lt_wf_0 x) as [x _ IH]. intros s Hx Hs.
  rewrite pretty_N_go_step by done.
  destruct (digit_char (x `mod` 10)) as (n & _ & Hsp & _); [apply N.mod_lt; lia|].
  assert (Py.rstrip_ws (String (pretty_N_char (x `mod` 10)) s)
          = String (pretty_N_char (x `mod` 10)) s) as Hc.
  { destruct Hs as [->|Hs].
    - simpl. by rewrite Hsp.
    - destruct s as [|b s]; [simpl; by rewrite Hsp|]. by apply rstrip_ws_cons. }
  destruct (N.eq_0_gt_0_cases (x `div` 10)) as [->|Hq].
  - by rewrite pretty_N_go_0.
  - apply IH; [by apply N.div_lt|done|by right].
Qed.

Lemma int_pretty_N (x : N) :
  (0 < x)%N ->
  exists a r,
    pretty_N_go x EmptyString = String a r
    /\ Py.is_space a = false /\ a <> "+"%char /\ a <> "-"%char
    /\ Py.rstrip_ws (String a r) = String a r
    /\ Py.digits (String a r) = Some (Z.of_N x).
Proof.
  intros Hx. destruct (pretty_first_digit x EmptyString Hx) as (y & r & Hlt & Hy).
  destruct (digit_char y Hlt) as (n & Hn & Hsp & Hplus & Hminus & _).
  exists (pretty_N_char y), r. split; [done|]. split; [done|]. split; [done|]. split; [done|].
  split; [rewrite <- Hy; apply rstrip_ws_pretty; [done|by left]|].
  destruct (digits_go_pretty x) as [k Hk].
  specialize (Hk 0 EmptyString). rewrite Hy in Hk. simpl in Hk. rewrite Hn in Hk.
  simpl. rewrite Hn. rewrite Z.mul_0_l in Hk. simpl in Hk.
  replace (Z.of_nat n) with (0 + Z.of_nat n) by lia. exact Hk.
Qed.

Lemma int_sign (a : ascii) (r : string) :
  a <> "+"%char -> a <> "-"%char ->
  match String a r with
  | String "+" r' => Py.digits r'
  | String "-" r' => Z.opp <$> Py.digits r'
  | t => Py.digits t
  end = Py.digits (String a r).
Proof.
  intros Hp Hm.
  destruct a as [[] [] [] [] [] [] [] []]; try done.
Qed.

(** What [str] writes, [int] reads. *)
Lemma int_str (z : Z) : Py.int (Py.str z) = Some z.
Proof.
  unfold Py.str, pretty, pretty_Z. destruct z as [|p|p].
  - reflexivity.
  - unfold pretty, pretty_positive, pretty, pretty_N.
    rewrite decide_False by done.
    destruct (int_pretty_N (N.pos p)) as (a & r & -> & Hsp & Hplus & Hminus & Hr & Hd); [lia|].
    unfold Py.int. simpl Py.lstrip_ws. rewrite Hsp. rewrite Hr.
    rewrite int_sign by done. by rewrite Hd.
  - unfold pretty, pretty_positive, pretty, pretty_N.
    rewrite decide_False by done.
    destruct (int_pretty_N (N.pos p)) as (a & r & -> & Hsp & Hplus & Hminus & Hr & Hd); [lia|].
    unfold Py.int. rewrite app_cons. change (EmptyString +:+ String a r) with (String a r).
    simpl Py.lstrip_ws.
    rewrite rstrip_ws_cons by done.
    by rewrite Hd.
Qed.

(** What [str] writes has no carriage return: a text file gives it back
    as it is. *)
Lemma universal_newlines_cons (a : ascii) (s : string) :
  a <> "013"%char ->
  Py.universal_newlines (String a s) = String a (Py.universal_newlines s).
Proof. intros Ha. simpl. by rewrite decide_False. Qed.

Lemma universal_newlines_pretty (x : N) (s : string) :
  Py.universal_newlines s = s ->
  Py.universal_newlines (pretty_N_go x s) = pretty_N_go x s.
Proof.
  revert s. induction (N.lt_wf_0 x) as [x _ IH]. intros s Hs.
  destruct (N.eq_0_gt_0_cases x) as [->|Hx]; [by rewrite pretty_N_go_0|].
  rewrite pretty_N_go_step by done.
  apply IH; [apply N.div_lt; lia|].
  destruct (digit_char (x `mod` 10)) as (n & _ & Hsp & _); [apply N.mod_lt; lia|].
  rewrite universal_newlines_cons; [by rewrite Hs|].
  intros E. by rewrite E in Hsp.
Qed.

Lemma universal_newlines_str (z : Z) : Py.universal_newlines (Py.str z) = Py.str z.
Proof.
  unfold Py.str, pretty, pretty_Z. destruct z as [|p|p].
  - reflexivity.
  - unfold pretty, pretty_positive, pretty, pretty_N.
    rewrite decide_False by done. by apply universal_newlines_pretty.
  - unfold pretty, pretty_positive, pretty, pretty_N.
    rewrite decide_False by done. rewrite app_cons.
    change (EmptyString +:+ ?x) with x.
    rewrite universal_newlines_cons by done. f_equal. by apply universal_newlines_pretty.
Qed.

Lemma find_nonneg (c : ascii) (s : string) : Py.find c s = -1 \/ 0 <= Py.find c s.
Proof.
  induction s as [|a s IH]; simpl; [by left|].
  case_decide; [by right|]. destruct (Py.find c s <? 0) eqn:E; [by left|].
  right. apply Z.ltb_ge in E. lia.
Qed.

(** A text reads back as it was written exactly when it holds no
    carriage return. *)
Lemma universal_newlines_fixed (s : string) :
  Py.universal_newlines s = s <-> Py.find "013" s = -1.
Proof.
  induction s as [|a s IH]; [done|]. simpl.
  destruct (decide (a = "013"%char)) as [->|Ha].
  - split; [by intros [= ?]|done].
  - destruct (Py.find "013" s <? 0) eqn:E.
    + apply Z.ltb_lt in E. split; [done|]. intros _. f_equal. apply IH.
      destruct (find_nonneg "013" s); lia.
    + apply Z.ltb_ge in E. split; [|lia]. intros [= H]. apply IH in H. lia.
Qed.

(** ** Setting the DPI, and clearing it again *)

Lemma stat_written (m : filesystem) (p q data : string) :
  os.resolve m p = Some q -> os.stat (<[q := File data]> m) p = Some (File data).
Proof.
  intros Hq. unfold os.stat, os.resolve in *.
  rewrite (resolve_go_insert_end _ _ _ _ _ Hq). by rewrite lookup_insert_eq.
Qed.

Section AssignDPI.

Context (self : WinePrefixManager).

(** [set_dpi] with a value: the registry first, then the marker; when the
    marker cannot be written the exception leaves and the registry stays
    as [assign_dpi] left it. *)
Lemma set_dpi_value (d : Z) (w : world) :
  d <> 0 ->
  let h := <[desktop_entry := VInt d]> (<[fonts_entry := VInt d]> (hive_of (user_reg self) w)) in
  let l := [HiveSaved (user_reg self); HiveRead (user_reg self);
            HiveSaved (user_reg self); HiveRead (user_reg self)] in
  (exists q, os.resolve (fs w) (assignment_path self) = Some q
     /\ set_dpi self (Some d) w
        = (Ok tt, World (<[q := File (Py.str d)]> (fs w)) (<[user_reg self := h]> (hives w))
                    (Wrote (assignment_path self) (Py.str d) :: l ++ trace w)))
  \/ (exists e, os.isfile (assignment_path self) (fs w) = false
        /\ set_dpi self (Some d) w
           = (Raise (OSError e), World (fs w) (<[user_reg self := h]> (hives w)) (l ++ trace w))).
Proof.
  intros Hd h l. unfold set_dpi. simpl.
  replace (d =? 0) with false by (symmetry; by apply Z.eqb_neq). simpl.
  unfold bind. rewrite assign_dpi_spec. fold h.
  set (w1 := World _ _ _).
  destruct (write_text_cases (assignment_path self) (Py.str d) w1)
    as [(q & Hq & ->)|(e & -> & Hnf)].
  - left. by exists q.
  - right. by exists e.
Qed.

(** X14.  Setting a DPI and clearing it again: when [set_dpi(d)]
    returned normally, [set_dpi(None)] returns normally, finds both
    registry locations as it left them, resets both to 96 and removes the
    marker. *)
Theorem set_dpi_then_clear (d : Z) (w w1 : world) :
  d <> 0 ->
  set_dpi self (Some d) w = (Ok tt, w1) ->
  exists w2,
    set_dpi self None w1 = (Ok tt, w2)
    /\ hive_of (user_reg self) w2 !! fonts_entry = Some (VInt 96)
    /\ hive_of (user_reg self) w2 !! desktop_entry = Some (VInt 96)
    /\ fs w2 = delete (assignment_path self) (fs w1)
    /\ os.isfile (assignment_path self) (fs w2) = false.
Proof.
  intros Hd Hrun.
  destruct (set_dpi_value d w Hd) as [(q & Hq & Hrun')|(e & _ & Hrun')];
    rewrite Hrun in Hrun'; [|done]. injection Hrun' as ->.
  set (w1 := World _ _ _).
  assert (Hstat : os.stat (fs w1) (assignment_path self) = Some (File (Py.str d)))
    by by apply stat_written.
  assert (Hfile : os.isfile (assignment_path self) (fs w1) = true).
  { unfold os.isfile. by rewrite Hstat. }
  assert (Hours : dpi_is_ours self w1 = true).
  { unfold dpi_is_ours, marker_dpi. rewrite Hstat, universal_newlines_str, int_str.
    unfold hive_of. simpl. rewrite lookup_insert_eq. simpl.
    rewrite lookup_insert_ne by done. rewrite !lookup_insert_eq.
    by rewrite !bool_decide_eq_true_2. }
  destruct (set_dpi_clear self w1 Hfile) as (l & Hclear & _).
  rewrite Hours in Hclear.
  eexists. split; [exact Hclear|].
  unfold hive_of, reset_dpi. simpl hives. rewrite lookup_insert_eq. simpl.
  split; [rewrite lookup_insert_ne by done; apply lookup_insert_eq|].
  split; [apply lookup_insert_eq|]. split; [done|]. apply isfile_delete.
Qed.

End AssignDPI.

Lemma set_dpi_then_clear_witness :
  let w1 := (set_dpi Fixture.self (Some 120) Fixture.native).2 in
  exists w2,
    set_dpi Fixture.self None w1 = (Ok tt, w2)
    /\ hive_of "/pfx/user.reg" w2 !! fonts_entry = Some (VInt 96)
    /\ fs w2 !! "/pfx/.lutris_dpi_assignment" = None.
Proof.
  assert (Hrun : (set_dpi Fixture.self (Some 120) Fixture.native).1 = Ok tt) by by_evaluation.
  destruct (set_dpi_then_clear Fixture.self 120 Fixture.native
              (set_dpi Fixture.self (Some 120) Fixture.native).2)
    as (w2 & Hclear & Hf & _ & Hfs & _).
  - discriminate.
  - rewrite <- Hrun. apply surjective_pairing.
  - exists w2. split; [exact Hclear|]. split; [exact Hf|].
    rewrite Hfs. apply lookup_delete_eq.
Defined.

(** ** The defaults of a new prefix *)

Section Defaults.

Context (host : Host) (self : WinePrefixManager).

(** X15.  [setup_defaults] stores the empty override for
    [winemenubuilder] first.  When that has gone through, what follows
    leaves the registry as the override left it, however it ends; and it
    lets no [OSError] of the disintegration out: a failure of the file
    system there is logged, twice, and the call returns normally.  The
    one exception that can come out of the disintegration is the
    [AttributeError] of a shell folder whose registry value is a non-zero
    integer. *)
Theorem setup_defaults_outcome (w w1 : world) :
  override_dll self "winemenubuilder" EmptyString w = (Ok tt, w1) ->
  exists r w',
    setup_defaults host self w = (r, w')
    /\ hives w' = hives w1
    /\ (r = Ok tt
        \/ ((exists msg, r = Raise (AttributeError msg)) /\ odd_shell_folder self w1))
    /\ (forall e w2,
          enable_desktop_disintegration host self w1 = (Raise (OSError e), w2) ->
          r = Ok tt
          /\ trace w'
             = Logged EXCEPTION (exn_text (OSError e))
               :: Logged ERROR "Failed to setup desktop integration, the prefix may not be valid."
               :: trace w2).
Proof.
  intros Hset. unfold setup_defaults. simpl for_each.
  unfold bind at 1. unfold bind at 1. rewrite Hset. unfold ret. unfold try_except.
  destruct (enable_desktop_disintegration host self w1) as [[[]|e] w2] eqn:Erun.
  - pose proof (saves_no_hive_disintegration host self _ _ _ Erun) as [Hh _].
    eexists _, _. split; [reflexivity|]. split; [done|]. split; [by left|]. done.
  - pose proof (saves_no_hive_disintegration host self _ _ _ Erun) as [Hh _].
    destruct (disintegration_raises host self _ _ _ Erun) as [Hos|[[msg ->] Hodd]].
    + unfold os_error in Hos. rewrite Hos. unfold bind. simpl.
      eexists _, _. split; [reflexivity|]. split; [done|]. split; [by left|].
      by intros e' w2' [= -> ->].
    + simpl. eexists _, _. split; [reflexivity|]. split; [done|].
      split; [right; split; [by eexists|done]|]. done.
Qed.

End Defaults.

Lemma setup_defaults_outcome_witness :
  let r := setup_defaults Fixture.host Fixture.self Fixture.sandboxed in
  r.1 = Ok tt
  /\ hive_of "/pfx/user.reg" r.2 !! ("Software/Wine/DllOverrides", "winemenubuilder")
     = Some (VStr EmptyString)
  /\ hives r.2
     = hives (override_dll Fixture.self "winemenubuilder" EmptyString Fixture.sandboxed).2.
Proof.
  split; [by_evaluation|]. split; [by_evaluation|].
  assert (Hset : (override_dll Fixture.self "winemenubuilder" EmptyString Fixture.sandboxed).1
                 = Ok tt) by by_evaluation.
  destruct (setup_defaults_outcome Fixture.host Fixture.self Fixture.sandboxed
              (override_dll Fixture.self "winemenubuilder" EmptyString Fixture.sandboxed).2)
    as (r & w' & Hrun & Hh & _).
  - rewrite <- Hset. apply surjective_pairing.
  - cbv zeta. by rewrite Hrun.
Defined.

(** ** A transition that is done is not done again *)

Section Settled.

Context (host : Host) (self : WinePrefixManager).

(** The shape the three operations share: once it has run without a
    report of a marker write that failed, the marker says so, and a
    second run does nothing. *)
Lemma guarded_transition_settles (target : string) (loop : list string -> M unit)
    (w w1 : world) (l : list event) :
  let run :=
    (go <- needs_transition host self target ;;
     if go then
       desktop_folders <- get_desktop_folders self ;;
       loop desktop_folders ;;;
       _set_desktop_integration_assignment self target
     else ret tt) in
  (forall folders, saves_no_hive (loop folders)) ->
  Py.truthy target = true ->
  Py.universal_newlines target = target ->
  run w = (Ok tt, w1) ->
  trace w1 = l ++ trace w ->
  write_failure ∉ l ->
  run w1 = (Ok tt, w1)
  /\ ((w1 = w /\ needs_transition host self target w = (Ok false, w))
      \/ assignment self (fs w1) = target).
Proof.
  intros run Hloop Ht Hplain Hrun Htrace Hl. unfold run in *.
  destruct (needs_transition_total host self target w) as [go Hgo].
  apply bind_inv_ok in Hrun as (go' & w0 & Hgo' & Hrun).
  rewrite Hgo in Hgo'. injection Hgo' as <- <-.
  destruct go.
  - apply bind_inv_ok in Hrun as (folders & wa & Hget & Hrun).
    apply bind_inv_ok in Hrun as ([] & wb & Hfor & Hrun).
    assert (Hmark : assignment self (fs w1) = target).
    { destruct (set_assignment_cases self target wb Ht) as (w2 & Hrun2 & _ & Hcases).
      rewrite Hrun in Hrun2. injection Hrun2 as <-.
      destruct Hcases as [(q & Hq & -> & _)|(_ & _ & Hfail)].
      - rewrite <- Hplain at 2. by apply assignment_written.
      - exfalso. apply Hl.
        destruct (saves_no_hive_get_desktop_folders self _ _ _ Hget) as (_ & la & Hla & _).
        destruct (Hloop folders _ _ _ Hfor) as (_ & lb & Hlb & _).
        rewrite Hfail, Hlb, Hla in Htrace.
        change (write_failure :: lb ++ la ++ trace w)
          with ((write_failure :: lb) ++ la ++ trace w) in Htrace.
        rewrite (assoc_L (++)) in Htrace. apply app_inv_tail in Htrace.
        rewrite <- Htrace. apply list_elem_of_here. }
    split; [|by right].
    unfold bind. by rewrite (needs_transition_assigned host self _ _ Hmark).
  - injection Hrun as <-. split; [|by left]. unfold bind. by rewrite Hgo.
Qed.

(** X16.  [enable_desktop_disintegration] and
    [restore_desktop_integration] are done once.  Let the target (the
    guest user-profile directory for the one, the host home directory for
    the other) hold no carriage return, so that the marker reads back as
    it was written.  When a call returned normally and no event it added
    reports a marker write that failed, a second call returns normally
    and leaves the world exactly as it is, trace included; and the first
    call either did nothing or left the marker holding its target. *)
Theorem transitions_settle (w w1 : world) (l : list event) :
  trace w1 = l ++ trace w ->
  write_failure ∉ l ->
  (Py.universal_newlines (user_dir host self) = user_dir host self ->
   enable_desktop_disintegration host self w = (Ok tt, w1) ->
   enable_desktop_disintegration host self w1 = (Ok tt, w1)
   /\ (w1 = w \/ assignment self (fs w1) = user_dir host self))
  /\ (Py.universal_newlines (expanduser host "~") = expanduser host "~" ->
      restore_desktop_integration host self w = (Ok tt, w1) ->
      restore_desktop_integration host self w1 = (Ok tt, w1)
      /\ (w1 = w \/ assignment self (fs w1) = expanduser host "~")).
Proof.
  intros Htrace Hl. split; intros Hplain Hrun.
  - destruct (guarded_transition_settles (user_dir host self)
                (fun folders => for_each folders (disintegrate_folder host self)) w w1 l)
      as [Hagain [[Hsame _]|Hmark]]; [|apply user_dir_truthy|done..| |]; [|by auto..].
    intros folders. apply saves_no_hive_for_each. intros item.
    apply saves_no_hive_disintegrate_folder.
  - destruct (guarded_transition_settles (expanduser host "~")
                (fun folders => for_each_indexed 0 folders (restore_folder host self)) w w1 l)
      as [Hagain [[Hsame _]|Hmark]]; [|by apply expanduser_truthy|done..| |]; [|by auto..].
    intros folders. apply saves_no_hive_for_each_indexed. intros i item.
    apply saves_no_hive_restore_folder.
Qed.

End Settled.

Lemma transitions_settle_witness :
  let w1 := (restore_desktop_integration Fixture.host Fixture.self Fixture.native).2 in
  restore_desktop_integration Fixture.host Fixture.self w1 = (Ok tt, w1)
  /\ (w1 = Fixture.native \/ assignment Fixture.self (fs w1) = expanduser Fixture.host "~").
Proof.
  assert (Hrun : (restore_desktop_integration Fixture.host Fixture.self Fixture.native).1 = Ok tt)
    by by_evaluation.
  apply (transitions_settle Fixture.host Fixture.self Fixture.native _
           (trace (restore_desktop_integration Fixture.host Fixture.self Fixture.native).2)).
  - by_evaluation.
  - by_evaluation.
  - by_evaluation.
  - rewrite <- Hrun. apply surjective_pairing.
Defined.

(** ** One folder, sandboxed or restored *)

(** After [_remove_desktop_folder] returned, nothing is at the path,
    unless a regular file is, which the call does not touch. *)
Lemma remove_desktop_folder_post (p : string) (w w1 : world) :
  _remove_desktop_folder p (p +:+ ".winecfg") w = (Ok tt, w1) ->
  fs w1 !! p = None \/ (w1 = w /\ exists c, fs w !! p = Some (File c)).
Proof.
  intros Hrun. destruct (fs w !! p) as [[c|t|]|] eqn:E.
  - rewrite remove_other in Hrun by (rewrite E; done). injection Hrun as <-.
    right. split; [done|]. by exists c.
  - rewrite (remove_link _ _ t) in Hrun by done. injection Hrun as <-.
    left. simpl. apply lookup_delete_eq.
  - rewrite remove_dir in Hrun by done.
    destruct (os.has_entries p (fs w)).
    + destruct (rename_to_backup p w) as [[e He]|(w' & He & (_ & Hgone & _) & _)];
        rewrite He in Hrun; [done|]. injection Hrun as <-.
      left. apply Hgone. by left.
    + injection Hrun as <-. left. simpl. apply lookup_delete_eq.
  - rewrite remove_other in Hrun by (rewrite E; done). injection Hrun as <-. by left.
Qed.

Lemma isdir_entry (p : string) (m : filesystem) : m !! p = Some Dir -> os.isdir p m = true.
Proof.
  intros H. unfold os.isdir, os.stat, os.resolve. rewrite resolve_go_unfold, H. by rewrite H.
Qed.

(** The leaf of [os.makedirs]: when it returns, the directory is there. *)
Lemma makedirs_leaf_ok (name : string) (w w' : world) :
  try_except (os.mkdir name) is_OSError
    (fun e => d <- probe (os.isdir name) ;; if d then ret tt else raise e) w = (Ok tt, w') ->
  os.isdir name (fs w') = true.
Proof.
  unfold try_except, os.mkdir.
  destruct (fs w !! name) as [n|] eqn:E.
  - simpl. unfold bind, probe. destruct (os.isdir name (fs w)) eqn:Hd; [|done].
    by intros [= <-].
  - destruct (os.parent_check name (fs w)).
    + simpl. unfold bind, probe. destruct (os.isdir name (fs w)) eqn:Hd; [|done].
      by intros [= <-].
    + intros [= <-]. simpl. apply isdir_entry. apply lookup_insert_eq.
Qed.

Lemma makedirs_ok_isdir (name : string) (w w' : world) :
  (posixpath.split name).2 <> EmptyString -> (posixpath.split name).2 <> "." ->
  os.makedirs name w = (Ok tt, w') -> os.isdir name (fs w') = true.
Proof.
  intros Htail Hdot. unfold os.makedirs. rewrite makedirs_go_S.
  destruct (posixpath.split name) as [head tail]. simpl in Htail, Hdot.
  rewrite (truthy_true tail) by done.
  intros (head_exists & w0 & [= <- <-] & Hrun)%bind_inv_ok.
  destruct (_ && _).
  - apply bind_inv_ok in Hrun as ([] & w1 & _ & Hrun).
    rewrite decide_False in Hrun by done. by eapply makedirs_leaf_ok.
  - by eapply makedirs_leaf_ok.
Qed.

(** A new entry under a name that was free does not change where the
    paths that led somewhere lead. *)
Lemma resolve_go_insert_fresh (fuel : nat) (m : filesystem) (p q k : string) (v : node) :
  m !! k = None -> os.resolve_go fuel m p = Some q -> is_Some (m !! q) ->
  os.resolve_go fuel (<[k := v]> m) p = Some q.
Proof.
  intros Hk. revert p. induction fuel as [|n IH]; intros p Hq Hsome;
    rewrite resolve_go_unfold in Hq |- *.
  - destruct (decide (p = k)) as [->|Hne].
    + rewrite Hk in Hq. injection Hq as <-. rewrite Hk in Hsome. by destruct Hsome.
    + rewrite lookup_insert_ne by done. by destruct (m !! p) as [[]|].
  - destruct (decide (p = k)) as [->|Hne].
    + rewrite Hk in Hq. injection Hq as <-. rewrite Hk in Hsome. by destruct Hsome.
    + rewrite lookup_insert_ne by done. destruct (m !! p) as [[]|]; try done. by apply IH.
Qed.

(** With one link less to spend a chain ends where it did, or not at
    all. *)
Lemma resolve_go_less (fuel : nat) (m : filesystem) (p q : string) :
  os.resolve_go (S fuel) m p = Some q ->
  os.resolve_go fuel m p = Some q \/ os.resolve_go fuel m p = None.
Proof.
  revert p. induction fuel as [|n IH]; intros p Hq.
  - rewrite resolve_go_unfold in Hq. rewrite (resolve_go_unfold 0).
    destruct (m !! p) as [[]|]; try by left. by right.
  - rewrite resolve_go_unfold in Hq. rewrite (resolve_go_unfold (S n)).
    destruct (m !! p) as [[]|]; try by left. by apply IH.
Qed.

Lemma resolve_go_insert_fresh_none (fuel : nat) (m : filesystem) (p k : string) (v : node) :
  m !! k = None -> os.resolve_go fuel m p = None ->
  os.resolve_go fuel (<[k := v]> m) p = None.
Proof.
  intros Hk. revert p. induction fuel as [|n IH]; intros p Hq;
    rewrite resolve_go_unfold in Hq |- *.
  - destruct (decide (p = k)) as [->|Hne]; [by rewrite Hk in Hq|].
    rewrite lookup_insert_ne by done. by destruct (m !! p) as [[]|].
  - destruct (decide (p = k)) as [->|Hne]; [by rewrite Hk in Hq|].
    rewrite lookup_insert_ne by done. destruct (m !! p) as [[]|]; try done. by apply IH.
Qed.

(** A new link to an absolute path that leads to a directory leads
    there too, when the chain is not too long by the one link. *)
Lemma isdir_new_link (p t : string) (m : filesystem) :
  m !! p = None -> Py.startswith t "/" = true -> os.isdir t m = true ->
  os.isdir p (<[p := Link t]> m) = true \/ os.resolve (<[p := Link t]> m) p = None.
Proof.
  intros Hfree Habs. unfold os.isdir, os.stat, os.resolve.
  destruct (os.resolve_go os.MAXSYMLINKS m t) as [q|] eqn:Hq; [|done].
  destruct (m !! q) as [[]|] eqn:E; try done. intros _.
  unfold os.MAXSYMLINKS in *.
  rewrite (resolve_go_unfold 40 (<[p := Link t]> m) p). rewrite lookup_insert_eq.
  rewrite join_onto_absolute by done.
  destruct (resolve_go_less _ _ _ _ Hq) as [Hless|Hless].
  - left. rewrite (resolve_go_insert_fresh _ _ _ q) by (try done; by rewrite E).
    rewrite lookup_insert_ne; [by rewrite E|]. intros ->. congruence.
  - right. by apply resolve_go_insert_fresh_none.
Qed.

Section OneFolder.

Context (host : Host) (self : WinePrefixManager).

(** X17.  One turn of the sandbox loop that returns normally leaves the
    guest folder path a symbolic link to the folder of the same name in
    the sandbox directory.  When that folder has an absolute path the
    link does not dangle: the guest path leads to a directory, unless the
    chain of symbolic links that starts there is too long to follow.
    (The name is a proper last component of the sandbox path: not empty,
    not a dot.) *)
Theorem sandbox_folder_links (desktop_dir item : string) (w w' : world) :
  let path := posixpath.join (user_dir host self) item in
  let src_path := posixpath.join desktop_dir item in
  (posixpath.split src_path).2 <> EmptyString ->
  (posixpath.split src_path).2 <> "." ->
  sandbox_folder host self desktop_dir item w = (Ok tt, w') ->
  fs w' !! path = Some (Link src_path)
  /\ (Py.startswith src_path "/" = true ->
      os.isdir path (fs w') = true \/ os.resolve (fs w') path = None).
Proof.
  intros path src_path Htail Hdot. unfold sandbox_folder. fold path. fold src_path.
  intros ([] & w1 & _ & Hrun)%bind_inv_ok.
  apply bind_inv_ok in Hrun as ([] & w2 & Hmk & Hrun).
  apply symlink_ok in Hrun as [Hfree ->]. simpl.
  split; [apply lookup_insert_eq|]. intros Habs.
  pose proof (makedirs_ok_isdir _ _ _ Htail Hdot Hmk) as Hdir.
  by apply isdir_new_link.
Qed.

(** X18.  One turn of the restore loop that returns normally: when the
    host has a folder for the position, the guest folder path is a
    symbolic link to it (nothing makes sure that it leads anywhere); when
    the host has none, an error is logged and the guest folder is not
    replaced: what was there has been removed or moved to the backup
    path, and there is no folder at the path any more. *)
Theorem restore_folder_outcome (i : nat) (item xdg : string) (w w' : world) :
  let path := posixpath.join (user_dir host self) item in
  DESKTOP_XDG !! i = Some xdg ->
  restore_folder host self i item w = (Ok tt, w') ->
  match get_xdg_entry host xdg with
  | Some src_path =>
      if Py.truthy src_path then fs w' !! path = Some (Link src_path)
      else os.isdir path (fs w') = false /\ os.islink path (fs w') = false
  | None => os.isdir path (fs w') = false /\ os.islink path (fs w') = false
  end
  /\ (opt_truthy (get_xdg_entry host xdg) = false ->
      exists w1, _remove_desktop_folder path (path +:+ ".winecfg") w = (Ok tt, w1)
        /\ w' = emit (Logged ERROR ("No XDG entry found for " +:+ xdg +:+ ", launcher not created")) w1).
Proof.
  intros path Hx. unfold restore_folder. fold path. rewrite Hx.
  intros ([] & w1 & Hrm & Hrun)%bind_inv_ok.
  assert (Hgone : os.isdir path (fs w1) = false /\ os.islink path (fs w1) = false).
  { apply remove_desktop_folder_post in Hrm as [Hnone|[-> [c Hc]]].
    - unfold os.isdir, os.islink, os.stat, os.resolve.
      rewrite resolve_go_unfold, Hnone. by rewrite Hnone.
    - unfold os.isdir, os.islink, os.stat, os.resolve.
      rewrite resolve_go_unfold, Hc. by rewrite Hc. }
  destruct (get_xdg_entry host xdg) as [src|]; simpl in *.
  - destruct (Py.truthy src); simpl in *.
    + apply symlink_ok in Hrun as [_ ->]. simpl. split; [apply lookup_insert_eq|done].
    + injection Hrun as <-. split; [done|]. intros _. by exists w1.
  - injection Hrun as <-. split; [done|]. intros _. by exists w1.
Qed.

End OneFolder.

Lemma sandbox_folder_links_witness :
  let r := sandbox_folder Fixture.host Fixture.self "/tmp/sandbox" "Desktop" Fixture.native in
  r.1 = Ok tt
  /\ fs r.2 !! "/pfx/drive_c/users/joe/Desktop" = Some (Link "/tmp/sandbox/Desktop")
  /\ (os.isdir "/pfx/drive_c/users/joe/Desktop" (fs r.2) = true
      \/ os.resolve (fs r.2) "/pfx/drive_c/users/joe/Desktop" = None).
Proof.
  assert (Hrun : (sandbox_folder Fixture.host Fixture.self "/tmp/sandbox" "Desktop"
                    Fixture.native).1 = Ok tt) by by_evaluation.
  split; [exact Hrun|].
  destruct (sandbox_folder_links Fixture.host Fixture.self "/tmp/sandbox" "Desktop"
              Fixture.native
              (sandbox_folder Fixture.host Fixture.self "/tmp/sandbox" "Desktop"
                 Fixture.native).2) as (Hlink & Hdir).
  - by_evaluation.
  - by_evaluation.
  - rewrite <- Hrun. apply surjective_pairing.
  - split; [exact Hlink|]. apply Hdir. reflexivity.
Defined.

(** Why the folder of the sandbox has to have an absolute path: the
    folder is made where the working directory is, and the link is read
    from the guest folder it sits in. *)
Example sandbox_folder_relative :
  let w := Fixture.start (<[EmptyString := Dir]> Fixture.profile) in
  let r := sandbox_folder Fixture.host Fixture.self "sandbox" "Desktop" w in
  r.1 = Ok tt
  /\ fs r.2 !! "/pfx/drive_c/users/joe/Desktop" = Some (Link "sandbox/Desktop")
  /\ os.isdir "sandbox/Desktop" (fs r.2) = true
  /\ os.exists_ "/pfx/drive_c/users/joe/Desktop" (fs r.2) = false.
Proof. by_evaluation. Qed.

(** The fixture host has no music folder: the guest folder goes and no
    link comes. *)
Lemma restore_folder_outcome_witness :
  let w := Fixture.start (<["/pfx/drive_c/users/joe/Music" := Dir]> Fixture.profile) in
  let r := restore_folder Fixture.host Fixture.self 2 "Music" w in
  r.1 = Ok tt
  /\ fs r.2 !! "/pfx/drive_c/users/joe/Music" = None
  /\ os.isdir "/pfx/drive_c/users/joe/Music" (fs r.2) = false.
Proof.
  assert (Hrun : (restore_folder Fixture.host Fixture.self 2 "Music"
                    (Fixture.start (<["/pfx/drive_c/users/joe/Music" := Dir]> Fixture.profile))).1
                 = Ok tt) by by_evaluation.
  split; [exact Hrun|]. split; [by_evaluation|].
  destruct (restore_folder_outcome Fixture.host Fixture.self 2 "Music" "MUSIC"
              (Fixture.start (<["/pfx/drive_c/users/joe/Music" := Dir]> Fixture.profile))
              (restore_folder Fixture.host Fixture.self 2 "Music"
                 (Fixture.start (<["/pfx/drive_c/users/joe/Music" := Dir]> Fixture.profile))).2)
    as [Hcase _].
  - reflexivity.
  - rewrite <- Hrun. apply surjective_pairing.
  - exact (proj1 Hcase).
Defined.

(** ** A regular file in the place of a desktop folder *)

Lemma only_adds_same {A} (c : M A) : (forall w, exists r, c w = (r, w)) -> only_adds c.
Proof.
  intros Hc w r w' Hrun. destruct (Hc w) as [r0 H0]. rewrite H0 in Hrun.
  by injection Hrun as <- <-.
Qed.

Lemma only_adds_bind {A B} (m : M A) (k : A -> M B) :
  only_adds m -> (forall a, only_adds (k a)) -> only_adds (bind m k).
Proof.
  intros Hm Hk w r w'. unfold bind.
  destruct (m w) as [[a|e] w1] eqn:E.
  - intros Hrun. etrans; [by eapply Hm|by eapply Hk].
  - intros [= <- <-]. by eapply Hm.
Qed.

Lemma only_adds_try_except {A} (m : M A) (catches : exn -> bool) (h : exn -> M A) :
  only_adds m -> (forall e, only_adds (h e)) -> only_adds (try_except m catches h).
Proof.
  intros Hm Hh w r w'. unfold try_except.
  destruct (m w) as [[a|e] w1] eqn:E.
  - intros [= <- <-]. by eapply Hm.
  - destruct (catches e).
    + intros Hrun. etrans; [by eapply Hm|by eapply Hh].
    + intros [= <- <-]. by eapply Hm.
Qed.

Lemma only_adds_mkdir (p : string) : only_adds (os.mkdir p).
Proof.
  intros w r w'. unfold os.mkdir.
  destruct (fs w !! p) eqn:E; [by intros [= <- <-]|].
  destruct (os.parent_check p (fs w)); intros [= <- <-]; [done|].
  simpl. by apply insert_subseteq.
Qed.

Lemma only_adds_symlink (target p : string) : only_adds (os.symlink target p).
Proof.
  intros w r w'. unfold os.symlink.
  destruct (fs w !! p) eqn:E; [by intros [= <- <-]|].
  destruct (os.parent_check p (fs w)); intros [= <- <-]; [done|].
  simpl. by apply insert_subseteq.
Qed.

Lemma only_adds_makedirs_go (fuel : nat) (name : string) : only_adds (os.makedirs_go fuel name).
Proof.
  revert name. induction fuel as [|n IH]; intros name.
  - apply only_adds_same. intros w. by eexists.
  - rewrite makedirs_go_S.
    destruct (posixpath.split name) as [head tail].
    destruct (if Py.truthy tail then (head, tail) else posixpath.split head) as [head' tail'].
    assert (Hleaf : only_adds
              (try_except (os.mkdir name) is_OSError
                 (fun e => d <- probe (os.isdir name) ;; if d then ret tt else raise e))).
    { apply only_adds_try_except; [apply only_adds_mkdir|]. intros e.
      apply only_adds_same. intros w. unfold bind, probe.
      destruct (os.isdir name (fs w)); by eexists. }
    apply only_adds_bind; [apply only_adds_same; intros w; by eexists|]. intros head_exists.
    destruct (_ && _); [|done].
    apply only_adds_bind.
    + apply only_adds_try_except; [apply IH|].
      intros. apply only_adds_same. intros w. by eexists.
    + intros _. case_decide; [|done]. apply only_adds_same. intros w. by eexists.
Qed.

Section InTheWay.

Context (host : Host) (self : WinePrefixManager).

(** The sandbox turn leaves a regular file where it is, builds the folder
    of the sandbox, and fails to link: the name is taken. *)
Lemma sandbox_folder_blocked (desktop_dir item c : string) (w : world) :
  let path := posixpath.join (user_dir host self) item in
  fs w !! path = Some (File c) ->
  exists e w',
    sandbox_folder host self desktop_dir item w = (Raise (OSError e), w')
    /\ fs w' !! path = Some (File c).
Proof.
  intros path Hfile.
  assert (Hrm : _remove_desktop_folder path (path +:+ ".winecfg") w = (Ok tt, w)).
  { apply remove_other; rewrite Hfile; done. }
  unfold sandbox_folder. fold path.
  unfold bind at 1. rewrite Hrm. unfold bind.
  destruct (os.makedirs (posixpath.join desktop_dir item) w) as [[[]|e] w1] eqn:Emk.
  - pose proof (only_adds_makedirs_go _ _ _ _ _ Emk) as Hsub.
    pose proof (lookup_weaken _ _ _ _ Hfile Hsub) as Hfile1.
    unfold os.symlink. rewrite Hfile1. by eexists _, _.
  - pose proof (only_adds_makedirs_go _ _ _ _ _ Emk) as Hsub.
    pose proof (lookup_weaken _ _ _ _ Hfile Hsub) as Hfile1.
    pose proof (raises_only_makedirs _ _ _ _ Emk) as Hos.
    destruct e; try done. by eexists _, _.
Qed.

(** X20.  A regular file where a desktop folder is expected is left
    alone by all three loops, and stops two of them: the sandbox turn and
    the restore turn (for a position the host has a folder for) raise an
    [OSError], the restore turn [FileExistsError] with nothing changed,
    and the file is still there; the disintegration turn passes it by. *)
Theorem file_in_the_way (item c : string) (w : world) :
  let path := posixpath.join (user_dir host self) item in
  fs w !! path = Some (File c) ->
  (forall desktop_dir, exists e w',
     sandbox_folder host self desktop_dir item w = (Raise (OSError e), w')
     /\ fs w' !! path = Some (File c))
  /\ (forall i xdg, DESKTOP_XDG !! i = Some xdg ->
        opt_truthy (get_xdg_entry host xdg) = true ->
        restore_folder host self i item w = (Raise (OSError EEXIST), w))
  /\ disintegrate_folder host self item w = (Ok tt, w).
Proof.
  intros path Hfile.
  assert (Hrm : _remove_desktop_folder path (path +:+ ".winecfg") w = (Ok tt, w)).
  { apply remove_other; rewrite Hfile; done. }
  split; [|split].
  - intros desktop_dir. by apply sandbox_folder_blocked.
  - intros i xdg Hx Hsome. unfold restore_folder. fold path.
    unfold bind. rewrite Hrm, Hx, Hsome. simpl.
    unfold os.symlink. by rewrite Hfile.
  - apply disintegrate_folder_native. unfold os.islink. fold path. by rewrite Hfile.
Qed.

End InTheWay.

Lemma file_in_the_way_witness :
  let w := Fixture.start (<["/pfx/drive_c/users/joe/Desktop" := File "x"]> Fixture.profile) in
  restore_folder Fixture.host Fixture.self 0 "Desktop" w = (Raise (OSError EEXIST), w)
  /\ disintegrate_folder Fixture.host Fixture.self "Desktop" w = (Ok tt, w).
Proof.
  destruct (file_in_the_way Fixture.host Fixture.self "Desktop" "x"
              (Fixture.start (<["/pfx/drive_c/users/joe/Desktop" := File "x"]> Fixture.profile)))
    as (_ & Hrestore & Hdis).
  - by_evaluation.
  - split; [|exact Hdis]. apply (Hrestore 0%nat "DESKTOP"); reflexivity.
Defined.


(** ** Sandboxing *)

Lemma names_read_empty (keys : list string) : names_read ∅ keys = [].
Proof.
  induction keys as [|key keys IH]; [done|]. unfold names_read in *. simpl.
  unfold shell_folder at 1. by rewrite lookup_empty.
Qed.

Lemma for_each_skip {A} (l : list A) (body : A -> M unit) (w : world) :
  (forall x, body x w = (Ok tt, w)) -> for_each l body w = (Ok tt, w).
Proof.
  intros H. induction l as [|x l IH]; [done|]. simpl. unfold bind. by rewrite H.
Qed.

Lemma join_relative_ne (a b : string) :
  Py.startswith b "/" = false -> b <> EmptyString -> posixpath.join a b <> a.
Proof.
  intros Hb Hne E.
  destruct (join_relative a b Hb) as (a' & Hj & Ha & _). rewrite Hj in E.
  apply (f_equal String.length) in E. rewrite length_app_str in E.
  assert (0 < String.length b)%nat by (destruct b; [done|simpl; lia]).
  destruct Ha as [->| ->]; [lia|]. rewrite length_app_str in E. lia.
Qed.

Section Sandbox.

Context (host : Host) (self : WinePrefixManager).

(** The call with a directory that is not the user profile. *)
Lemma sandbox_unfold (d : string) :
  Py.truthy d = true ->
  expanduser host d <> user_dir host self ->
  enable_desktop_integration_sandbox host self (Some d)
  = (go <- needs_transition host self (expanduser host d) ;;
     if go then
       desktop_folders <- get_desktop_folders self ;;
       for_each desktop_folders (sandbox_folder host self (expanduser host d)) ;;;
       _set_desktop_integration_assignment self (expanduser host d)
     else ret tt).
Proof.
  intros Hd Hne. unfold enable_desktop_integration_sandbox. rewrite Hd.
  by rewrite decide_False.
Qed.

(** C2, as the code has it.  Let [d] be a sandbox directory whose
    expansion differs from the guest user-profile directory and holds no
    carriage return (so that the marker reads back as it was written).
    If the user-profile directory exists, the first call returns normally,
    and none of the events it added reports a marker write that failed,
    then the marker holds the expansion of [d], and a second call at once
    returns normally and leaves the world exactly as it is: no
    file-system mutation, no event at all. *)
Theorem sandbox_idempotent (d : string) (w w1 : world) (l : list event) :
  Py.truthy d = true ->
  expanduser host d <> user_dir host self ->
  Py.universal_newlines (expanduser host d) = expanduser host d ->
  system.path_exists (user_dir host self) (fs w) = true ->
  enable_desktop_integration_sandbox host self (Some d) w = (Ok tt, w1) ->
  trace w1 = l ++ trace w ->
  write_failure ∉ l ->
  enable_desktop_integration_sandbox host self (Some d) w1 = (Ok tt, w1)
  /\ _get_desktop_integration_assignment self w1 = (Ok (expanduser host d), w1).
Proof.
  intros Hd Hne Hplain Hprofile Hrun Htrace Hl.
  rewrite sandbox_unfold in Hrun |- * by done.
  destruct (guarded_transition_settles host self (expanduser host d)
              (fun folders => for_each folders (sandbox_folder host self (expanduser host d)))
              w w1 l) as [Hagain Hmark]; [|by apply expanduser_truthy|done..|].
  { intros folders. apply saves_no_hive_for_each. intros item.
    apply saves_no_hive_sandbox_folder. }
  split; [exact Hagain|].
  rewrite get_assignment_spec. f_equal. f_equal.
  destruct Hmark as [[-> Hgo]|Hmark]; [|done].
  rewrite needs_transition_present in Hgo by done.
  injection Hgo as Hgo. apply negb_false_iff in Hgo. by apply bool_decide_eq_true in Hgo.
Qed.

(** The profile with a file for its [Desktop]: the marker is not set, no
    entry is a link, and the registry has no folder names. *)
Lemma blocked_desktop_profile :
  system.path_exists (user_dir host self) (fs (blocked_desktop host self)) = true.
Proof.
  unfold system.path_exists. rewrite user_dir_truthy. simpl.
  unfold os.exists_, os.stat, os.resolve. rewrite resolve_go_unfold. simpl.
  rewrite lookup_insert_eq. by rewrite lookup_insert_eq.
Qed.

Lemma blocked_desktop_file :
  fs (blocked_desktop host self) !! posixpath.join (user_dir host self) "Desktop"
  = Some (File EmptyString).
Proof.
  simpl. rewrite lookup_insert_ne; [apply lookup_singleton_eq|].
  intros E. symmetry in E. by apply join_relative_ne in E.
Qed.

Lemma blocked_desktop_entries (p : string) :
  fs (blocked_desktop host self) !! p = None
  \/ fs (blocked_desktop host self) !! p = Some Dir
  \/ fs (blocked_desktop host self) !! p = Some (File EmptyString).
Proof.
  simpl. destruct (decide (p = user_dir host self)) as [->|Hu].
  - right. left. apply lookup_insert_eq.
  - rewrite lookup_insert_ne by done.
    destruct (decide (p = posixpath.join (user_dir host self) "Desktop")) as [->|Hd].
    + right. right. apply lookup_singleton_eq.
    + left. by apply lookup_singleton_ne.
Qed.

Lemma blocked_desktop_assignment :
  assignment self (fs (blocked_desktop host self)) = EmptyString.
Proof.
  unfold assignment, os.stat, os.resolve. rewrite resolve_go_unfold.
  destruct (blocked_desktop_entries (setting_path self)) as [E|[E|E]]; rewrite E; by rewrite ?E.
Qed.

Lemma blocked_desktop_folders :
  exists wa,
    get_desktop_folders self (blocked_desktop host self) = (Ok DEFAULT_DESKTOP_FOLDERS, wa)
    /\ fs wa = fs (blocked_desktop host self).
Proof.
  destruct (get_desktop_folders_loop_trace self DESKTOP_KEYS [] (blocked_desktop host self))
    as (r & wa & Hrun & Hfs & _ & _ & _ & Hnames).
  assert (Hh : hive_of (user_reg self) (blocked_desktop host self) = ∅).
  { unfold hive_of. simpl. by rewrite lookup_empty. }
  rewrite Hh in Hnames. rewrite names_read_empty in Hnames.
  exists wa. split; [|done].
  unfold get_desktop_folders, bind, ret. rewrite Hrun, Hnames; [done|].
  intros (key & z & _ & Hv & _). unfold shell_folder in Hv. by rewrite lookup_empty in Hv.
Qed.

(** C8, as the code has it.  [enable_desktop_integration_sandbox] is
    [enable_desktop_disintegration] (the same transformer of the world)
    exactly when the target is [None] or empty, or expands to the guest
    user-profile directory.  For any other target there is a world the
    two treat differently. *)
Theorem sandbox_degenerates (target : option string) :
  (forall w, enable_desktop_integration_sandbox host self target w
             = enable_desktop_disintegration host self w)
  <-> (opt_truthy target = false
       \/ exists d, target = Some d /\ expanduser host d = user_dir host self).
Proof.
  split.
  - intros Hsame.
    destruct target as [d|]; [|by left]. simpl.
    destruct (Py.truthy d) eqn:Hd; [|by left]. right. exists d. split; [done|].
    destruct (decide (expanduser host d = user_dir host self)) as [|Hne]; [done|].
    exfalso. specialize (Hsame (blocked_desktop host self)).
    pose proof blocked_desktop_profile as Hprofile.
    pose proof blocked_desktop_assignment as Hmark.
    destruct blocked_desktop_folders as (wa & Hget & Hfs).
    assert (Hu : user_dir host self <> EmptyString).
    { intros E. pose proof (user_dir_truthy host self) as Ht. by rewrite E in Ht. }
    assert (Hx : expanduser host d <> EmptyString).
    { intros E. pose proof (expanduser_truthy host d Hd) as Ht. by rewrite E in Ht. }
    assert (Hsandbox : exists e w',
              enable_desktop_integration_sandbox host self (Some d) (blocked_desktop host self)
              = (Raise (OSError e), w')).
    { rewrite sandbox_unfold by done. unfold bind at 1.
      rewrite needs_transition_present by done. rewrite Hmark.
      rewrite bool_decide_eq_false_2 by done. change (negb false) with true. cbv iota.
      unfold bind at 1. rewrite Hget.
      destruct (sandbox_folder_blocked host self (expanduser host d) "Desktop" EmptyString wa)
        as (e & w' & Hturn & _); [rewrite Hfs; apply blocked_desktop_file|].
      unfold DEFAULT_DESKTOP_FOLDERS. simpl for_each.
      unfold bind at 1. unfold bind at 1. rewrite Hturn. by eexists _, _. }
    assert (Hdis : exists w1,
              enable_desktop_disintegration host self (blocked_desktop host self) = (Ok tt, w1)).
    { rewrite disintegration_unfold by (by rewrite ?Hmark).
      unfold bind at 1. rewrite Hget. unfold bind at 1.
      rewrite for_each_skip.
      - apply set_assignment_total.
      - intros item. apply disintegrate_folder_native. unfold os.islink. rewrite Hfs.
        by destruct (blocked_desktop_entries (posixpath.join (user_dir host self) item))
          as [E|[E|E]]; rewrite E. }
    destruct Hsandbox as (e & w' & Hsandbox). destruct Hdis as (w1 & Hdis).
    rewrite Hsandbox, Hdis in Hsame. done.
  - intros [Hfalse|(d & -> & Heq)] w.
    + unfold enable_desktop_integration_sandbox.
      destruct target as [d|]; simpl in *.
      * rewrite Hfalse. by rewrite decide_True.
      * by rewrite decide_True.
    + unfold enable_desktop_integration_sandbox.
      destruct (Py.truthy d); by rewrite decide_True.
Qed.

End Sandbox.

Lemma sandbox_idempotent_witness :
  let sandbox := enable_desktop_integration_sandbox Fixture.host Fixture.self (Some "/tmp/sandbox") in
  let w1 := (sandbox Fixture.native).2 in
  sandbox w1 = (Ok tt, w1)
  /\ _get_desktop_integration_assignment Fixture.self w1 = (Ok "/tmp/sandbox", w1).
Proof.
  assert (Hrun : (enable_desktop_integration_sandbox Fixture.host Fixture.self
                    (Some "/tmp/sandbox") Fixture.native).1 = Ok tt) by by_evaluation.
  apply (sandbox_idempotent Fixture.host Fixture.self "/tmp/sandbox" Fixture.native _
           (trace (enable_desktop_integration_sandbox Fixture.host Fixture.self
                     (Some "/tmp/sandbox") Fixture.native).2)).
  - by_evaluation.
  - by_evaluation.
  - by_evaluation.
  - by_evaluation.
  - rewrite <- Hrun. apply surjective_pairing.
  - by_evaluation.
  - by_evaluation.
Defined.

(** C2 as stated fails, in four ways.  With no user profile in the prefix
    the first call returns normally and the marker does not hold the
    directory.  When the marker cannot be written the failure is logged
    and swallowed, the first call returns normally all the same, and the
    second call goes through the folders again (it unlinks the five links
    and makes them anew).  The marker holds the expansion of the
    directory, not its spelling.  And a directory with a carriage return
    in its name is written to the marker as it is but read back with a
    line feed, so that the second call goes through the folders again. *)
Lemma sandbox_repeats :
  let sandbox d := enable_desktop_integration_sandbox Fixture.host Fixture.self (Some d) in
  let mutations w := length (List.filter is_mutation (trace w)) in
  (sandbox "/tmp/sandbox" Fixture.bare = (Ok tt, Fixture.bare)
   /\ _get_desktop_integration_assignment Fixture.self Fixture.bare
      = (Ok EmptyString, Fixture.bare)
   /\ fs Fixture.bare !! setting_path Fixture.self = None)
  /\ (let r1 := sandbox "/tmp/sandbox" Fixture.unwritable in
      let r2 := sandbox "/tmp/sandbox" r1.2 in
      r1.1 = Ok tt /\ r2.1 = Ok tt
      /\ assignment Fixture.self (fs r1.2) = EmptyString
      /\ head (trace r1.2) = Some write_failure
      /\ mutations r1.2 = 13%nat /\ mutations r2.2 = 23%nat)
  /\ (let r := sandbox "~/sandbox" Fixture.native in
      r.1 = Ok tt
      /\ (_get_desktop_integration_assignment Fixture.self r.2).1 = Ok "/home/joe/sandbox")
  /\ (let d := "/tmp/sand" +:+ String "013" "box" in
      let r1 := sandbox d Fixture.native in
      let r2 := sandbox d r1.2 in
      r1.1 = Ok tt /\ r2.1 = Ok tt
      /\ fs r1.2 !! setting_path Fixture.self = Some (File d)
      /\ (_get_desktop_integration_assignment Fixture.self r1.2).1
         = Ok ("/tmp/sand" +:+ String "010" "box")
      /\ (write_failure ∉ trace r1.2)
      /\ mutations r1.2 = 14%nat /\ mutations r2.2 = 25%nat).
Proof. by_evaluation. Qed.

(** C8 as stated fails: the empty target does not expand to the user
    profile, and the call is [enable_desktop_disintegration] all the
    same. *)
Lemma sandbox_empty_target :
  expanduser Fixture.host EmptyString <> user_dir Fixture.host Fixture.self
  /\ enable_desktop_integration_sandbox Fixture.host Fixture.self (Some EmptyString)
     = enable_desktop_disintegration Fixture.host Fixture.self
  /\ enable_desktop_integration_sandbox Fixture.host Fixture.self None
     = enable_desktop_disintegration Fixture.host Fixture.self.
Proof. split; [by_evaluation|]. split; reflexivity. Qed.

(** The host home directory is a sandbox like any other: the guest
    folders become links into it. *)
Example sandbox_into_home :
  let r := enable_desktop_integration_sandbox Fixture.host Fixture.self (Some "~") Fixture.native in
  r.1 = Ok tt
  /\ fs r.2 !! "/pfx/drive_c/users/joe/Documents" = Some (Link "/home/joe/Documents")
  /\ assignment Fixture.self (fs r.2) = "/home/joe".
Proof. by_evaluation. Qed.

(** ** No user data is deleted *)








Section KeepData.

Context (host : Host) (self : WinePrefixManager).







End KeepData.


(** The renames of the sandbox transition on the fixture take the file of
    the [Desktop] folder to the backup path, and there it is. *)
Example sandbox_routes_desktop :
  let r := enable_desktop_integration_sandbox Fixture.host Fixture.self (Some "/tmp/sandbox")
             Fixture.native in
  route (trace r.2) "/pfx/drive_c/users/joe/Desktop/notes.txt"
  = "/pfx/drive_c/users/joe/Desktop.winecfg/notes.txt"
  /\ fs Fixture.native !! "/pfx/drive_c/users/joe/Desktop/notes.txt" = Some (File "hello")
  /\ fs r.2 !! "/pfx/drive_c/users/joe/Desktop.winecfg/notes.txt" = Some (File "hello").
Proof. by_evaluation. Qed.

(** ** The whole disintegration *)











Section WholeDisintegration.

Context (host : Host) (self : WinePrefixManager).






End WholeDisintegration.


